(** * RipeTomato weather monitoring agent: a shallow embedding

  The Python agents of [src/agents/python] are embedded as pure
  functions over explicit state:

  - [base_agent.py]: [CrossLanguageMessage], the handler registry and
    the ready handshake;
  - [noaa_weather_service.py]: [NOAAAlert], [NOAAWeatherReading],
    [NOAALocation] and the throttled [_make_request];
  - [weather_monitoring_agent.py]: [WeatherReading], [WeatherAlert],
    [WeatherSimulator] and [WeatherMonitoringAgent].

  Conventions of the embedding.

  - Python [float]s are exact rationals ([Q]); [int]s are [Z].
  - A timestamp is an ISO-8601 string in the source, always produced
    by [datetime.now(timezone.utc).isoformat()]; it is represented by
    the instant it denotes, in microseconds since the epoch ([Z]), so
    that [datetime.fromisoformat(ts) > cutoff] is a comparison in [Z].
  - The wall clock, the random draws and the answers of the upstream
    weather service are inputs of the functions that consume them.
  - [print(json.dumps(...))] in [send_message] appends the message to
    the agent's [outbox]. *)

From Stdlib Require Import Ascii QArith Qround Qabs Lqa.
From stdpp Require Import gmap strings list fin_maps pretty.

Set Default Proof Using "Type".
Set Warnings "-clear-no-such-hyp".

(** ** Python values *)

(** JSON-like values carried in dictionaries and message payloads.
  [VTime] is a string value that holds an ISO-8601 timestamp. *)
#[warnings="-register-all"]
Inductive pyval :=
| VNone
| VBool (b : bool)
| VInt (n : Z)
| VFloat (q : Q)
| VStr (s : string)
| VTime (t : Z)
| VList (l : list pyval)
| VDict (d : gmap string pyval).

Definition as_str (v : pyval) : option string :=
match v with VStr s => Some s | _ => None end.
Definition as_float (v : pyval) : option Q :=
match v with VFloat q => Some q | _ => None end.
Definition as_int (v : pyval) : option Z :=
match v with VInt n => Some n | _ => None end.
Definition as_time (v : pyval) : option Z :=
match v with VTime t => Some t | _ => None end.

(** The value of [x] in a numeric comparison ([bool] is a subclass of
  [int]); [None] where Python raises [TypeError]. *)
Definition as_number (v : pyval) : option Q :=
match v with
| VInt n => Some (inject_Z n)
| VFloat q => Some q
| VBool b => Some (if b then 1%Q else 0%Q)
| _ => None
end.

(** [x or default] on an optional float: [None] and [0.0] are falsy. *)
Definition or_float (x : option Q) (default : Q) : Q :=
match x with
| Some q => if Qeq_bool q 0 then default else q
| None => default
end.

Definition or_str (x : option string) (default : string) : string :=
match x with
| Some s => if decide (s = "") then default else s
| None => default
end.

(** ** Arithmetic helpers *)

Definition Qmax (a b : Q) : Q := if Qle_bool b a then a else b.
Definition Qmin (a b : Q) : Q := if Qle_bool a b then a else b.
Definition Qgtb (a b : Q) : bool := negb (Qle_bool a b).
Definition Qltb (a b : Q) : bool := negb (Qle_bool b a).
Definition Qgeb (a b : Q) : bool := Qle_bool b a.

(** Round to the nearest integer, ties to even. *)
Definition round_half_even (x : Q) : Z :=
let f := Qfloor x in
let r := (x - inject_Z f)%Q in
if Qltb r (1 # 2) then f
else if Qgtb r (1 # 2) then (f + 1)%Z
else if Z.even f then f else (f + 1)%Z.

Definition pow10 (ndigits : nat) : Z := (10 ^ Z.of_nat ndigits)%Z.

(** [round(x, ndigits)]. *)
Definition round (x : Q) (ndigits : nat) : Q :=
(inject_Z (round_half_even (x * inject_Z (pow10 ndigits))) / inject_Z (pow10 ndigits))%Q.

(** [int(x)]: truncation toward zero. *)
Definition int (x : Q) : Z :=
if Qle_bool 0 x then Qfloor x else Qceiling x.

(** ** [weather_monitoring_agent.py]: WeatherReading *)

Module WeatherReading.

Record t := mk {
  timestamp : Z;
  temperature_f : Q;
  humidity_percent : Q;
  precipitation_inches : Q;
  wind_speed_mph : Q;
  wind_direction : string;
  pressure_mb : Q;
  visibility_miles : Q;
  conditions : string;
  uv_index : Z
}.

(** [asdict(self)] *)
Definition to_dict (r : t) : gmap string pyval :=
  <["timestamp" := VTime (timestamp r)]>
  (<["temperature_f" := VFloat (temperature_f r)]>
  (<["humidity_percent" := VFloat (humidity_percent r)]>
  (<["precipitation_inches" := VFloat (precipitation_inches r)]>
  (<["wind_speed_mph" := VFloat (wind_speed_mph r)]>
  (<["wind_direction" := VStr (wind_direction r)]>
  (<["pressure_mb" := VFloat (pressure_mb r)]>
  (<["visibility_miles" := VFloat (visibility_miles r)]>
  (<["conditions" := VStr (conditions r)]>
  (<["uv_index" := VInt (uv_index r)]> ∅))))))))).

Definition field_names : gset string :=
  {[ "timestamp"; "temperature_f"; "humidity_percent";
     "precipitation_inches"; "wind_speed_mph"; "wind_direction";
     "pressure_mb"; "visibility_miles"; "conditions"; "uv_index" ]}.

(** [from_dict]: the constructor is applied to the entries of [data]
    as keyword arguments, which must be exactly the ten
    fields ([TypeError] otherwise, here [None]).  The record is typed,
    so a value of another type than the field's annotation is refused
    as well. *)
Definition from_dict (data : gmap string pyval) : option t :=
  if bool_decide (dom data = field_names) then
    ts ← data !! "timestamp" ≫= as_time;
    te ← data !! "temperature_f" ≫= as_float;
    hu ← data !! "humidity_percent" ≫= as_float;
    pr ← data !! "precipitation_inches" ≫= as_float;
    ws ← data !! "wind_speed_mph" ≫= as_float;
    wd ← data !! "wind_direction" ≫= as_str;
    pm ← data !! "pressure_mb" ≫= as_float;
    vi ← data !! "visibility_miles" ≫= as_float;
    co ← data !! "conditions" ≫= as_str;
    uv ← data !! "uv_index" ≫= as_int;
    Some (mk ts te hu pr ws wd pm vi co uv)
  else None.

End WeatherReading.

(** ** [weather_monitoring_agent.py]: WeatherAlert *)

Module WeatherAlert.

Record t := mk {
  alert_id : string;
  timestamp : Z;
  alert_type : string;
  severity : string;
  message : string;
  recommendations : list string;
  affected_services : list string
}.

Definition to_dict (a : t) : gmap string pyval :=
  <["alert_id" := VStr (alert_id a)]>
  (<["timestamp" := VTime (timestamp a)]>
  (<["alert_type" := VStr (alert_type a)]>
  (<["severity" := VStr (severity a)]>
  (<["message" := VStr (message a)]>
  (<["recommendations" := VList (VStr <$> recommendations a)]>
  (<["affected_services" := VList (VStr <$> affected_services a)]> ∅)))))).

End WeatherAlert.

(** ** [base_agent.py]: CrossLanguageMessage *)

Module CrossLanguageMessage.

Record t := mk {
  id : string;
  type : string;
  timestamp : Z;
  source : pyval;
  destination : pyval;
  payload : pyval;
  metadata : pyval
}.

(** [__init__]: the timestamp is not an argument, it is read from the
    clock ([now]) when the object is built. *)
Definition init (now : Z) (msg_id msg_type : string)
    (source destination payload metadata : pyval) : t :=
  {| id := msg_id; type := msg_type; timestamp := now;
     source := source; destination := destination;
     payload := payload; metadata := metadata |}.

Definition to_dict (m : t) : gmap string pyval :=
  <["id" := VStr (id m)]>
  (<["timestamp" := VTime (timestamp m)]>
  (<["type" := VStr (type m)]>
  (<["source" := source m]>
  (<["destination" := destination m]>
  (<["payload" := payload m]>
  (<["metadata" := metadata m]> ∅)))))).

(** [from_dict]: [data['timestamp']] is never read; a missing key is a
    [KeyError], here [None]. *)
Definition from_dict (now : Z) (data : gmap string pyval) : option t :=
  i ← data !! "id" ≫= as_str;
  ty ← data !! "type" ≫= as_str;
  src ← data !! "source";
  dst ← data !! "destination";
  pl ← data !! "payload";
  md ← data !! "metadata";
  Some (init now i ty src dst pl md).

End CrossLanguageMessage.


(** ** [noaa_weather_service.py]: data classes *)

Definition opt_float (x : option Q) : pyval :=
  match x with Some q => VFloat q | None => VNone end.
Definition opt_str (x : option string) : pyval :=
  match x with Some s => VStr s | None => VNone end.

Module NOAALocation.

Record t := mk {
  latitude : Q;
  longitude : Q;
  grid_id : string;
  grid_x : Z;
  grid_y : Z;
  forecast_office : string;
  city : string;
  state : string
}.

Definition to_dict (l : t) : gmap string pyval :=
  <["latitude" := VFloat (latitude l)]>
  (<["longitude" := VFloat (longitude l)]>
  (<["grid_id" := VStr (grid_id l)]>
  (<["grid_x" := VInt (grid_x l)]>
  (<["grid_y" := VInt (grid_y l)]>
  (<["forecast_office" := VStr (forecast_office l)]>
  (<["city" := VStr (city l)]>
  (<["state" := VStr (state l)]> ∅))))))).

End NOAALocation.

Module NOAAWeatherReading.

Record t := mk {
  timestamp : Z;
  temperature_f : option Q;
  humidity_percent : option Q;
  wind_speed_mph : option Q;
  wind_direction : option string;
  pressure_mb : option Q;
  visibility_miles : option Q;
  conditions : string;
  detailed_forecast : string;
  source : string
}.

End NOAAWeatherReading.

Module NOAAAlert.

Record t := mk {
  alert_id : string;
  event : string;
  severity : string;
  certainty : string;
  urgency : string;
  headline : string;
  description : string;
  instruction : option string;
  areas : list string;
  effective : string;
  expires : string;
  sender : string;
  status : string;
  message_type : string
}.

Definition to_dict (a : t) : gmap string pyval :=
  <["alert_id" := VStr (alert_id a)]>
  (<["event" := VStr (event a)]>
  (<["severity" := VStr (severity a)]>
  (<["certainty" := VStr (certainty a)]>
  (<["urgency" := VStr (urgency a)]>
  (<["headline" := VStr (headline a)]>
  (<["description" := VStr (description a)]>
  (<["instruction" := opt_str (instruction a)]>
  (<["areas" := VList (VStr <$> areas a)]>
  (<["effective" := VStr (effective a)]>
  (<["expires" := VStr (expires a)]>
  (<["sender" := VStr (sender a)]>
  (<["status" := VStr (status a)]>
  (<["message_type" := VStr (message_type a)]> ∅))))))))))))).

End NOAAAlert.

(** ** [noaa_weather_service.py]: NOAAWeatherService._make_request *)

(** What one [session.get(url)] can end in: a response with its status,
    or one of the exceptions the method catches. *)
Inductive http_reply :=
| Status200 (data : pyval)
| Status404
| Status429
| StatusOther (code : Z)
| TimeoutError
| ClientError
| OtherError.

Module NOAAWeatherService.

Record t := mk {
  base_url : string;
  user_agent : string;
  session : bool;
  rate_limit_delay : Q;
  last_request_time : Q
}.

(** [__init__] *)
Definition init (user_agent : string) : t :=
  {| base_url := "https://api.weather.gov"; user_agent := user_agent;
     session := false; rate_limit_delay := 1; last_request_time := 0 |}.

(** [initialize]: open the HTTP session if there is none. *)
Definition initialize (svc : t) : t :=
  if session svc then svc
  else {| base_url := base_url svc; user_agent := user_agent svc;
          session := true; rate_limit_delay := rate_limit_delay svc;
          last_request_time := last_request_time svc |}.

Definition set_last_request_time (svc : t) (now : Q) : t :=
  {| base_url := base_url svc; user_agent := user_agent svc;
     session := session svc; rate_limit_delay := rate_limit_delay svc;
     last_request_time := now |}.

(** The world the service talks to: the clock ([time.time()], seconds)
    and the number of GET requests sent so far.  The upstream is a
    function from the index of a request to the reply it gets. *)
Record world := mkWorld {
  clock : Q;
  sent : nat
}.

(** [await asyncio.sleep(d)] *)
Definition sleep (d : Q) (w : world) : world :=
  {| clock := (clock w + d)%Q; sent := sent w |}.

Definition get (upstream : nat -> http_reply) (w : world) : http_reply * world :=
  (upstream (sent w), {| clock := clock w; sent := S (sent w) |}).

(** [_make_request].  [depth] bounds the nesting of the recursive call
    of the 429 branch: the source passes no counter, so the model has to
    supply one to be a total function; [None] means that [depth] nested
    calls were not enough.  [Some (r, svc, w)] is a return with result
    [r] ([None] for Python's [None]). *)
Fixpoint _make_request (depth : nat) (upstream : nat -> http_reply)
    (svc : t) (w : world) : option (option pyval * t * world) :=
  match depth with
  | O => None
  | S depth' =>
    let current_time := clock w in
    let time_since_last := (current_time - last_request_time svc)%Q in
    let w :=
      if Qltb time_since_last (rate_limit_delay svc)
      then sleep (rate_limit_delay svc - time_since_last) w else w in
    let svc := set_last_request_time svc (clock w) in
    let svc := if session svc then svc else initialize svc in
    let '(response, w) := get upstream w in
    match response with
    | Status200 data => Some (Some data, svc, w)
    | Status404 => Some (None, svc, w)
    | Status429 => _make_request depth' upstream svc (sleep 5 w)
    | StatusOther _ => Some (None, svc, w)
    | TimeoutError => Some (None, svc, w)
    | ClientError => Some (None, svc, w)
    | OtherError => Some (None, svc, w)
    end
  end.

(** The number of retries of a call that sent [n] requests. *)
Definition retries (before after : world) : nat := sent after - sent before - 1.

End NOAAWeatherService.

(** An upstream that throttles the first [k] requests, then answers. *)
Definition throttled (k : nat) (data : pyval) : nat -> http_reply :=
  fun i => if (i <? k)%nat then Status429 else Status200 data.

(** An upstream under sustained load. *)
Definition always_throttled : nat -> http_reply := fun _ => Status429.

(** ** [weather_monitoring_agent.py]: WeatherSimulator *)

(** The clock as the agent reads it: [datetime.now(timezone.utc)] as an
    instant in microseconds, and [datetime.now().hour], the hour of the
    local wall clock. *)
Record clock := mkClock {
  now : Z;
  local_hour : Z
}.

Definition hours (h : Z) : Z := (h * 3600 * 1000000)%Z.

(** [int(time.time())] and [int(time.time() * 1000)] *)
Definition time_s (c : clock) : Z := (now c / 1000000)%Z.
Definition time_ms (c : clock) : Z := (now c / 1000)%Z.

(** [random.uniform(a, b)] is [a + (b - a) * random()];
    [random.normalvariate(mu, sigma)] is [mu + z * sigma] for a standard
    normal variate [z]. *)
Definition uniform (a b u : Q) : Q := (a + (b - a) * u)%Q.
Definition normalvariate (mu sigma z : Q) : Q := (mu + z * sigma)%Q.

(** The outcomes of the random draws of one call of
    [generate_hourly_reading], in the order of the source; a [u_] field is
    the [random()] behind the call, a [z_] field the standard normal
    variate behind it. *)
Record draws := mkDraws {
  z_temp : Q;
  z_humidity : Q;
  u_precip_chance : Q;
  u_precip : Q;
  u_precip_heavy : Q;
  u_wind : Q;
  u_wind_storm : Q;
  z_wind : Q;
  choice_direction : nat;
  z_pressure : Q;
  randint_uv : Z;
  u_temp_trend : Q;
  u_new_temp_trend : Q;
  u_pressure_trend : Q;
  u_new_pressure_trend : Q;
  u_storm : Q;
  u_new_storm : Q
}.

Definition unit_interval (u : Q) : Prop := (0 <= u)%Q /\ (u < 1)%Q.

(** Draws the library can return: [random()] lies in [0, 1),
    [randint(0, 2)] in 0..2 and [choice] picks an index of the list. *)
Definition draws_ok (d : draws) : Prop :=
  unit_interval (u_precip_chance d) /\ unit_interval (u_precip d) /\
  unit_interval (u_precip_heavy d) /\ unit_interval (u_wind d) /\
  unit_interval (u_wind_storm d) /\ (choice_direction d < 16)%nat /\
  (0 <= randint_uv d <= 2)%Z /\
  unit_interval (u_temp_trend d) /\ unit_interval (u_new_temp_trend d) /\
  unit_interval (u_pressure_trend d) /\ unit_interval (u_new_pressure_trend d) /\
  unit_interval (u_storm d) /\ unit_interval (u_new_storm d).

Module WeatherSimulator.

(** [current_conditions] is a dictionary with three fixed keys, read and
    written by literal key only: it is kept as three fields. *)
Record t := mk {
  base_temp : Q;
  location : string;
  temperature_trend : Q;
  pressure_trend : Q;
  storm_probability : Q
}.

Definition init (base_temp : Q) (location : string) : t :=
  {| base_temp := base_temp; location := location;
     temperature_trend := 0; pressure_trend := 0;
     storm_probability := 1 # 10 |}.

Definition directions : list string :=
  ["N"; "NNE"; "NE"; "ENE"; "E"; "ESE"; "SE"; "SSE";
   "S"; "SSW"; "SW"; "WSW"; "W"; "WNW"; "NW"; "NNW"].

(** [_update_trends] *)
Definition _update_trends (sim : t) (d : draws) : t :=
  let temperature_trend :=
    if Qltb (u_temp_trend d) (1 # 10)
    then uniform (-5) 5 (u_new_temp_trend d) else temperature_trend sim in
  let pressure_trend :=
    if Qltb (u_pressure_trend d) (15 # 100)
    then uniform (-10) 10 (u_new_pressure_trend d) else pressure_trend sim in
  let storm_probability :=
    if Qltb (u_storm d) (2 # 10)
    then Qmax (5 # 100) (Qmin (8 # 10)
           (storm_probability sim + uniform (-(2 # 10)) (2 # 10) (u_new_storm d)))
    else storm_probability sim in
  {| base_temp := base_temp sim; location := location sim;
     temperature_trend := temperature_trend;
     pressure_trend := pressure_trend;
     storm_probability := storm_probability |}.

Definition hour_of_day (c : clock) (hour_offset : Z) : Z :=
  ((local_hour c + hour_offset) mod 24)%Z.

(** The values of [generate_hourly_reading] before they are rounded. *)
Definition temperature (sim : t) (c : clock) (hour_offset : Z) (d : draws) : Q :=
  let daily_temp_variation :=
    (15 * ((1 # 2) - Qabs (inject_Z (hour_of_day c hour_offset - 14)) / 24))%Q in
  let temp_noise := normalvariate 0 3 (z_temp d) in
  (base_temp sim + daily_temp_variation + temp_noise + temperature_trend sim)%Q.

Definition humidity (sim : t) (c : clock) (hour_offset : Z) (d : draws) : Q :=
  let base_humidity :=
    Qmax 30 (Qmin 90 (80 - (temperature sim c hour_offset d - base_temp sim) * (15 # 10)))%Q in
  Qmax 20 (Qmin 95 (base_humidity + normalvariate 0 10 (z_humidity d)))%Q.

Definition precipitation (sim : t) (d : draws) : Q :=
  let precip_chance := u_precip_chance d in
  if Qltb precip_chance (storm_probability sim) then
    if Qltb precip_chance (storm_probability sim * (2 # 10))%Q
    then uniform (5 # 10) 2 (u_precip_heavy d)
    else uniform (1 # 100) (5 # 10) (u_precip d)
  else 0.

Definition wind_speed (sim : t) (d : draws) : Q :=
  let base_wind := (5 + uniform 0 10 (u_wind d))%Q in
  let base_wind :=
    if Qgtb (precipitation sim d) (1 # 10)
    then (base_wind + uniform 5 20 (u_wind_storm d))%Q else base_wind in
  Qmax 0 (base_wind + normalvariate 0 3 (z_wind d))%Q.

Definition pressure (sim : t) (d : draws) : Q :=
  let base_pressure := ((101325 # 100) + pressure_trend sim)%Q in
  (base_pressure + normalvariate 0 5 (z_pressure d))%Q.

Definition visibility (sim : t) (c : clock) (hour_offset : Z) (d : draws) : Q :=
  let visibility := 10%Q in
  let visibility :=
    if Qgtb (precipitation sim d) (1 # 10)
    then Qmax (5 # 10) (10 - precipitation sim d * 8)%Q else visibility in
  if Qgtb (humidity sim c hour_offset d) 85 then Qmin visibility 5 else visibility.

Definition conditions (sim : t) (c : clock) (hour_offset : Z) (d : draws) : string :=
  let temperature := temperature sim c hour_offset d in
  if Qgtb (precipitation sim d) (5 # 10) then
    if Qgtb temperature 32 then "Heavy Rain" else "Heavy Snow"
  else if Qgtb (precipitation sim d) (1 # 10) then
    if Qgtb temperature 32 then "Rain" else "Snow"
  else if Qgtb (humidity sim c hour_offset d) 85 then "Fog"
  else if Qgtb (wind_speed sim d) 25 then "Windy"
  else if Qgtb temperature 90 then "Hot"
  else if Qltb temperature 32 then "Cold"
  else "Clear".

Definition uv_index (sim : t) (c : clock) (hour_offset : Z) (d : draws) : Z :=
  let h := hour_of_day c hour_offset in
  if (6 <=? h)%Z && (h <=? 18)%Z
     && bool_decide (conditions sim c hour_offset d ∈ ["Clear"; "Hot"])
  then Z.min 11 (Z.max 1 (int (inject_Z (h - 6) / 2) + randint_uv d))
  else 0%Z.

(** [generate_hourly_reading]: the reading and the simulator with its
    trends updated. *)
Definition generate_hourly_reading (sim : t) (c : clock) (hour_offset : Z)
    (d : draws) : WeatherReading.t * t :=
  ({| WeatherReading.timestamp := (now c + hours hour_offset)%Z;
      WeatherReading.temperature_f := round (temperature sim c hour_offset d) 1;
      WeatherReading.humidity_percent := round (humidity sim c hour_offset d) 1;
      WeatherReading.precipitation_inches := round (precipitation sim d) 2;
      WeatherReading.wind_speed_mph := round (wind_speed sim d) 1;
      WeatherReading.wind_direction :=
        nth (choice_direction d) directions "N";
      WeatherReading.pressure_mb := round (pressure sim d) 1;
      WeatherReading.visibility_miles := round (visibility sim c hour_offset d) 1;
      WeatherReading.conditions := conditions sim c hour_offset d;
      WeatherReading.uv_index := uv_index sim c hour_offset d |},
   _update_trends sim d).

End WeatherSimulator.

(** ** [base_agent.py]: BaseAgent *)

(** The bound methods a message type can be registered to. *)
Module Handler.
Inductive t :=
| handle_ping
| handle_shutdown
| handle_get_status
| handle_heartbeat_request
| handle_start_monitoring
| handle_stop_monitoring
| handle_get_current_weather
| handle_get_weather_history
| handle_get_weather_forecast
| handle_get_weather_alerts
| handle_update_alert_thresholds
| handle_weather_analysis_request
| handle_get_noaa_alerts
| handle_refresh_noaa_data.
End Handler.

Module BaseAgent.

Record t := mk {
  agent_id : string;
  name : string;
  version : string;
  started_at : Z;
  last_heartbeat : Z;
  message_count : Z;
  error_count : Z;
  is_running : bool;
  message_handlers : gmap string Handler.t;
  state : gmap string pyval;
  outbox : list CrossLanguageMessage.t
}.

(** [register_default_handlers]: [message_handlers.update({...})] *)
Definition register_default_handlers (h : gmap string Handler.t) : gmap string Handler.t :=
  <["heartbeat_request" := Handler.handle_heartbeat_request]>
  (<["get_status" := Handler.handle_get_status]>
  (<["shutdown" := Handler.handle_shutdown]>
  (<["ping" := Handler.handle_ping]> h))).

(** [register_handler] *)
Definition register_handler (message_type : string) (handler : Handler.t)
    (h : gmap string Handler.t) : gmap string Handler.t :=
  <[message_type := handler]> h.

(** [__init__] *)
Definition init (c : clock) (agent_id name version : string) : t :=
  {| agent_id := agent_id; name := name; version := version;
     started_at := now c; last_heartbeat := now c;
     message_count := 0; error_count := 0; is_running := false;
     message_handlers := register_default_handlers ∅;
     state := ∅; outbox := [] |}.

(** [get_capabilities] of the base class. *)
Definition get_capabilities : list string := ["ping"; "status"; "heartbeat"].

(** [send_message]: the serialised message goes to standard output. *)
Definition send_message (message : CrossLanguageMessage.t) (a : t) : t :=
  {| agent_id := agent_id a; name := name a; version := version a;
     started_at := started_at a; last_heartbeat := last_heartbeat a;
     message_count := message_count a; error_count := error_count a;
     is_running := is_running a; message_handlers := message_handlers a;
     state := state a; outbox := outbox a ++ [message] |}.

Definition set_message_handlers (h : gmap string Handler.t) (a : t) : t :=
  {| agent_id := agent_id a; name := name a; version := version a;
     started_at := started_at a; last_heartbeat := last_heartbeat a;
     message_count := message_count a; error_count := error_count a;
     is_running := is_running a; message_handlers := h;
     state := state a; outbox := outbox a |}.

(** The [source] entry of every message the agent builds. *)
Definition source_of (a : t) : pyval :=
  VDict (<["agentId" := VStr (agent_id a)]>
        (<["language" := VStr "python"]>
        (<["runtime" := VStr "python3"]> ∅))).

Definition broadcast : pyval := VDict (<["broadcast" := VBool true]> ∅).

(** The [metadata] of a broadcast and of a correlated response. *)
Definition metadata (priority : string) (max_retries : Z) : pyval :=
  VDict (<["priority" := VStr priority]>
        (<["retryCount" := VInt 0]>
        (<["maxRetries" := VInt max_retries]>
        (<["timeoutMs" := VInt 5000]> ∅)))).

Definition response_metadata (correlation_id : string) : pyval :=
  VDict (<["priority" := VStr "normal"]>
        (<["correlationId" := VStr correlation_id]>
        (<["retryCount" := VInt 0]>
        (<["maxRetries" := VInt 0]>
        (<["timeoutMs" := VInt 5000]> ∅))))).

(** [send_ready_message], for the capability list of the subclass. *)
Definition send_ready_message (capabilities : list string) (c : clock) (a : t) : t :=
  let message :=
    CrossLanguageMessage.init (now c)
      ("ready_" +:+ pretty (time_ms c)) "agent_ready"
      (source_of a) broadcast
      (VDict (<["name" := VStr (name a)]>
             (<["version" := VStr (version a)]>
             (<["capabilities" := VList (VStr <$> capabilities)]> ∅))))
      (metadata "normal" 0) in
  send_message message a.

End BaseAgent.

(** ** [weather_monitoring_agent.py]: the monitoring task *)

(** The asyncio task that runs [_monitoring_loop].  A pending task is
    suspended at one of the [await]s of the loop, or has not run yet. *)
Module Task.

Inductive suspension :=
| NotStarted
| AwaitCurrentWeather
| AwaitActiveAlerts
| AwaitSleep.

Inductive status :=
| Pending (at_ : suspension)
| Done.

Record t := mk {
  duration_hours : pyval;
  state : status;
  must_cancel : bool
}.

(** [asyncio.create_task(self._monitoring_loop(duration_hours))] *)
Definition create_task (duration_hours : pyval) : t :=
  {| duration_hours := duration_hours; state := Pending NotStarted;
     must_cancel := false |}.

Definition done (task : t) : bool :=
  match state task with Done => true | Pending _ => false end.

(** [task.cancel()]: a request, honoured the next time the task runs;
    nothing happens to a task that is done. *)
Definition cancel (task : t) : t :=
  match state task with
  | Done => task
  | Pending _ =>
    {| duration_hours := duration_hours task; state := state task;
       must_cancel := true |}
  end.

Definition finish (task : t) : t :=
  {| duration_hours := duration_hours task; state := Done;
     must_cancel := false |}.

End Task.

(** ** [weather_monitoring_agent.py]: WeatherMonitoringAgent *)

Record WeatherMonitoringAgent := mkAgent {
  base : BaseAgent.t;
  NOAA_AVAILABLE : bool;
  location : string;
  use_real_weather : bool;
  simulator : WeatherSimulator.t;
  weather_data : list WeatherReading.t;
  active_alerts : list WeatherAlert.t;
  noaa_alerts : list NOAAAlert.t;
  monitoring_active : bool;
  monitoring_task : option Task.t;
  noaa_service : option NOAAWeatherService.t;
  noaa_location : option NOAALocation.t;
  alert_thresholds : gmap string pyval
}.

Definition set_base (b : BaseAgent.t) (s : WeatherMonitoringAgent) :=
  {| base := b; NOAA_AVAILABLE := NOAA_AVAILABLE s; location := location s;
     use_real_weather := use_real_weather s; simulator := simulator s;
     weather_data := weather_data s; active_alerts := active_alerts s;
     noaa_alerts := noaa_alerts s; monitoring_active := monitoring_active s;
     monitoring_task := monitoring_task s; noaa_service := noaa_service s;
     noaa_location := noaa_location s; alert_thresholds := alert_thresholds s |}.

Definition set_simulator (sim : WeatherSimulator.t) (s : WeatherMonitoringAgent) :=
  {| base := base s; NOAA_AVAILABLE := NOAA_AVAILABLE s; location := location s;
     use_real_weather := use_real_weather s; simulator := sim;
     weather_data := weather_data s; active_alerts := active_alerts s;
     noaa_alerts := noaa_alerts s; monitoring_active := monitoring_active s;
     monitoring_task := monitoring_task s; noaa_service := noaa_service s;
     noaa_location := noaa_location s; alert_thresholds := alert_thresholds s |}.

Definition set_weather_data (l : list WeatherReading.t) (s : WeatherMonitoringAgent) :=
  {| base := base s; NOAA_AVAILABLE := NOAA_AVAILABLE s; location := location s;
     use_real_weather := use_real_weather s; simulator := simulator s;
     weather_data := l; active_alerts := active_alerts s;
     noaa_alerts := noaa_alerts s; monitoring_active := monitoring_active s;
     monitoring_task := monitoring_task s; noaa_service := noaa_service s;
     noaa_location := noaa_location s; alert_thresholds := alert_thresholds s |}.

Definition set_active_alerts (l : list WeatherAlert.t) (s : WeatherMonitoringAgent) :=
  {| base := base s; NOAA_AVAILABLE := NOAA_AVAILABLE s; location := location s;
     use_real_weather := use_real_weather s; simulator := simulator s;
     weather_data := weather_data s; active_alerts := l;
     noaa_alerts := noaa_alerts s; monitoring_active := monitoring_active s;
     monitoring_task := monitoring_task s; noaa_service := noaa_service s;
     noaa_location := noaa_location s; alert_thresholds := alert_thresholds s |}.

Definition set_noaa_alerts (l : list NOAAAlert.t) (s : WeatherMonitoringAgent) :=
  {| base := base s; NOAA_AVAILABLE := NOAA_AVAILABLE s; location := location s;
     use_real_weather := use_real_weather s; simulator := simulator s;
     weather_data := weather_data s; active_alerts := active_alerts s;
     noaa_alerts := l; monitoring_active := monitoring_active s;
     monitoring_task := monitoring_task s; noaa_service := noaa_service s;
     noaa_location := noaa_location s; alert_thresholds := alert_thresholds s |}.

Definition set_monitoring_active (b : bool) (s : WeatherMonitoringAgent) :=
  {| base := base s; NOAA_AVAILABLE := NOAA_AVAILABLE s; location := location s;
     use_real_weather := use_real_weather s; simulator := simulator s;
     weather_data := weather_data s; active_alerts := active_alerts s;
     noaa_alerts := noaa_alerts s; monitoring_active := b;
     monitoring_task := monitoring_task s; noaa_service := noaa_service s;
     noaa_location := noaa_location s; alert_thresholds := alert_thresholds s |}.

Definition set_monitoring_task (t : option Task.t) (s : WeatherMonitoringAgent) :=
  {| base := base s; NOAA_AVAILABLE := NOAA_AVAILABLE s; location := location s;
     use_real_weather := use_real_weather s; simulator := simulator s;
     weather_data := weather_data s; active_alerts := active_alerts s;
     noaa_alerts := noaa_alerts s; monitoring_active := monitoring_active s;
     monitoring_task := t; noaa_service := noaa_service s;
     noaa_location := noaa_location s; alert_thresholds := alert_thresholds s |}.

Definition set_alert_thresholds (th : gmap string pyval) (s : WeatherMonitoringAgent) :=
  {| base := base s; NOAA_AVAILABLE := NOAA_AVAILABLE s; location := location s;
     use_real_weather := use_real_weather s; simulator := simulator s;
     weather_data := weather_data s; active_alerts := active_alerts s;
     noaa_alerts := noaa_alerts s; monitoring_active := monitoring_active s;
     monitoring_task := monitoring_task s; noaa_service := noaa_service s;
     noaa_location := noaa_location s; alert_thresholds := th |}.

Definition set_noaa_service (svc : option NOAAWeatherService.t) (s : WeatherMonitoringAgent) :=
  {| base := base s; NOAA_AVAILABLE := NOAA_AVAILABLE s; location := location s;
     use_real_weather := use_real_weather s; simulator := simulator s;
     weather_data := weather_data s; active_alerts := active_alerts s;
     noaa_alerts := noaa_alerts s; monitoring_active := monitoring_active s;
     monitoring_task := monitoring_task s; noaa_service := svc;
     noaa_location := noaa_location s; alert_thresholds := alert_thresholds s |}.

(** [self.send_message(message)] *)
Definition send_message (message : CrossLanguageMessage.t) (s : WeatherMonitoringAgent) :=
  set_base (BaseAgent.send_message message (base s)) s.

Definition outbox (s : WeatherMonitoringAgent) : list CrossLanguageMessage.t :=
  BaseAgent.outbox (base s).

(** The thresholds of [__init__]. *)
Definition default_alert_thresholds : gmap string pyval :=
  <["temperature_high" := VFloat 95]>
  (<["temperature_low" := VFloat 20]>
  (<["precipitation_heavy" := VFloat (5 # 10)]>
  (<["precipitation_extreme" := VFloat 1]>
  (<["wind_high" := VFloat 30]>
  (<["wind_extreme" := VFloat 50]>
  (<["visibility_low" := VFloat 2]>
  (<["uv_extreme" := VInt 8]> ∅))))))).

Definition threshold_keys : gset string :=
  {[ "temperature_high"; "temperature_low"; "precipitation_heavy";
     "precipitation_extreme"; "wind_high"; "wind_extreme";
     "visibility_low"; "uv_extreme" ]}.

(** [register_weather_handlers] *)
Definition register_weather_handlers (h : gmap string Handler.t) : gmap string Handler.t :=
  BaseAgent.register_handler "refresh_noaa_data" Handler.handle_refresh_noaa_data
  (BaseAgent.register_handler "get_noaa_alerts" Handler.handle_get_noaa_alerts
  (BaseAgent.register_handler "weather_analysis_request" Handler.handle_weather_analysis_request
  (BaseAgent.register_handler "update_alert_thresholds" Handler.handle_update_alert_thresholds
  (BaseAgent.register_handler "get_weather_alerts" Handler.handle_get_weather_alerts
  (BaseAgent.register_handler "get_weather_forecast" Handler.handle_get_weather_forecast
  (BaseAgent.register_handler "get_weather_history" Handler.handle_get_weather_history
  (BaseAgent.register_handler "get_current_weather" Handler.handle_get_current_weather
  (BaseAgent.register_handler "stop_monitoring" Handler.handle_stop_monitoring
  (BaseAgent.register_handler "start_monitoring" Handler.handle_start_monitoring
     h))))))))).

(** [__init__]; [noaa_available] is the module constant [NOAA_AVAILABLE],
    fixed when the module is imported. *)
Definition init (c : clock) (noaa_available : bool) (agent_id location : string)
    (use_real_weather : bool) : WeatherMonitoringAgent :=
  let b := BaseAgent.init c agent_id "Weather Monitoring Agent" "1.0.0" in
  {| base := BaseAgent.set_message_handlers
               (register_weather_handlers (BaseAgent.message_handlers b)) b;
     NOAA_AVAILABLE := noaa_available;
     location := location;
     use_real_weather := use_real_weather;
     simulator := WeatherSimulator.init 70 location;
     weather_data := [];
     active_alerts := [];
     noaa_alerts := [];
     monitoring_active := false;
     monitoring_task := None;
     noaa_service := None;
     noaa_location := None;
     alert_thresholds := default_alert_thresholds |}.

(** [get_capabilities] *)
Definition get_capabilities : list string :=
  ["ping"; "status"; "heartbeat";
   "start_monitoring"; "stop_monitoring";
   "get_current_weather"; "get_weather_history";
   "get_weather_forecast"; "get_weather_alerts";
   "weather_analysis_request"]
  ++ ["get_noaa_alerts"; "refresh_noaa_data"].

(** [send_ready_message] of the agent: the inherited method with the
    overridden [get_capabilities]. *)
Definition send_ready_message (c : clock) (s : WeatherMonitoringAgent) :=
  set_base (BaseAgent.send_ready_message get_capabilities c (base s)) s.

(** *** Starting and stopping *)

(** [start_weather_monitoring]; the argument is whatever the caller
    passes, the handler hands on the entry of the payload as it is. *)
Definition start_weather_monitoring (duration_hours : pyval) (s : WeatherMonitoringAgent)
    : bool * WeatherMonitoringAgent :=
  if monitoring_active s then (false, s)
  else
    let s := set_monitoring_active true s in
    let s := set_monitoring_task (Some (Task.create_task duration_hours)) s in
    (true, s).

(** What the cancelled task does when it next runs.  A task that has not
    started never enters the body of [_monitoring_loop].  At an [await]
    of the loop the [CancelledError] passes the [except Exception]
    handlers around the fetches (since Python 3.8 it is a
    [BaseException], not an [Exception]), reaches
    [except asyncio.CancelledError] of [_monitoring_loop], and the
    [finally] clause clears [monitoring_active]. *)
Definition run_cancelled (task : Task.t) (s : WeatherMonitoringAgent)
    : Task.t * WeatherMonitoringAgent :=
  match Task.state task with
  | Task.Done => (task, s)
  | Task.Pending Task.NotStarted => (Task.finish task, s)
  | Task.Pending _ => (Task.finish task, set_monitoring_active false s)
  end.

(** [await self.monitoring_task]: control returns when the task is done.
    For a pending task without a cancellation request that depends on
    the future of the loop, which is outside this function: [None]. *)
Definition await_task (task : Task.t) (s : WeatherMonitoringAgent)
    : option (Task.t * WeatherMonitoringAgent) :=
  match Task.state task with
  | Task.Done => Some (task, s)
  | Task.Pending _ =>
    if Task.must_cancel task then Some (run_cancelled task s) else None
  end.

(** [stop_weather_monitoring]; [self.monitoring_task] keeps referring to
    the task object, whose state the field shows. *)
Definition stop_weather_monitoring (s : WeatherMonitoringAgent)
    : option (bool * WeatherMonitoringAgent) :=
  if negb (monitoring_active s) then Some (false, s)
  else
    let s := set_monitoring_active false s in
    match monitoring_task s with
    | Some task =>
      let task := Task.cancel task in
      '(task, s) ← await_task task s;
      Some (true, set_monitoring_task (Some task) s)
    | None => Some (true, s)
    end.

(** *** String helpers *)

Definition is_lower (a : ascii) : bool :=
  let n := nat_of_ascii a in (97 <=? n)%nat && (n <=? 122)%nat.
Definition is_upper (a : ascii) : bool :=
  let n := nat_of_ascii a in (65 <=? n)%nat && (n <=? 90)%nat.
Definition upper (a : ascii) : ascii :=
  if is_lower a then ascii_of_nat (nat_of_ascii a - 32) else a.
Definition lower (a : ascii) : ascii :=
  if is_upper a then ascii_of_nat (nat_of_ascii a + 32) else a.

(** [str.title()] on ASCII text: the first letter of every run of
    letters in upper case, the others in lower case. *)
Fixpoint title_from (in_word : bool) (s : string) : string :=
  match s with
  | EmptyString => EmptyString
  | String a rest =>
    let letter := is_lower a || is_upper a in
    String (if letter then (if in_word then lower a else upper a) else a)
           (title_from letter rest)
  end.
Definition title (s : string) : string := title_from false s.

(** The double quote of the precipitation message. *)
Definition dquote : string := String (ascii_of_nat 34) EmptyString.

Definition is_some {A} (x : option A) : bool :=
  match x with Some _ => true | None => false end.

(** *** Alert engine *)

Section AlertEngine.

(** How Python prints a float inside an f-string ([str] of a float), a
    function of the standard library. *)
Variable float_str : Q -> string.

(** [_create_temperature_alert] *)
Definition _create_temperature_alert (reading : WeatherReading.t) (temp_type : string)
    (c : clock) : WeatherAlert.t :=
  let temperature_f := WeatherReading.temperature_f reading in
  let severity :=
    if (bool_decide (temp_type = "high") && Qgtb temperature_f 100)
       || (bool_decide (temp_type = "low") && Qltb temperature_f 10)
    then "extreme" else "high" in
  let '(message, recommendations) :=
    if bool_decide (temp_type = "high") then
      ("Extreme heat warning: " +:+ float_str temperature_f +:+ "°F",
       ["Open cooling centers for vulnerable populations";
        "Increase hydration stations at outdoor events";
        "Consider rescheduling outdoor activities";
        "Check on elderly and homeless individuals"])
    else
      ("Extreme cold warning: " +:+ float_str temperature_f +:+ "°F",
       ["Open warming centers immediately";
        "Conduct wellness checks on homeless population";
        "Prepare for increased shelter demand";
        "Check heating systems in facilities"]) in
  {| WeatherAlert.alert_id := "temp_" +:+ temp_type +:+ "_" +:+ pretty (time_s c);
     WeatherAlert.timestamp := WeatherReading.timestamp reading;
     WeatherAlert.alert_type := "temperature";
     WeatherAlert.severity := severity;
     WeatherAlert.message := message;
     WeatherAlert.recommendations := recommendations;
     WeatherAlert.affected_services :=
       ["shelter"; "outreach"; "outdoor_events"; "transportation"] |}.

(** [_create_precipitation_alert] *)
Definition _create_precipitation_alert (reading : WeatherReading.t) (precip_type : string)
    (c : clock) : WeatherAlert.t :=
  let severity := if bool_decide (precip_type = "extreme") then "extreme" else "high" in
  let message :=
    title precip_type +:+ " precipitation: "
    +:+ float_str (WeatherReading.precipitation_inches reading)
    +:+ dquote +:+ " per hour" in
  let recommendations :=
    ["Monitor for flooding in low-lying areas";
     "Prepare emergency transportation";
     "Check drainage systems around facilities";
     "Consider postponing outdoor events"] in
  let recommendations :=
    if bool_decide (precip_type = "extreme") then
      recommendations ++
      ["Activate emergency response protocols";
       "Prepare evacuation routes";
       "Coordinate with emergency services"]
    else recommendations in
  {| WeatherAlert.alert_id := "precip_" +:+ precip_type +:+ "_" +:+ pretty (time_s c);
     WeatherAlert.timestamp := WeatherReading.timestamp reading;
     WeatherAlert.alert_type := "precipitation";
     WeatherAlert.severity := severity;
     WeatherAlert.message := message;
     WeatherAlert.recommendations := recommendations;
     WeatherAlert.affected_services :=
       ["transportation"; "outdoor_events"; "facility_operations"] |}.

(** [_create_wind_alert] *)
Definition _create_wind_alert (reading : WeatherReading.t) (wind_type : string)
    (c : clock) : WeatherAlert.t :=
  let severity := if bool_decide (wind_type = "extreme") then "extreme" else "high" in
  let message :=
    title wind_type +:+ " winds: "
    +:+ float_str (WeatherReading.wind_speed_mph reading)
    +:+ " mph from " +:+ WeatherReading.wind_direction reading in
  let recommendations :=
    ["Secure outdoor equipment and signage";
     "Check building integrity";
     "Avoid outdoor activities";
     "Monitor for power outages"] in
  let recommendations :=
    if bool_decide (wind_type = "extreme") then
      recommendations ++
      ["Consider facility evacuation if necessary";
       "Prepare for extended power outages";
       "Coordinate with emergency services"]
    else recommendations in
  {| WeatherAlert.alert_id := "wind_" +:+ wind_type +:+ "_" +:+ pretty (time_s c);
     WeatherAlert.timestamp := WeatherReading.timestamp reading;
     WeatherAlert.alert_type := "wind";
     WeatherAlert.severity := severity;
     WeatherAlert.message := message;
     WeatherAlert.recommendations := recommendations;
     WeatherAlert.affected_services :=
       ["facility_operations"; "outdoor_events"; "transportation"] |}.

(** [_create_visibility_alert] *)
Definition _create_visibility_alert (reading : WeatherReading.t) (c : clock)
    : WeatherAlert.t :=
  {| WeatherAlert.alert_id := "visibility_" +:+ pretty (time_s c);
     WeatherAlert.timestamp := WeatherReading.timestamp reading;
     WeatherAlert.alert_type := "visibility";
     WeatherAlert.severity := "medium";
     WeatherAlert.message :=
       "Low visibility conditions: "
       +:+ float_str (WeatherReading.visibility_miles reading) +:+ " miles";
     WeatherAlert.recommendations :=
       ["Use caution with transportation services";
        "Increase lighting at outdoor facilities";
        "Consider delaying non-essential travel";
        "Enhance safety protocols for outdoor staff"];
     WeatherAlert.affected_services :=
       ["transportation"; "outreach"; "outdoor_events"] |}.

(** [_create_uv_alert] *)
Definition _create_uv_alert (reading : WeatherReading.t) (c : clock)
    : WeatherAlert.t :=
  {| WeatherAlert.alert_id := "uv_" +:+ pretty (time_s c);
     WeatherAlert.timestamp := WeatherReading.timestamp reading;
     WeatherAlert.alert_type := "uv";
     WeatherAlert.severity := "medium";
     WeatherAlert.message :=
       "Extreme UV levels: Index " +:+ pretty (WeatherReading.uv_index reading);
     WeatherAlert.recommendations :=
       ["Provide sunscreen at outdoor events";
        "Ensure shaded areas are available";
        "Limit prolonged outdoor exposure";
        "Educate staff about UV protection"];
     WeatherAlert.affected_services :=
       ["outdoor_events"; "outreach"; "recreation"] |}.

(** [_broadcast_weather_alert] *)
Definition _broadcast_weather_alert (alert : WeatherAlert.t) (c : clock)
    (s : WeatherMonitoringAgent) : WeatherMonitoringAgent :=
  let message :=
    CrossLanguageMessage.init (now c)
      ("weather_alert_" +:+ pretty (time_ms c)) "weather_alert"
      (BaseAgent.source_of (base s)) BaseAgent.broadcast
      (VDict (<["location" := VStr (location s)]>
             (<["alert" := VDict (WeatherAlert.to_dict alert)]> ∅)))
      (BaseAgent.metadata "high" 3) in
  send_message message s.

(** [self.alert_thresholds[key]] as the right operand of a comparison
    with a number: [None] for the [KeyError] of an absent key and the
    [TypeError] of a value that is no number. *)
Definition threshold (s : WeatherMonitoringAgent) (key : string) : option Q :=
  alert_thresholds s !! key ≫= as_number.

(** The list [alerts_generated] of [_check_weather_alerts].  A threshold
    is read only when the comparison that uses it is evaluated. *)
Definition alerts_generated (reading : WeatherReading.t) (c : clock)
    (s : WeatherMonitoringAgent) : option (list WeatherAlert.t) :=
  temperature ←
    (high ← threshold s "temperature_high";
     if Qgeb (WeatherReading.temperature_f reading) high
     then Some [_create_temperature_alert reading "high" c]
     else
       low ← threshold s "temperature_low";
       if Qle_bool (WeatherReading.temperature_f reading) low
       then Some [_create_temperature_alert reading "low" c]
       else Some []);
  precipitation ←
    (extreme ← threshold s "precipitation_extreme";
     if Qgeb (WeatherReading.precipitation_inches reading) extreme
     then Some [_create_precipitation_alert reading "extreme" c]
     else
       heavy ← threshold s "precipitation_heavy";
       if Qgeb (WeatherReading.precipitation_inches reading) heavy
       then Some [_create_precipitation_alert reading "heavy" c]
       else Some []);
  wind ←
    (extreme ← threshold s "wind_extreme";
     if Qgeb (WeatherReading.wind_speed_mph reading) extreme
     then Some [_create_wind_alert reading "extreme" c]
     else
       high ← threshold s "wind_high";
       if Qgeb (WeatherReading.wind_speed_mph reading) high
       then Some [_create_wind_alert reading "high" c]
       else Some []);
  visibility ←
    (low ← threshold s "visibility_low";
     if Qle_bool (WeatherReading.visibility_miles reading) low
     then Some [_create_visibility_alert reading c]
     else Some []);
  uv ←
    (extreme ← threshold s "uv_extreme";
     if Qgeb (inject_Z (WeatherReading.uv_index reading)) extreme
     then Some [_create_uv_alert reading c]
     else Some []);
  Some (temperature ++ precipitation ++ wind ++ visibility ++ uv).

(** The retention window of the active alerts. *)
Definition cutoff_time (c : clock) : Z := (now c - hours 6)%Z.

(** The comprehension that ends [_check_weather_alerts]. *)
Definition purge (c : clock) (alerts : list WeatherAlert.t) : list WeatherAlert.t :=
  filter (fun alert => (cutoff_time c < WeatherAlert.timestamp alert)%Z) alerts.

(** [_check_weather_alerts]; [None] when a comparison raises, which
    happens before the agent is changed.  One reading [c] of the clock
    serves the whole call. *)
Definition _check_weather_alerts (reading : WeatherReading.t) (c : clock)
    (s : WeatherMonitoringAgent) : option WeatherMonitoringAgent :=
  alerts ← alerts_generated reading c s;
  let s :=
    foldl (fun s alert =>
             _broadcast_weather_alert alert c
               (set_active_alerts (active_alerts s ++ [alert]) s))
          s alerts in
  Some (set_active_alerts (purge c (active_alerts s)) s).

End AlertEngine.

(** *** Weather updates *)

(** [_broadcast_weather_update] *)
Definition _broadcast_weather_update (reading : WeatherReading.t) (c : clock)
    (s : WeatherMonitoringAgent) : WeatherMonitoringAgent :=
  let message :=
    CrossLanguageMessage.init (now c)
      ("weather_update_" +:+ pretty (time_ms c)) "weather_update"
      (BaseAgent.source_of (base s)) BaseAgent.broadcast
      (VDict (<["location" := VStr (location s)]>
             (<["weather_data" := VDict (WeatherReading.to_dict reading)]>
             (<["data_quality" := VStr "simulated"]> ∅))))
      (BaseAgent.metadata "normal" 0) in
  send_message message s.

(** [_convert_noaa_reading] *)
Definition _convert_noaa_reading (noaa_reading : NOAAWeatherReading.t) : WeatherReading.t :=
  {| WeatherReading.timestamp := NOAAWeatherReading.timestamp noaa_reading;
     WeatherReading.temperature_f := or_float (NOAAWeatherReading.temperature_f noaa_reading) 70;
     WeatherReading.humidity_percent := or_float (NOAAWeatherReading.humidity_percent noaa_reading) 50;
     WeatherReading.precipitation_inches := 0;
     WeatherReading.wind_speed_mph := or_float (NOAAWeatherReading.wind_speed_mph noaa_reading) 0;
     WeatherReading.wind_direction := or_str (NOAAWeatherReading.wind_direction noaa_reading) "N";
     WeatherReading.pressure_mb := or_float (NOAAWeatherReading.pressure_mb noaa_reading) 1013;
     WeatherReading.visibility_miles := or_float (NOAAWeatherReading.visibility_miles noaa_reading) 10;
     WeatherReading.conditions := NOAAWeatherReading.conditions noaa_reading;
     WeatherReading.uv_index := 0 |}.

(** *** Advisory mirror *)

(** [_broadcast_noaa_alert] *)
Definition _broadcast_noaa_alert (alert : NOAAAlert.t) (c : clock)
    (s : WeatherMonitoringAgent) : WeatherMonitoringAgent :=
  let message :=
    CrossLanguageMessage.init (now c)
      ("noaa_alert_" +:+ pretty (time_ms c)) "noaa_weather_alert"
      (BaseAgent.source_of (base s)) BaseAgent.broadcast
      (VDict (<["location" := VStr (location s)]>
             (<["noaa_location" :=
                  match noaa_location s with
                  | Some l => VDict (NOAALocation.to_dict l)
                  | None => VNone
                  end]>
             (<["alert" := VDict (NOAAAlert.to_dict alert)]> ∅))))
      (BaseAgent.metadata
         (if bool_decide (NOAAAlert.severity alert ∈ ["Extreme"; "Severe"])
          then "high" else "normal") 3) in
  send_message message s.

(** The guard of [_check_noaa_alerts]. *)
Definition noaa_enabled (s : WeatherMonitoringAgent) : bool :=
  use_real_weather s && is_some (noaa_service s) && is_some (noaa_location s)
  && NOAA_AVAILABLE s.

(** The comprehension [new_alerts] of [_check_noaa_alerts]. *)
Definition new_alerts (cached current_alerts : list NOAAAlert.t) : list NOAAAlert.t :=
  let existing_alert_ids : gset string :=
    list_to_set (NOAAAlert.alert_id <$> cached) in
  filter (fun alert => NOAAAlert.alert_id alert ∉ existing_alert_ids) current_alerts.

(** [_check_noaa_alerts]; [poll] is what [get_active_alerts] does when it
    is awaited: [Some l] returns the list [l], [None] raises. *)
Definition _check_noaa_alerts (poll : option (list NOAAAlert.t)) (c : clock)
    (s : WeatherMonitoringAgent) : WeatherMonitoringAgent :=
  if negb (noaa_enabled s) then s
  else
    match poll with
    | Some current_alerts =>
      let new_alerts := new_alerts (noaa_alerts s) current_alerts in
      let s := set_noaa_alerts current_alerts s in
      foldl (fun s alert => _broadcast_noaa_alert alert c s) s new_alerts
    | None => s
    end.

(** A sequence of polls, each with its reading of the clock. *)
Definition poll_sequence (polls : list (option (list NOAAAlert.t) * clock))
    (s : WeatherMonitoringAgent) : WeatherMonitoringAgent :=
  foldl (fun s p => _check_noaa_alerts p.1 p.2 s) s polls.

(** The advisory identifier carried by a broadcast of
    [_broadcast_noaa_alert], and the identifiers broadcast by a list of
    sent messages. *)
Definition noaa_alert_id_of (m : CrossLanguageMessage.t) : option string :=
  if bool_decide (CrossLanguageMessage.type m = "noaa_weather_alert") then
    match CrossLanguageMessage.payload m with
    | VDict p =>
      match p !! "alert" with
      | Some (VDict a) => a !! "alert_id" ≫= as_str
      | _ => None
      end
    | _ => None
    end
  else None.

Definition broadcast_ids (sent : list CrossLanguageMessage.t) : list string :=
  omap noaa_alert_id_of sent.

(** *** Request handlers *)

(** The response every handler builds: addressed to the source of the
    request and correlated to its id. *)
Definition response (id_prefix msg_type : string) (payload : gmap string pyval)
    (message : CrossLanguageMessage.t) (c : clock) (s : WeatherMonitoringAgent)
    : CrossLanguageMessage.t :=
  CrossLanguageMessage.init (now c)
    (id_prefix +:+ pretty (time_ms c)) msg_type
    (BaseAgent.source_of (base s)) (CrossLanguageMessage.source message)
    (VDict payload)
    (BaseAgent.response_metadata (CrossLanguageMessage.id message)).

(** [payload.get(key, default)]: [None] for the [AttributeError] of a
    payload that is no dictionary. *)
Definition payload_get (payload : pyval) (key : string) (default : pyval) : option pyval :=
  match payload with
  | VDict d => Some (from_option id default (d !! key))
  | _ => None
  end.

(** [handle_start_monitoring] *)
Definition handle_start_monitoring (message : CrossLanguageMessage.t) (c : clock)
    (s : WeatherMonitoringAgent) : option WeatherMonitoringAgent :=
  duration ← payload_get (CrossLanguageMessage.payload message) "duration_hours" (VInt 168);
  let '(success, s) := start_weather_monitoring duration s in
  Some (send_message
          (response "monitoring_response_" "monitoring_response"
             (<["success" := VBool success]>
             (<["duration_hours" := duration]>
             (<["message" :=
                  VStr (if success then "Weather monitoring started"
                        else "Weather monitoring already active")]> ∅)))
             message c s) s).

(** [handle_stop_monitoring] *)
Definition handle_stop_monitoring (message : CrossLanguageMessage.t) (c : clock)
    (s : WeatherMonitoringAgent) : option WeatherMonitoringAgent :=
  '(success, s) ← stop_weather_monitoring s;
  Some (send_message
          (response "monitoring_response_" "monitoring_response"
             (<["success" := VBool success]>
             (<["message" :=
                  VStr (if success then "Weather monitoring stopped"
                        else "Weather monitoring was not active")]> ∅))
             message c s) s).

(** [handle_get_current_weather] *)
Definition handle_get_current_weather (message : CrossLanguageMessage.t) (c : clock)
    (s : WeatherMonitoringAgent) : WeatherMonitoringAgent :=
  let current_weather := last (weather_data s) in
  send_message
    (response "weather_response_" "weather_response"
       (<["location" := VStr (location s)]>
       (<["current_weather" :=
            match current_weather with
            | Some r => VDict (WeatherReading.to_dict r)
            | None => VNone
            end]>
       (<["monitoring_active" := VBool (monitoring_active s)]> ∅)))
       message c s) s.

(** [range(1, hours_ahead + 1)] takes an [int] ([bool] included);
    anything else is a [TypeError]. *)
Definition as_index (v : pyval) : option Z :=
  match v with
  | VInt n => Some n
  | VBool b => Some (if b then 1 else 0)%Z
  | _ => None
  end.

(** [handle_get_weather_forecast]; [forecast_draws i] are the draws of
    the reading for hour [i].  Every reading updates the trends of the
    simulator. *)
Definition handle_get_weather_forecast (forecast_draws : Z -> draws)
    (message : CrossLanguageMessage.t) (c : clock)
    (s : WeatherMonitoringAgent) : option WeatherMonitoringAgent :=
  hours_ahead ← payload_get (CrossLanguageMessage.payload message) "hours_ahead" (VInt 24);
  n ← as_index hours_ahead;
  let '(forecast_data, sim) :=
    foldl (fun '(forecast_data, sim) i =>
             let '(forecast_reading, sim) :=
               WeatherSimulator.generate_hourly_reading sim c i (forecast_draws i) in
             (forecast_data ++ [VDict (WeatherReading.to_dict forecast_reading)], sim))
          ([], simulator s) (seqZ 1 n) in
  let s := set_simulator sim s in
  Some (send_message
          (response "forecast_response_" "weather_forecast_response"
             (<["location" := VStr (location s)]>
             (<["hours_ahead" := hours_ahead]>
             (<["forecast" := VList forecast_data]>
             (<["data_quality" := VStr "simulated"]> ∅))))
             message c s) s).

(** [handle_get_weather_alerts] *)
Definition handle_get_weather_alerts (message : CrossLanguageMessage.t) (c : clock)
    (s : WeatherMonitoringAgent) : WeatherMonitoringAgent :=
  send_message
    (response "alerts_response_" "weather_alerts_response"
       (<["location" := VStr (location s)]>
       (<["active_alerts" :=
            VList ((fun alert => VDict (WeatherAlert.to_dict alert)) <$> active_alerts s)]>
       (<["alert_count" := VInt (Z.of_nat (length (active_alerts s)))]> ∅)))
       message c s) s.

(** The loop of [handle_update_alert_thresholds] over
    [new_thresholds.items()]. *)
Definition update_thresholds (new_thresholds thresholds : gmap string pyval)
    : gmap string pyval :=
  map_fold (fun key value thresholds =>
              if bool_decide (key ∈ dom thresholds)
              then <[key := value]> thresholds else thresholds)
           thresholds new_thresholds.

(** [handle_update_alert_thresholds]; [None] when the payload has no
    [get] or its [thresholds] entry has no [items], which raises before
    the agent is changed. *)
Definition handle_update_alert_thresholds (message : CrossLanguageMessage.t) (c : clock)
    (s : WeatherMonitoringAgent) : option WeatherMonitoringAgent :=
  new_thresholds ← payload_get (CrossLanguageMessage.payload message) "thresholds" (VDict ∅);
  match new_thresholds with
  | VDict new_thresholds =>
    let s := set_alert_thresholds (update_thresholds new_thresholds (alert_thresholds s)) s in
    Some (send_message
            (response "thresholds_response_" "thresholds_update_response"
               (<["success" := VBool true]>
               (<["updated_thresholds" := VDict (alert_thresholds s)]> ∅))
               message c s) s)
  | _ => None
  end.

(** [handle_get_noaa_alerts] *)
Definition handle_get_noaa_alerts (message : CrossLanguageMessage.t) (c : clock)
    (s : WeatherMonitoringAgent) : WeatherMonitoringAgent :=
  let response_payload : gmap string pyval :=
    <["location" := VStr (location s)]>
    (<["noaa_enabled" := VBool (use_real_weather s)]>
    (<["fallback_mode" := VBool (negb (use_real_weather s && NOAA_AVAILABLE s))]>
    (<["alerts" :=
         if NOAA_AVAILABLE s
         then VList ((fun alert => VDict (NOAAAlert.to_dict alert)) <$> noaa_alerts s)
         else VList []]>
    (<["alert_count" :=
         if NOAA_AVAILABLE s then VInt (Z.of_nat (length (noaa_alerts s))) else VInt 0]>
       ∅)))) in
  let response_payload :=
    match noaa_location s with
    | Some l =>
      if NOAA_AVAILABLE s
      then <["noaa_location" := VDict (NOAALocation.to_dict l)]> response_payload
      else response_payload
    | None => response_payload
    end in
  send_message
    (response "noaa_alerts_response_" "noaa_alerts_response" response_payload message c s) s.

(** *** One cycle of [_monitoring_loop] *)

(** What the outside world does during one cycle: the answer of
    [get_current_weather] ([None] raises, [Some None] returns [None]), the
    draws of the simulator and the answer of [get_active_alerts]. *)
Record cycle_env := mkEnv {
  fetch_weather : option (option NOAAWeatherReading.t);
  sim_draws : draws;
  fetch_alerts : option (list NOAAAlert.t)
}.

Definition simulate (env : cycle_env) (c : clock) (s : WeatherMonitoringAgent)
    : WeatherReading.t * WeatherMonitoringAgent :=
  let '(reading, sim) :=
    WeatherSimulator.generate_hourly_reading (simulator s) c 0 (sim_draws env) in
  (reading, set_simulator sim s).

(** The reading of the cycle: live, or simulated for this cycle alone. *)
Definition acquire_reading (env : cycle_env) (c : clock) (s : WeatherMonitoringAgent)
    : WeatherReading.t * WeatherMonitoringAgent :=
  if use_real_weather s && is_some (noaa_service s) && is_some (noaa_location s) then
    match fetch_weather env with
    | Some (Some noaa_reading) => (_convert_noaa_reading noaa_reading, s)
    | Some None => simulate env c s
    | None => simulate env c s
    end
  else simulate env c s.

(** [self.weather_data.append(reading)] and the cut to the last 168. *)
Definition append_reading (reading : WeatherReading.t) (s : WeatherMonitoringAgent)
    : WeatherMonitoringAgent :=
  let data := weather_data s ++ [reading] in
  let data :=
    if (168 <? length data)%nat then drop (length data - 168) data else data in
  set_weather_data data s.

(** The body of the [while] loop up to the sleep.  The flag of the
    result tells whether the loop goes on: an exception of the cycle is
    caught outside the [while], and [finally] clears [monitoring_active]. *)
Definition monitoring_cycle (float_str : Q -> string) (env : cycle_env) (c : clock)
    (s : WeatherMonitoringAgent) : WeatherMonitoringAgent * bool :=
  let '(reading, s) := acquire_reading env c s in
  let s := append_reading reading s in
  match _check_weather_alerts float_str reading c s with
  | Some s =>
    let s := _check_noaa_alerts (fetch_alerts env) c s in
    (_broadcast_weather_update reading c s, true)
  | None => (set_monitoring_active false s, false)
  end.

(** *** Refreshing and cleaning up *)

(** What the outside world does during [handle_refresh_noaa_data]: the
    answer of [get_current_weather] ([None] raises an exception [e], and
    [refresh_error] is [str(e)]) and the answer of [get_active_alerts]. *)
Record refresh_env := mkRefresh {
  refresh_weather : option (option NOAAWeatherReading.t);
  refresh_error : string;
  refresh_alerts : option (list NOAAAlert.t)
}.

(** [handle_refresh_noaa_data] *)
Definition handle_refresh_noaa_data (env : refresh_env)
    (message : CrossLanguageMessage.t) (c : clock)
    (s : WeatherMonitoringAgent) : WeatherMonitoringAgent :=
  let '(success, error_message, s) :=
    if noaa_enabled s then
      match refresh_weather env with
      | Some noaa_reading =>
        let s :=
          match noaa_reading with
          | Some noaa_reading => append_reading (_convert_noaa_reading noaa_reading) s
          | None => s
          end in
        let s := _check_noaa_alerts (refresh_alerts env) c s in
        (true, VNone, s)
      | None => (false, VStr (refresh_error env), s)
      end
    else
      let error_message := "NOAA service not available or not enabled" in
      let error_message :=
        if negb (NOAA_AVAILABLE s)
        then error_message +:+ " (missing aiohttp dependency)" else error_message in
      (false, VStr error_message, s) in
  send_message
    (response "refresh_response_" "noaa_data_refreshed"
       (<["success" := VBool success]>
       (<["error" := error_message]>
       (<["noaa_enabled" := VBool (use_real_weather s)]>
       (<["fallback_mode" := VBool (negb (use_real_weather s && NOAA_AVAILABLE s))]>
       (<["timestamp" := VTime (now c)]> ∅)))))
       message c s) s.

(** [cleanup]: stop the monitoring, close the service and drop it. *)
Definition cleanup (s : WeatherMonitoringAgent) : option WeatherMonitoringAgent :=
  s ← (if monitoring_active s then snd <$> stop_weather_monitoring s else Some s);
  Some (if is_some (noaa_service s) then set_noaa_service None s else s).

(** *** Operations of the agent *)

(** The methods that run after [__init__], each with the inputs it takes
    from its caller and from the outside world. *)
Inductive operation :=
| OpSendReady (c : clock)
| OpStart (duration_hours : pyval)
| OpStop
| OpCleanup
| OpMonitoringCycle (env : cycle_env) (c : clock)
| OpCheckWeatherAlerts (reading : WeatherReading.t) (c : clock)
| OpCheckNoaaAlerts (poll : option (list NOAAAlert.t)) (c : clock)
| OpBroadcastWeatherUpdate (reading : WeatherReading.t) (c : clock)
| OpHandleStartMonitoring (message : CrossLanguageMessage.t) (c : clock)
| OpHandleStopMonitoring (message : CrossLanguageMessage.t) (c : clock)
| OpGetCurrentWeather (message : CrossLanguageMessage.t) (c : clock)
| OpGetWeatherForecast (forecast_draws : Z -> draws)
    (message : CrossLanguageMessage.t) (c : clock)
| OpGetWeatherAlerts (message : CrossLanguageMessage.t) (c : clock)
| OpUpdateAlertThresholds (message : CrossLanguageMessage.t) (c : clock)
| OpGetNoaaAlerts (message : CrossLanguageMessage.t) (c : clock)
| OpRefreshNoaaData (env : refresh_env) (message : CrossLanguageMessage.t) (c : clock).

(** The agent after an operation.  A method that raises does so before
    it assigns anything, and leaves the agent as it was. *)
Definition step (float_str : Q -> string) (s : WeatherMonitoringAgent)
    (op : operation) : WeatherMonitoringAgent :=
  match op with
  | OpSendReady c => send_ready_message c s
  | OpStart duration_hours => (start_weather_monitoring duration_hours s).2
  | OpStop => from_option snd s (stop_weather_monitoring s)
  | OpCleanup => default s (cleanup s)
  | OpMonitoringCycle env c => (monitoring_cycle float_str env c s).1
  | OpCheckWeatherAlerts reading c =>
    default s (_check_weather_alerts float_str reading c s)
  | OpCheckNoaaAlerts poll c => _check_noaa_alerts poll c s
  | OpBroadcastWeatherUpdate reading c => _broadcast_weather_update reading c s
  | OpHandleStartMonitoring message c => default s (handle_start_monitoring message c s)
  | OpHandleStopMonitoring message c => default s (handle_stop_monitoring message c s)
  | OpGetCurrentWeather message c => handle_get_current_weather message c s
  | OpGetWeatherForecast forecast_draws message c =>
    default s (handle_get_weather_forecast forecast_draws message c s)
  | OpGetWeatherAlerts message c => handle_get_weather_alerts message c s
  | OpUpdateAlertThresholds message c =>
    default s (handle_update_alert_thresholds message c s)
  | OpGetNoaaAlerts message c => handle_get_noaa_alerts message c s
  | OpRefreshNoaaData env message c => handle_refresh_noaa_data env message c s
  end.

Definition run (float_str : Q -> string) (s : WeatherMonitoringAgent)
    (ops : list operation) : WeatherMonitoringAgent :=
  foldl (step float_str) s ops.

(** ** Properties and inputs used in the statements *)

(** Every configured threshold is a number, as in [__init__]. *)
Definition thresholds_numeric (s : WeatherMonitoringAgent) : Prop :=
  forall key, key ∈ threshold_keys -> is_Some (threshold s key).

(** The alerts of the temperature category in a list. *)
Definition temperature_alerts (alerts : list WeatherAlert.t) : list WeatherAlert.t :=
  filter (fun alert => WeatherAlert.alert_type alert = "temperature") alerts.

(** A threshold-update payload: a dictionary whose [thresholds] entry, if
    there is one, is a dictionary. *)
Definition threshold_update_payload (payload : pyval) : Prop :=
  exists p, payload = VDict p /\
    (p !! "thresholds" = None \/ exists new, p !! "thresholds" = Some (VDict new)).

(** The [success] entry of a response. *)
Definition success_of (m : CrossLanguageMessage.t) : option pyval :=
  match CrossLanguageMessage.payload m with
  | VDict p => p !! "success"
  | _ => None
  end.

(** The keys and the [data_quality] entry of a payload. *)
Definition payload_keys (m : CrossLanguageMessage.t) : gset string :=
  match CrossLanguageMessage.payload m with
  | VDict p => dom p
  | _ => ∅
  end.

Definition data_quality_of (m : CrossLanguageMessage.t) : option pyval :=
  match CrossLanguageMessage.payload m with
  | VDict p => p !! "data_quality"
  | _ => None
  end.

Definition weather_data_of (m : CrossLanguageMessage.t) : option pyval :=
  match CrossLanguageMessage.payload m with
  | VDict p => p !! "weather_data"
  | _ => None
  end.

(** The [capabilities] entry of the ready message. *)
Definition capabilities_of (m : CrossLanguageMessage.t) : option pyval :=
  match CrossLanguageMessage.payload m with
  | VDict p => p !! "capabilities"
  | _ => None
  end.

(** Concrete inputs. *)

(** A printer of floats for the concrete inputs (numerator, slash,
    denominator); no statement depends on which printer is used. *)
Definition plain_float_str (q : Q) : string :=
  pretty (Qnum q) +:+ "/" +:+ pretty (Zpos (Qden q)).

Definition two_pm : clock := {| now := 1700000000000000; local_hour := 14 |}.
Definition later (h : Z) : clock :=
  {| now := (1700000000000000 + hours h)%Z; local_hour := ((14 + h) mod 24)%Z |}.

Definition calm_draws : draws :=
  {| z_temp := 0; z_humidity := 0; u_precip_chance := 1 # 2; u_precip := 0;
     u_precip_heavy := 0; u_wind := 0; u_wind_storm := 0; z_wind := 0;
     choice_direction := 0; z_pressure := 0; randint_uv := 0;
     u_temp_trend := 1 # 2; u_new_temp_trend := 0;
     u_pressure_trend := 1 # 2; u_new_pressure_trend := 0;
     u_storm := 1 # 2; u_new_storm := 0 |}.

Definition boise : NOAALocation.t :=
  {| NOAALocation.latitude := 43615 # 1000; NOAALocation.longitude := -(1162023 # 10000);
     NOAALocation.grid_id := "BOI"; NOAALocation.grid_x := 133; NOAALocation.grid_y := 86;
     NOAALocation.forecast_office := "BOI"; NOAALocation.city := "Boise";
     NOAALocation.state := "ID" |}.

(** The agent after [__init__] in simulation mode. *)
Definition simulated_agent : WeatherMonitoringAgent :=
  init two_pm true "weather-1" "Boise, ID" false.

(** The agent after an [initialize] that reached the live provider. *)
Definition live_agent : WeatherMonitoringAgent :=
  let s := init two_pm true "weather-1" "Boise, ID" true in
  {| base := base s; NOAA_AVAILABLE := true; location := location s;
     use_real_weather := true; simulator := simulator s;
     weather_data := weather_data s; active_alerts := active_alerts s;
     noaa_alerts := noaa_alerts s; monitoring_active := monitoring_active s;
     monitoring_task := monitoring_task s;
     noaa_service := Some (NOAAWeatherService.initialize
                             (NOAAWeatherService.init "CommunityServices/1.0.0"));
     noaa_location := Some boise; alert_thresholds := alert_thresholds s |}.

Definition heat_advisory : NOAAAlert.t :=
  {| NOAAAlert.alert_id := "urn:oid:2.49.0.1.840.0.1";
     NOAAAlert.event := "Heat Advisory"; NOAAAlert.severity := "Moderate";
     NOAAAlert.certainty := "Likely"; NOAAAlert.urgency := "Expected";
     NOAAAlert.headline := "Heat Advisory issued"; NOAAAlert.description := "Hot";
     NOAAAlert.instruction := None; NOAAAlert.areas := ["Ada"];
     NOAAAlert.effective := "2023-11-14T12:00:00-07:00";
     NOAAAlert.expires := "2023-11-15T12:00:00-07:00";
     NOAAAlert.sender := "NWS Boise ID"; NOAAAlert.status := "Actual";
     NOAAAlert.message_type := "Alert" |}.

Definition live_reading : NOAAWeatherReading.t :=
  {| NOAAWeatherReading.timestamp := 1700000000000000;
     NOAAWeatherReading.temperature_f := Some (881 # 10);
     NOAAWeatherReading.humidity_percent := Some 40%Q;
     NOAAWeatherReading.wind_speed_mph := Some (72 # 10);
     NOAAWeatherReading.wind_direction := Some "NW";
     NOAAWeatherReading.pressure_mb := Some 1011%Q;
     NOAAWeatherReading.visibility_miles := Some 10%Q;
     NOAAWeatherReading.conditions := "Sunny";
     NOAAWeatherReading.detailed_forecast := "Sunny, with a high near 90.";
     NOAAWeatherReading.source := "NOAA" |}.

Definition live_cycle : cycle_env :=
  {| fetch_weather := Some (Some live_reading); sim_draws := calm_draws;
     fetch_alerts := Some [] |}.

Definition hot_reading : WeatherReading.t :=
  {| WeatherReading.timestamp := 1700000000000000;
     WeatherReading.temperature_f := 100; WeatherReading.humidity_percent := 50;
     WeatherReading.precipitation_inches := 0; WeatherReading.wind_speed_mph := 5;
     WeatherReading.wind_direction := "N"; WeatherReading.pressure_mb := 1013;
     WeatherReading.visibility_miles := 10; WeatherReading.conditions := "Hot";
     WeatherReading.uv_index := 8 |}.

Definition request (msg_type : string) (payload : pyval) : CrossLanguageMessage.t :=
  CrossLanguageMessage.init 1700000000000000 "req-1" msg_type
    (VDict (<["agentId" := VStr "host"]> ∅))
    (VDict (<["agentId" := VStr "weather-1"]> ∅))
    payload
    (BaseAgent.metadata "normal" 0).

Definition threshold_update : CrossLanguageMessage.t :=
  request "update_alert_thresholds"
    (VDict (<["thresholds" :=
                VDict (<["temperature_high" := VFloat 100]>
                      (<["humidity_high" := VFloat 90]> ∅))]> ∅)).


(** ** Further properties of the simulator *)

(** The ranges in which [_update_trends] draws the three trends. *)
Definition trends_in_range (sim : WeatherSimulator.t) : Prop :=
  (-5 <= WeatherSimulator.temperature_trend sim <= 5)%Q /\
  (-10 <= WeatherSimulator.pressure_trend sim <= 10)%Q /\
  ((5 # 100) <= WeatherSimulator.storm_probability sim <= (8 # 10))%Q.

(** The simulator after a series of calls of [generate_hourly_reading],
    each with its clock, its hour offset and its draws. *)
Definition after_readings (sim : WeatherSimulator.t)
    (calls : list (clock * Z * draws)) : WeatherSimulator.t :=
  foldl (fun sim call =>
           (WeatherSimulator.generate_hourly_reading sim call.1.1 call.1.2 call.2).2)
        sim calls.

(** The labels [generate_hourly_reading] can give to the conditions. *)
Definition condition_labels : list string :=
  ["Heavy Rain"; "Heavy Snow"; "Rain"; "Snow"; "Fog"; "Windy"; "Hot"; "Cold"; "Clear"].

(** ** Further properties of the alert engine *)

Definition alert_categories : list string :=
  ["temperature"; "precipitation"; "wind"; "visibility"; "uv"].

(** The [alert] entry of the payload of a message and the [priority]
    entry of its metadata. *)
Definition alert_of (m : CrossLanguageMessage.t) : option pyval :=
  match CrossLanguageMessage.payload m with
  | VDict p => p !! "alert"
  | _ => None
  end.

Definition priority_of (m : CrossLanguageMessage.t) : option pyval :=
  match CrossLanguageMessage.metadata m with
  | VDict md => md !! "priority"
  | _ => None
  end.

(** The [correlationId] entry of the metadata of a message. *)
Definition correlation_id_of (m : CrossLanguageMessage.t) : option pyval :=
  match CrossLanguageMessage.metadata m with
  | VDict md => md !! "correlationId"
  | _ => None
  end.

(** An entry of the payload of a message. *)
Definition payload_entry (key : string) (m : CrossLanguageMessage.t) : option pyval :=
  match CrossLanguageMessage.payload m with
  | VDict p => p !! key
  | _ => None
  end.

(** A request to update thresholds with the map [new]. *)
Definition update_request (new : gmap string pyval) : CrossLanguageMessage.t :=
  request "update_alert_thresholds" (VDict (<["thresholds" := VDict new]> ∅)).

(** ** Frames *)

(** What sending messages and maintaining the two alert lists leave
    alone: everything but the outbox, [active_alerts] and [noaa_alerts]. *)
Definition same_but_alerts (s s' : WeatherMonitoringAgent) : Prop :=
  NOAA_AVAILABLE s' = NOAA_AVAILABLE s /\
  location s' = location s /\
  use_real_weather s' = use_real_weather s /\
  simulator s' = simulator s /\
  weather_data s' = weather_data s /\
  monitoring_active s' = monitoring_active s /\
  monitoring_task s' = monitoring_task s /\
  noaa_service s' = noaa_service s /\
  noaa_location s' = noaa_location s /\
  alert_thresholds s' = alert_thresholds s.

(** The mode of the agent: what [initialize] selects. *)
Definition mode (s : WeatherMonitoringAgent) : bool * bool * option NOAALocation.t :=
  (NOAA_AVAILABLE s, use_real_weather s, noaa_location s).

(** The reading the simulator gives in a cycle. *)
Definition simulated_reading (env : cycle_env) (c : clock) (s : WeatherMonitoringAgent)
    : WeatherReading.t :=
  (WeatherSimulator.generate_hourly_reading (simulator s) c 0 (sim_draws env)).1.

(** ** Operations *)

(** The types of the messages the agent has sent, oldest first. *)
Definition sent_types (s : WeatherMonitoringAgent) : list string :=
  CrossLanguageMessage.type <$> outbox s.

(** A step that keeps the mode, the location, the service and the
    history, and, where advisories are not enabled, sends no advisory
    and keeps the advisory cache. *)
Definition quiet (s s' : WeatherMonitoringAgent) : Prop :=
  mode s' = mode s /\ location s' = location s /\
  noaa_service s' = noaa_service s /\
  weather_data s' = weather_data s /\
  exists types,
    sent_types s' = sent_types s ++ types /\
    (noaa_enabled s = false ->
     ("noaa_weather_alert" ∉ types) /\ noaa_alerts s' = noaa_alerts s).

(** What an operation does besides: nothing, or append a reading to the
    history, or drop the service. *)
Definition loud (s s' : WeatherMonitoringAgent) : Prop :=
  s' = s \/ (exists reading, s' = append_reading reading s) \/
  s' = set_noaa_service None s.

(** ** [weather_monitoring_agent.py]: history and analysis *)

(** The range of [timedelta] and of [datetime], in microseconds (the
    latter since the epoch: years 1 to 9999). *)
Definition timedelta_min : Z := (-999999999 * 86400 * 1000000)%Z.
Definition timedelta_max : Z := ((999999999 * 86400 + 86399) * 1000000 + 999999)%Z.
Definition datetime_min : Z := (-62135596800 * 1000000)%Z.
Definition datetime_max : Z := (253402300799 * 1000000 + 999999)%Z.

(** [datetime.now(timezone.utc) - timedelta(hours=hours_back)].  [None]
    is the [TypeError] of an argument that is no number, and the
    [OverflowError] of a duration or of a date out of range. *)
Definition cutoff (hours_back : pyval) (c : clock) : option Z :=
  h ← as_number hours_back;
  let delta := round_half_even (h * inject_Z 3600000000) in
  if bool_decide (timedelta_min <= delta <= timedelta_max)%Z then
    let cutoff_time := (now c - delta)%Z in
    if bool_decide (datetime_min <= cutoff_time <= datetime_max)%Z
    then Some cutoff_time else None
  else None.

(** The comprehension of [handle_get_weather_history] and of
    [get_weather_analysis]: the readings newer than [cutoff_time]. *)
Definition recent (cutoff_time : Z) (data : list WeatherReading.t)
    : list WeatherReading.t :=
  filter (fun reading => (cutoff_time < WeatherReading.timestamp reading)%Z) data.

(** [handle_get_weather_history] *)
Definition handle_get_weather_history (message : CrossLanguageMessage.t) (c : clock)
    (s : WeatherMonitoringAgent) : option WeatherMonitoringAgent :=
  hours_back ← payload_get (CrossLanguageMessage.payload message) "hours_back" (VInt 24);
  cutoff_time ← cutoff hours_back c;
  let historical_data :=
    (fun reading => VDict (WeatherReading.to_dict reading))
      <$> recent cutoff_time (weather_data s) in
  Some (send_message
          (response "history_response_" "weather_history_response"
             (<["location" := VStr (location s)]>
             (<["hours_requested" := hours_back]>
             (<["data_points" := VInt (Z.of_nat (length historical_data))]>
             (<["weather_history" := VList historical_data]> ∅))))
             message c s) s).

(** [_get_conditions_summary] *)
Definition _get_conditions_summary (data : list WeatherReading.t) : gmap string Z :=
  foldl (fun conditions_count reading =>
           let condition := WeatherReading.conditions reading in
           <[condition := (default 0 (conditions_count !! condition) + 1)%Z]>
             conditions_count)
        ∅ data.

(** The builtins [sum], [min] and [max] on a list of floats; [min] and
    [max] keep the first of equal values and are called on lists that
    are not empty, here [x :: l]. *)
Definition sum_of (l : list Q) : Q := foldl Qplus 0%Q l.

Definition min_of (x : Q) (l : list Q) : Q := foldl Qmin x l.
Definition max_of (x : Q) (l : list Q) : Q := foldl Qmax x l.

Section Analysis.

(** [str] of a float, as in [AlertEngine]. *)
Variable float_str : Q -> string.

(** The text of a number in an f-string. *)
Definition str_of_number (v : pyval) : string :=
  match v with
  | VInt n => pretty n
  | VFloat q => float_str q
  | VBool b => if b then "True" else "False"
  | _ => EmptyString
  end.

(** [get_weather_analysis]; the statistics are taken over the readings
    [first :: rest] of the period. *)
Definition statistics (hours_back : pyval) (first : WeatherReading.t)
    (rest : list WeatherReading.t) (alerts_active : nat) : gmap string pyval :=
  let recent_data := first :: rest in
  let latest := List.last rest first in
  let temps := WeatherReading.temperature_f <$> recent_data in
  let humidity := WeatherReading.humidity_percent <$> recent_data in
  let precipitation := WeatherReading.precipitation_inches <$> recent_data in
  let wind_speeds := WeatherReading.wind_speed_mph <$> recent_data in
  let len := inject_Z (Z.of_nat (length recent_data)) in
  <["period" := VStr ("Last " +:+ str_of_number hours_back +:+ " hours")]>
  (<["data_points" := VInt (Z.of_nat (length recent_data))]>
  (<["temperature" :=
       VDict (<["current" := VFloat (WeatherReading.temperature_f latest)]>
             (<["min" := VFloat (min_of (WeatherReading.temperature_f first)
                                   (WeatherReading.temperature_f <$> rest))]>
             (<["max" := VFloat (max_of (WeatherReading.temperature_f first)
                                   (WeatherReading.temperature_f <$> rest))]>
             (<["avg" := VFloat (round (sum_of temps / len) 1)]>
             (<["trend" :=
                  VStr (if Qgtb (WeatherReading.temperature_f latest)
                                (WeatherReading.temperature_f first)
                        then "rising"
                        else if Qltb (WeatherReading.temperature_f latest)
                                     (WeatherReading.temperature_f first)
                             then "falling" else "stable")]> ∅)))))]>
  (<["humidity" :=
       VDict (<["current" := VFloat (WeatherReading.humidity_percent latest)]>
             (<["min" := VFloat (min_of (WeatherReading.humidity_percent first)
                                   (WeatherReading.humidity_percent <$> rest))]>
             (<["max" := VFloat (max_of (WeatherReading.humidity_percent first)
                                   (WeatherReading.humidity_percent <$> rest))]>
             (<["avg" := VFloat (round (sum_of humidity / len) 1)]> ∅))))]>
  (<["precipitation" :=
       VDict (<["total" := VFloat (round (sum_of precipitation) 2)]>
             (<["max_hourly" := VFloat (max_of (WeatherReading.precipitation_inches first)
                                          (WeatherReading.precipitation_inches <$> rest))]>
             (<["hours_with_precip" :=
                  VInt (Z.of_nat (length (filter (fun p => Qgtb p 0 = true)
                                                 precipitation)))]> ∅)))]>
  (<["wind" :=
       VDict (<["current_speed" := VFloat (WeatherReading.wind_speed_mph latest)]>
             (<["current_direction" := VStr (WeatherReading.wind_direction latest)]>
             (<["max_speed" := VFloat (max_of (WeatherReading.wind_speed_mph first)
                                         (WeatherReading.wind_speed_mph <$> rest))]>
             (<["avg_speed" := VFloat (round (sum_of wind_speeds / len) 1)]> ∅))))]>
  (<["conditions" :=
       VDict (<["current" := VStr (WeatherReading.conditions latest)]>
             (<["conditions_summary" :=
                  VDict (VInt <$> _get_conditions_summary recent_data)]> ∅))]>
  (<["alerts_active" := VInt (Z.of_nat alerts_active)]> ∅))))))).

Definition get_weather_analysis (hours_back : pyval) (c : clock)
    (s : WeatherMonitoringAgent) : option (gmap string pyval) :=
  match weather_data s with
  | [] => Some (<["error" := VStr "No weather data available"]> ∅)
  | _ :: _ =>
    cutoff_time ← cutoff hours_back c;
    match recent cutoff_time (weather_data s) with
    | [] =>
      Some (<["error" :=
                VStr ("No data available for last " +:+ str_of_number hours_back
                      +:+ " hours")]> ∅)
    | first :: rest =>
      Some (statistics hours_back first rest (length (active_alerts s)))
    end
  end.

(** [handle_weather_analysis_request] *)
Definition handle_weather_analysis_request (message : CrossLanguageMessage.t)
    (c : clock) (s : WeatherMonitoringAgent) : option WeatherMonitoringAgent :=
  hours_back ← payload_get (CrossLanguageMessage.payload message) "hours_back" (VInt 24);
  analysis ← get_weather_analysis hours_back c s;
  Some (send_message
          (response "analysis_response_" "weather_analysis_response"
             (<["location" := VStr (location s)]>
             (<["analysis" := VDict analysis]> ∅))
             message c s) s).

End Analysis.

(** An entry of a group of the analysis, as in
    [analysis["temperature"]["min"]]. *)
Definition analysis_entry (group key : string) (analysis : gmap string pyval)
    : option pyval :=
  match analysis !! group with
  | Some (VDict d) => d !! key
  | _ => None
  end.

(** How many readings of [data] have the conditions [label]. *)
Definition occurrences (label : string) (data : list WeatherReading.t) : nat :=
  length (filter (fun reading => WeatherReading.conditions reading = label) data).

(** ** [base_agent.py]: processing messages *)

Definition set_last_heartbeat (t : Z) (a : BaseAgent.t) : BaseAgent.t :=
  {| BaseAgent.agent_id := BaseAgent.agent_id a; BaseAgent.name := BaseAgent.name a;
     BaseAgent.version := BaseAgent.version a;
     BaseAgent.started_at := BaseAgent.started_at a; BaseAgent.last_heartbeat := t;
     BaseAgent.message_count := BaseAgent.message_count a;
     BaseAgent.error_count := BaseAgent.error_count a;
     BaseAgent.is_running := BaseAgent.is_running a;
     BaseAgent.message_handlers := BaseAgent.message_handlers a;
     BaseAgent.state := BaseAgent.state a; BaseAgent.outbox := BaseAgent.outbox a |}.

Definition set_error_count (n : Z) (a : BaseAgent.t) : BaseAgent.t :=
  {| BaseAgent.agent_id := BaseAgent.agent_id a; BaseAgent.name := BaseAgent.name a;
     BaseAgent.version := BaseAgent.version a;
     BaseAgent.started_at := BaseAgent.started_at a;
     BaseAgent.last_heartbeat := BaseAgent.last_heartbeat a;
     BaseAgent.message_count := BaseAgent.message_count a;
     BaseAgent.error_count := n;
     BaseAgent.is_running := BaseAgent.is_running a;
     BaseAgent.message_handlers := BaseAgent.message_handlers a;
     BaseAgent.state := BaseAgent.state a; BaseAgent.outbox := BaseAgent.outbox a |}.

Definition set_is_running (b : bool) (a : BaseAgent.t) : BaseAgent.t :=
  {| BaseAgent.agent_id := BaseAgent.agent_id a; BaseAgent.name := BaseAgent.name a;
     BaseAgent.version := BaseAgent.version a;
     BaseAgent.started_at := BaseAgent.started_at a;
     BaseAgent.last_heartbeat := BaseAgent.last_heartbeat a;
     BaseAgent.message_count := BaseAgent.message_count a;
     BaseAgent.error_count := BaseAgent.error_count a;
     BaseAgent.is_running := b;
     BaseAgent.message_handlers := BaseAgent.message_handlers a;
     BaseAgent.state := BaseAgent.state a; BaseAgent.outbox := BaseAgent.outbox a |}.

(** [(datetime.now(timezone.utc) - self.started_at).total_seconds()] *)
Definition uptime (c : clock) (a : BaseAgent.t) : Q :=
  (inject_Z (now c - BaseAgent.started_at a) / 1000000)%Q.

(** [get_status] *)
Definition get_status (c : clock) (a : BaseAgent.t) : gmap string pyval :=
  <["agent_id" := VStr (BaseAgent.agent_id a)]>
  (<["name" := VStr (BaseAgent.name a)]>
  (<["version" := VStr (BaseAgent.version a)]>
  (<["status" := VStr (if BaseAgent.is_running a then "running" else "stopped")]>
  (<["uptime_seconds" := VFloat (uptime c a)]>
  (<["message_count" := VInt (BaseAgent.message_count a)]>
  (<["error_count" := VInt (BaseAgent.error_count a)]>
  (<["last_heartbeat" := VTime (BaseAgent.last_heartbeat a)]>
  (<["started_at" := VTime (BaseAgent.started_at a)]> ∅)))))))).

(** [send_error_message]; [correlation_id] is optional. *)
Definition send_error_message (error : string) (correlation_id : option string)
    (c : clock) (s : WeatherMonitoringAgent) : WeatherMonitoringAgent :=
  let message :=
    CrossLanguageMessage.init (now c)
      ("error_" +:+ pretty (time_ms c)) "error"
      (BaseAgent.source_of (base s)) BaseAgent.broadcast
      (VDict (<["error" := VStr error]>
             (<["timestamp" := VTime (now c)]>
             (<["agent_info" :=
                  VDict (<["name" := VStr (BaseAgent.name (base s))]>
                        (<["version" := VStr (BaseAgent.version (base s))]> ∅))]> ∅))))
      (VDict (<["priority" := VStr "high"]>
             (<["correlationId" := opt_str correlation_id]>
             (<["retryCount" := VInt 0]>
             (<["maxRetries" := VInt 0]>
             (<["timeoutMs" := VInt 5000]> ∅)))))) in
  send_message message s.

(** [send_heartbeat] *)
Definition send_heartbeat (c : clock) (s : WeatherMonitoringAgent)
    : WeatherMonitoringAgent :=
  let message :=
    CrossLanguageMessage.init (now c)
      ("heartbeat_" +:+ pretty (time_ms c)) "heartbeat"
      (BaseAgent.source_of (base s)) BaseAgent.broadcast
      (VDict (<["status" := VStr "healthy"]>
             (<["uptime" := VFloat (uptime c (base s))]>
             (<["message_count" := VInt (BaseAgent.message_count (base s))]>
             (<["error_count" := VInt (BaseAgent.error_count (base s))]> ∅)))))
      (VDict (<["priority" := VStr "low"]>
             (<["retryCount" := VInt 0]>
             (<["maxRetries" := VInt 0]>
             (<["timeoutMs" := VInt 1000]> ∅))))) in
  send_message message s.

(** [handle_ping] *)
Definition handle_ping (message : CrossLanguageMessage.t) (c : clock)
    (s : WeatherMonitoringAgent) : WeatherMonitoringAgent :=
  send_message
    (response "pong_" "pong"
       (<["original_message_id" := VStr (CrossLanguageMessage.id message)]>
       (<["timestamp" := VTime (now c)]> ∅))
       message c s) s.

(** [handle_shutdown] *)
Definition handle_shutdown (message : CrossLanguageMessage.t)
    (s : WeatherMonitoringAgent) : WeatherMonitoringAgent :=
  set_base (set_is_running false (base s)) s.

(** [handle_get_status] *)
Definition handle_get_status (message : CrossLanguageMessage.t) (c : clock)
    (s : WeatherMonitoringAgent) : WeatherMonitoringAgent :=
  send_message
    (response "status_" "status_response" (get_status c (base s)) message c s) s.

(** [handle_heartbeat_request] *)
Definition handle_heartbeat_request (message : CrossLanguageMessage.t) (c : clock)
    (s : WeatherMonitoringAgent) : WeatherMonitoringAgent :=
  send_heartbeat c s.

(** What the outside world does while one message is processed: the
    draws of a forecast, the answers of the weather service to a
    refresh, and the text [str(e)] of the exception of a handler that
    raises. *)
Record message_env := mkMessageEnv {
  forecast_draws : Z -> draws;
  refresh : refresh_env;
  error_text : string
}.

Section Dispatch.

Variable float_str : Q -> string.

(** [await handler(message)] for the bound method [handler]; [None]
    when the handler raises. *)
Definition call (handler : Handler.t) (env : message_env)
    (message : CrossLanguageMessage.t) (c : clock) (s : WeatherMonitoringAgent)
    : option WeatherMonitoringAgent :=
  match handler with
  | Handler.handle_ping => Some (handle_ping message c s)
  | Handler.handle_shutdown => Some (handle_shutdown message s)
  | Handler.handle_get_status => Some (handle_get_status message c s)
  | Handler.handle_heartbeat_request => Some (handle_heartbeat_request message c s)
  | Handler.handle_start_monitoring => handle_start_monitoring message c s
  | Handler.handle_stop_monitoring => handle_stop_monitoring message c s
  | Handler.handle_get_current_weather => Some (handle_get_current_weather message c s)
  | Handler.handle_get_weather_history => handle_get_weather_history message c s
  | Handler.handle_get_weather_forecast =>
    handle_get_weather_forecast (forecast_draws env) message c s
  | Handler.handle_get_weather_alerts => Some (handle_get_weather_alerts message c s)
  | Handler.handle_update_alert_thresholds =>
    handle_update_alert_thresholds message c s
  | Handler.handle_weather_analysis_request =>
    handle_weather_analysis_request float_str message c s
  | Handler.handle_get_noaa_alerts => Some (handle_get_noaa_alerts message c s)
  | Handler.handle_refresh_noaa_data =>
    Some (handle_refresh_noaa_data (refresh env) message c s)
  end.

(** [process_message].  A handler that raises has not changed the
    agent; the exception is counted and reported. *)
Definition process_message (env : message_env) (message : CrossLanguageMessage.t)
    (c : clock) (s : WeatherMonitoringAgent) : WeatherMonitoringAgent :=
  let s := set_base (set_last_heartbeat (now c) (base s)) s in
  match BaseAgent.message_handlers (base s) !! CrossLanguageMessage.type message with
  | Some handler =>
    match call handler env message c s with
    | Some s => s
    | None =>
      let s := set_base (set_error_count (BaseAgent.error_count (base s) + 1) (base s)) s in
      send_error_message (error_text env) (Some (CrossLanguageMessage.id message)) c s
    end
  | None =>
    send_error_message
      ("Unknown message type: " +:+ CrossLanguageMessage.type message) None c s
  end.

End Dispatch.

(** The agent but for the bookkeeping of its base class: every field of
    the weather agent. *)
Definition weather_state (s : WeatherMonitoringAgent) :=
  (NOAA_AVAILABLE s, location s, use_real_weather s, simulator s, weather_data s,
   active_alerts s, noaa_alerts s, monitoring_active s, monitoring_task s,
   noaa_service s, noaa_location s, alert_thresholds s).

(** The bookkeeping of the base class, but for the outbox. *)
Definition bookkeeping (s : WeatherMonitoringAgent) :=
  let a := base s in
  (BaseAgent.agent_id a, BaseAgent.name a, BaseAgent.version a,
   BaseAgent.started_at a, BaseAgent.last_heartbeat a, BaseAgent.message_count a,
   BaseAgent.error_count a, BaseAgent.is_running a, BaseAgent.message_handlers a,
   BaseAgent.state a).

(** The types of the messages the agent sends of its own accord. *)
Definition broadcast_types : list string :=
  ["agent_ready"; "weather_update"; "weather_alert"; "noaa_weather_alert";
   "heartbeat"; "error"].


(** A world in which the weather service does not answer. *)
Definition offline : message_env :=
  {| forecast_draws := fun _ => calm_draws;
     refresh := {| refresh_weather := None; refresh_error := "timeout";
                   refresh_alerts := None |};
     error_text := "'NoneType' object has no attribute 'get'" |}.

(** ** [noaa_weather_service.py]: helpers *)

(** The compass points of [_degrees_to_direction]. *)
Definition directions : list string :=
  ["N"; "NNE"; "NE"; "ENE"; "E"; "ESE"; "SE"; "SSE";
   "S"; "SSW"; "SW"; "WSW"; "W"; "WNW"; "NW"; "NNW"].


(** [str.lower()] on ASCII text. *)
Fixpoint lower_str (s : string) : string :=
  match s with
  | EmptyString => EmptyString
  | String a rest => String (lower a) (lower_str rest)
  end.

(** The lookup table of [geocode_city_state]. *)
Definition city_coordinates : gmap string (Q * Q) :=
  list_to_map
    [("boise,id", (43615 # 1000, -(1162023 # 10000)));
     ("boise,idaho", (43615 # 1000, -(1162023 # 10000)));
     ("seattle,wa", (476062 # 10000, -(1223321 # 10000)));
     ("seattle,washington", (476062 # 10000, -(1223321 # 10000)));
     ("portland,or", (455152 # 10000, -(1226784 # 10000)));
     ("portland,oregon", (455152 # 10000, -(1226784 # 10000)));
     ("denver,co", (397392 # 10000, -(1049903 # 10000)));
     ("denver,colorado", (397392 # 10000, -(1049903 # 10000)));
     ("phoenix,az", (334484 # 10000, -(112074 # 1000)));
     ("phoenix,arizona", (334484 # 10000, -(112074 # 1000)));
     ("los angeles,ca", (340522 # 10000, -(1182437 # 10000)));
     ("los angeles,california", (340522 # 10000, -(1182437 # 10000)));
     ("san francisco,ca", (377749 # 10000, -(1224194 # 10000)));
     ("san francisco,california", (377749 # 10000, -(1224194 # 10000)));
     ("chicago,il", (418781 # 10000, -(876298 # 10000)));
     ("chicago,illinois", (418781 # 10000, -(876298 # 10000)));
     ("new york,ny", (407128 # 10000, -(74006 # 1000)));
     ("new york,new york", (407128 # 10000, -(74006 # 1000)));
     ("washington,dc", (388951 # 10000, -(770364 # 10000)));
     ("miami,fl", (257617 # 10000, -(801918 # 10000)));
     ("miami,florida", (257617 # 10000, -(801918 # 10000)))].

(** [geocode_city_state] *)
Definition geocode_city_state (city state : string) : option (Q * Q) :=
  let key := lower_str city +:+ "," +:+ lower_str state in
  city_coordinates !! key.

(** ** [weather_monitoring_agent.py]: initialize *)

(** [s.split(', ')]: the pieces of [s] between the occurrences of a
    comma followed by a space, found from left to right; [cur] is the
    piece read so far. *)
Fixpoint split_from (cur : string) (s : string) : list string :=
  match s with
  | EmptyString => [cur]
  | String a rest =>
    match rest with
    | String b rest' =>
      if bool_decide (a = "," /\ b = " ")%char
      then cur :: split_from EmptyString rest'
      else split_from (cur +:+ String a EmptyString) rest
    | EmptyString => [cur +:+ String a EmptyString]
    end
  end.

Definition split (s : string) : list string := split_from EmptyString s.

Definition set_use_real_weather (b : bool) (s : WeatherMonitoringAgent) :=
  {| base := base s; NOAA_AVAILABLE := NOAA_AVAILABLE s; location := location s;
     use_real_weather := b; simulator := simulator s;
     weather_data := weather_data s; active_alerts := active_alerts s;
     noaa_alerts := noaa_alerts s; monitoring_active := monitoring_active s;
     monitoring_task := monitoring_task s; noaa_service := noaa_service s;
     noaa_location := noaa_location s; alert_thresholds := alert_thresholds s |}.

Definition set_noaa_location (l : option NOAALocation.t) (s : WeatherMonitoringAgent) :=
  {| base := base s; NOAA_AVAILABLE := NOAA_AVAILABLE s; location := location s;
     use_real_weather := use_real_weather s; simulator := simulator s;
     weather_data := weather_data s; active_alerts := active_alerts s;
     noaa_alerts := noaa_alerts s; monitoring_active := monitoring_active s;
     monitoring_task := monitoring_task s; noaa_service := noaa_service s;
     noaa_location := l; alert_thresholds := alert_thresholds s |}.

(** What the outside world does during [initialize]: whether the HTTP
    session of the service opens ([false]: the constructor of the
    session raises), the answers of [get_location_info],
    [get_current_weather] and [get_active_alerts] ([None] raises, [Some
    None] returns [None]), and the draws of the simulator. *)
Record init_env := mkInitEnv {
  session_opens : bool;
  location_info : option (option NOAALocation.t);
  initial_weather : option (option NOAAWeatherReading.t);
  initial_draws : draws;
  initial_alerts : option (list NOAAAlert.t)
}.

(** The first part of [initialize]: the service and the location. *)
Definition configure (env : init_env) (s : WeatherMonitoringAgent)
    : WeatherMonitoringAgent :=
  if use_real_weather s && NOAA_AVAILABLE s then
    let service :=
      NOAAWeatherService.init
        ("CommunityServices/" +:+ BaseAgent.version (base s)
         +:+ " (weather-monitoring+" +:+ BaseAgent.agent_id (base s)
         +:+ "@community.org)") in
    let s := set_noaa_service (Some service) s in
    if session_opens env then
      let s := set_noaa_service (Some (NOAAWeatherService.initialize service)) s in
      match split (location s) with
      | [city; state] =>
        match geocode_city_state city state with
        | Some coords =>
          match location_info env with
          | Some noaa_location =>
            let s := set_noaa_location noaa_location s in
            if is_some noaa_location then s else set_use_real_weather false s
          | None => set_use_real_weather false s
          end
        | None => set_use_real_weather false s
        end
      | _ => set_use_real_weather false s
      end
    else set_use_real_weather false s
  else if use_real_weather s && negb (NOAA_AVAILABLE s)
       then set_use_real_weather false s
       else s.

(** [initialize] *)
Definition initialize (env : init_env) (c : clock) (s : WeatherMonitoringAgent)
    : WeatherMonitoringAgent :=
  let s := configure env s in
  let simulated (s : WeatherMonitoringAgent) :=
    let '(initial_reading, sim) :=
      WeatherSimulator.generate_hourly_reading (simulator s) c 0 (initial_draws env) in
    set_weather_data (weather_data s ++ [initial_reading]) (set_simulator sim s) in
  let s :=
    if use_real_weather s && is_some (noaa_service s) && is_some (noaa_location s) then
      match initial_weather env with
      | Some (Some noaa_reading) =>
        set_weather_data (weather_data s ++ [_convert_noaa_reading noaa_reading]) s
      | Some None => simulated s
      | None => simulated s
      end
    else simulated s in
  if use_real_weather s && is_some (noaa_service s) && is_some (noaa_location s) then
    match initial_alerts env with
    | Some noaa_alerts => set_noaa_alerts noaa_alerts s
    | None => s
    end
  else s.

(** A start in which the weather service answers every call. *)
Definition online : init_env :=
  {| session_opens := true; location_info := Some (Some boise);
     initial_weather := Some (Some live_reading); initial_draws := calm_draws;
     initial_alerts := Some [heat_advisory] |}.

(** ** [base_agent.py]: stopping *)




(** * Theorems *)

(** ** Arithmetic of the embedding *)

Lemma Qle_bool_false (a b : Q) : Qle_bool a b = false -> (b < a)%Q.
Proof.
  intros E. apply Qnot_le_lt. intros H. apply Qle_bool_iff in H. congruence.
Qed.

Lemma Qgtb_true (a b : Q) : Qgtb a b = true -> (b < a)%Q.
Proof. unfold Qgtb. rewrite negb_true_iff. apply Qle_bool_false. Qed.

Lemma Qgtb_false (a b : Q) : Qgtb a b = false -> (a <= b)%Q.
Proof. unfold Qgtb. rewrite negb_false_iff. apply Qle_bool_iff. Qed.


Lemma Qltb_false (a b : Q) : Qltb a b = false -> (b <= a)%Q.
Proof. unfold Qltb. rewrite negb_false_iff. apply Qle_bool_iff. Qed.

Lemma Qgeb_true (a b : Q) : Qgeb a b = true <-> (b <= a)%Q.
Proof. unfold Qgeb. apply Qle_bool_iff. Qed.

Lemma Qmax_cases (a b : Q) :
  (Qmax a b = a /\ (b <= a)%Q) \/ (Qmax a b = b /\ (a < b)%Q).
Proof.
  unfold Qmax. destruct (Qle_bool b a) eqn:E.
  - left. split; [done | by apply Qle_bool_iff].
  - right. split; [done | by apply Qle_bool_false].
Qed.

Lemma Qmin_cases (a b : Q) :
  (Qmin a b = a /\ (a <= b)%Q) \/ (Qmin a b = b /\ (b < a)%Q).
Proof.
  unfold Qmin. destruct (Qle_bool a b) eqn:E.
  - left. split; [done | by apply Qle_bool_iff].
  - right. split; [done | by apply Qle_bool_false].
Qed.

(** [max(lo, min(hi, x))] stays between [lo] and [hi]. *)
Lemma clamp_bounds (lo hi x : Q) :
  (lo <= hi)%Q -> (lo <= Qmax lo (Qmin hi x))%Q /\ (Qmax lo (Qmin hi x) <= hi)%Q.
Proof.
  intros Hle.
  destruct (Qmax_cases lo (Qmin hi x)) as [[-> H]|[-> H]];
    destruct (Qmin_cases hi x) as [[E H']|[E H']]; rewrite ?E in *; lra.
Qed.

Lemma round_half_even_ge (a : Z) (x : Q) :
  (inject_Z a <= x)%Q -> (a <= round_half_even x)%Z.
Proof.
  intros Ha. unfold round_half_even.
  assert (a <= Qfloor x)%Z as Hlo.
  { rewrite <- (Qfloor_Z a). by apply Qfloor_resp_le. }
  destruct (Qltb _ _); [lia|]. destruct (Qgtb _ _); [lia|].
  destruct (Z.even _); lia.
Qed.

Lemma round_half_even_le (b : Z) (x : Q) :
  (x <= inject_Z b)%Q -> (round_half_even x <= b)%Z.
Proof.
  intros Hb. unfold round_half_even.
  pose proof (Qfloor_le x) as Hfl.
  assert (Qfloor x <= b)%Z as Hhi.
  { rewrite <- (Qfloor_Z b). by apply Qfloor_resp_le. }
  set (f := Qfloor x) in *.
  destruct (Qltb _ _) eqn:E1; [lia|].
  apply Qltb_false in E1.
  assert (inject_Z f < inject_Z b)%Q as H by lra.
  rewrite <- Zlt_Qlt in H.
  destruct (Qgtb _ _); [lia|]. destruct (Z.even f); lia.
Qed.

Lemma pow10_pos (n : nat) : (0 < inject_Z (pow10 n))%Q.
Proof.
  unfold pow10. change 0%Q with (inject_Z 0). rewrite <- Zlt_Qlt.
  apply Z.pow_pos_nonneg; lia.
Qed.

(** Rounding to [n] decimals keeps a bound that has [n] decimals. *)
Lemma round_ge (a : Z) (n : nat) (x : Q) :
  (inject_Z a / inject_Z (pow10 n) <= x)%Q ->
  (inject_Z a / inject_Z (pow10 n) <= round x n)%Q.
Proof.
  intros Ha. pose proof (pow10_pos n) as Hp.
  set (p := inject_Z (pow10 n)) in *.
  assert (inject_Z a <= x * p)%Q as Ha'.
  { assert (inject_Z a == inject_Z a / p * p)%Q as E by (field; lra).
    rewrite E. apply Qmult_le_compat_r; lra. }
  apply round_half_even_ge in Ha'. unfold round. fold p.
  apply Qmult_le_compat_r;
    [by rewrite <- Zle_Qle | apply Qlt_le_weak, Qinv_lt_0_compat, Hp].
Qed.

Lemma round_le (b : Z) (n : nat) (x : Q) :
  (x <= inject_Z b / inject_Z (pow10 n))%Q ->
  (round x n <= inject_Z b / inject_Z (pow10 n))%Q.
Proof.
  intros Hb. pose proof (pow10_pos n) as Hp.
  set (p := inject_Z (pow10 n)) in *.
  assert (x * p <= inject_Z b)%Q as Hb'.
  { assert (inject_Z b == inject_Z b / p * p)%Q as E by (field; lra).
    rewrite E. apply Qmult_le_compat_r; lra. }
  apply round_half_even_le in Hb'. unfold round. fold p.
  apply Qmult_le_compat_r;
    [by rewrite <- Zle_Qle | apply Qlt_le_weak, Qinv_lt_0_compat, Hp].
Qed.



(** ** The simulator (C6) *)

Section Simulator.

Variables (sim : WeatherSimulator.t) (c : clock) (hour_offset : Z) (d : draws).




Lemma precipitation_nonneg :
  draws_ok d -> (0 <= WeatherSimulator.precipitation sim d)%Q.
Proof.
  intros (_ & [Hp _] & [Hh _] & _).
  unfold WeatherSimulator.precipitation, uniform.
  destruct (Qltb _ _); [|lra]. destruct (Qltb _ _); lra.
Qed.




End Simulator.

(** The reading of [generate_hourly_reading]: the five clamped fields
    are in range for all draws; temperature and pressure add an
    unclamped normal variate to the base value and the trend. *)
Lemma generate_hourly_reading_fields (sim : WeatherSimulator.t) (c : clock)
    (hour_offset : Z) (d : draws) :
  let r := (WeatherSimulator.generate_hourly_reading sim c hour_offset d).1 in
  WeatherReading.temperature_f r = round (WeatherSimulator.temperature sim c hour_offset d) 1 /\
  WeatherReading.humidity_percent r = round (WeatherSimulator.humidity sim c hour_offset d) 1 /\
  WeatherReading.precipitation_inches r = round (WeatherSimulator.precipitation sim d) 2 /\
  WeatherReading.wind_speed_mph r = round (WeatherSimulator.wind_speed sim d) 1 /\
  WeatherReading.pressure_mb r = round (WeatherSimulator.pressure sim d) 1 /\
  WeatherReading.visibility_miles r = round (WeatherSimulator.visibility sim c hour_offset d) 1 /\
  WeatherReading.uv_index r = WeatherSimulator.uv_index sim c hour_offset d.
Proof. repeat split. Qed.


Lemma calm_draws_ok : draws_ok calm_draws.
Proof. unfold draws_ok, unit_interval, calm_draws; cbn. repeat split; (lra || lia). Qed.



(** The pressure follows its noise term without a clamp. *)
Lemma simulator_pressure_follows_noise (sim : WeatherSimulator.t) (d : draws) :
  (WeatherSimulator.pressure sim d
   == (101325 # 100) + WeatherSimulator.pressure_trend sim + 5 * z_pressure d)%Q.
Proof. unfold WeatherSimulator.pressure, normalvariate. ring. Qed.

(** ** Round trips (C3) *)

Lemma WeatherReading_to_dict_dom (r : WeatherReading.t) :
  dom (WeatherReading.to_dict r) = WeatherReading.field_names.
Proof.
  unfold WeatherReading.to_dict, WeatherReading.field_names.
  rewrite !dom_insert_L, dom_empty_L. set_solver.
Qed.

Lemma WeatherReading_roundtrip (r : WeatherReading.t) :
  WeatherReading.from_dict (WeatherReading.to_dict r) = Some r.
Proof.
  unfold WeatherReading.from_dict.
  rewrite bool_decide_eq_true_2 by apply WeatherReading_to_dict_dom.
  destruct r; reflexivity.
Qed.

(** Decoding restores the six fields that [from_dict] reads and stamps
    the message with the time of the decoding. *)
Lemma CrossLanguageMessage_roundtrip_fields (now : Z) (m : CrossLanguageMessage.t) :
  CrossLanguageMessage.from_dict now (CrossLanguageMessage.to_dict m)
  = Some (CrossLanguageMessage.init now
            (CrossLanguageMessage.id m) (CrossLanguageMessage.type m)
            (CrossLanguageMessage.source m) (CrossLanguageMessage.destination m)
            (CrossLanguageMessage.payload m) (CrossLanguageMessage.metadata m)).
Proof. destruct m; reflexivity. Qed.

(** C3, amended.  [WeatherReading.from_dict (r.to_dict ())] equals [r]
    field for field.  [CrossLanguageMessage.from_dict (m.to_dict ())]
    equals [m] on id, type, source, destination, payload and metadata;
    its timestamp is the time at which it was decoded, not the
    timestamp of [m]. *)
Theorem to_dict_from_dict_roundtrip :
  (forall r : WeatherReading.t,
     WeatherReading.from_dict (WeatherReading.to_dict r) = Some r) /\
  (forall (now : Z) (m : CrossLanguageMessage.t),
     exists m',
       CrossLanguageMessage.from_dict now (CrossLanguageMessage.to_dict m) = Some m' /\
       CrossLanguageMessage.id m' = CrossLanguageMessage.id m /\
       CrossLanguageMessage.type m' = CrossLanguageMessage.type m /\
       CrossLanguageMessage.source m' = CrossLanguageMessage.source m /\
       CrossLanguageMessage.destination m' = CrossLanguageMessage.destination m /\
       CrossLanguageMessage.payload m' = CrossLanguageMessage.payload m /\
       CrossLanguageMessage.metadata m' = CrossLanguageMessage.metadata m /\
       CrossLanguageMessage.timestamp m' = now).
Proof.
  split; [apply WeatherReading_roundtrip|].
  intros now m. eexists. split; [apply CrossLanguageMessage_roundtrip_fields|].
  by repeat split.
Qed.

(** C3 as stated fails on the timestamp: a request stamped by its sender
    and decoded one second later carries the later time. *)
Lemma message_roundtrip_loses_timestamp :
  let m := request "get_current_weather" (VDict ∅) in
  exists m',
    CrossLanguageMessage.from_dict (CrossLanguageMessage.timestamp m + 1000000)
      (CrossLanguageMessage.to_dict m) = Some m' /\
    CrossLanguageMessage.timestamp m = 1700000000000000%Z /\
    CrossLanguageMessage.timestamp m' = 1700000001000000%Z /\
    m' <> m.
Proof.
  eexists. split; [apply CrossLanguageMessage_roundtrip_fields|].
  split; [reflexivity|]. split; [reflexivity|].
  intros H. apply (f_equal CrossLanguageMessage.timestamp) in H. discriminate H.
Qed.

(** ** The capability list (C5) *)

Lemma register_weather_handlers_dom (h : gmap string Handler.t) :
  dom (register_weather_handlers h) =
  {[ "start_monitoring"; "stop_monitoring"; "get_current_weather";
     "get_weather_history"; "get_weather_forecast"; "get_weather_alerts";
     "update_alert_thresholds"; "weather_analysis_request";
     "get_noaa_alerts"; "refresh_noaa_data" ]} ∪ dom h.
Proof.
  unfold register_weather_handlers, BaseAgent.register_handler.
  rewrite !dom_insert_L. set_solver.
Qed.

Lemma registered_request_types (c : clock) (available : bool) (agent_id loc : string)
    (real : bool) :
  dom (BaseAgent.message_handlers (base (init c available agent_id loc real))) =
  {[ "ping"; "shutdown"; "get_status"; "heartbeat_request";
     "start_monitoring"; "stop_monitoring"; "get_current_weather";
     "get_weather_history"; "get_weather_forecast"; "get_weather_alerts";
     "update_alert_thresholds"; "weather_analysis_request";
     "get_noaa_alerts"; "refresh_noaa_data" ]}.
Proof.
  change (BaseAgent.message_handlers (base (init c available agent_id loc real)))
    with (register_weather_handlers (BaseAgent.register_default_handlers ∅)).
  rewrite register_weather_handlers_dom.
  unfold BaseAgent.register_default_handlers.
  rewrite !dom_insert_L, dom_empty_L. set_solver.
Qed.

Lemma ready_message_capabilities (c : clock) (s : WeatherMonitoringAgent) :
  exists m,
    outbox (send_ready_message c s) = outbox s ++ [m] /\
    CrossLanguageMessage.type m = "agent_ready" /\
    capabilities_of m = Some (VList (VStr <$> get_capabilities)).
Proof. eexists. split; [reflexivity|]. split; reflexivity. Qed.

(** C5, amended.  The capability list of [get_capabilities], which the
    ready handshake carries unchanged, contains the base set
    ping, status, heartbeat and the nine request types start_monitoring,
    stop_monitoring, get_current_weather, get_weather_history,
    get_weather_forecast, get_weather_alerts, weather_analysis_request,
    get_noaa_alerts and refresh_noaa_data, that is every type registered
    by [register_weather_handlers] other than update_alert_thresholds. *)
Theorem capabilities_cover_listed_handlers (c : clock) (s : WeatherMonitoringAgent)
    (t : string) :
  t ∈ BaseAgent.get_capabilities \/
  (t ∈ dom (register_weather_handlers ∅) /\ t <> "update_alert_thresholds") ->
  t ∈ get_capabilities /\
  exists m, last (outbox (send_ready_message c s)) = Some m /\
            capabilities_of m = Some (VList (VStr <$> get_capabilities)).
Proof.
  intros H. split.
  - destruct H as [H|[H Hne]].
    + unfold BaseAgent.get_capabilities in H. unfold get_capabilities. set_solver.
    + rewrite register_weather_handlers_dom in H. unfold get_capabilities.
      set_solver.
  - destruct (ready_message_capabilities c s) as (m & Hout & _ & Hcap).
    exists m. rewrite Hout, last_snoc. done.
Qed.

Lemma capabilities_cover_listed_handlers_witness :
  "refresh_noaa_data" ∈ get_capabilities.
Proof.
  apply (capabilities_cover_listed_handlers two_pm simulated_agent "refresh_noaa_data").
  right. split; [|done].
  rewrite register_weather_handlers_dom. set_solver.
Defined.

(** C5 as stated fails: [update_alert_thresholds] and [shutdown] have a
    registered handler and are not capabilities. *)
Lemma capabilities_miss_registered_handlers :
  let handlers := BaseAgent.message_handlers (base simulated_agent) in
  ("update_alert_thresholds" ∈ dom handlers /\
   "update_alert_thresholds" ∉ get_capabilities) /\
  ("shutdown" ∈ dom handlers /\ "shutdown" ∉ get_capabilities).
Proof.
  cbn zeta. unfold simulated_agent. rewrite registered_request_types.
  unfold get_capabilities. repeat split; set_solver.
Qed.

(** ** Starting and stopping (C7) *)






(** ** Retries of [_make_request] (C2) *)

(** One call of [_make_request] sends one request; on a 429 it goes on
    as the nested call does. *)
Lemma make_request_429 (upstream : nat -> http_reply) (svc : NOAAWeatherService.t)
    (w : NOAAWeatherService.world) :
  upstream (NOAAWeatherService.sent w) = Status429 ->
  exists svc1 w1,
    NOAAWeatherService.sent w1 = S (NOAAWeatherService.sent w) /\
    forall depth,
      NOAAWeatherService._make_request (S depth) upstream svc w
      = NOAAWeatherService._make_request depth upstream svc1 w1.
Proof.
  intros H. eexists _, _. split; [|intros depth].
  2: { cbn [NOAAWeatherService._make_request]. unfold NOAAWeatherService.get.
       assert (forall b (x : NOAAWeatherService.world),
                 NOAAWeatherService.sent x = NOAAWeatherService.sent w ->
                 NOAAWeatherService.sent (if b : bool then x else w)
                 = NOAAWeatherService.sent w) as Hif by (by intros []).
       rewrite Hif by reflexivity. rewrite H. reflexivity. }
  reflexivity.
Qed.

Lemma make_request_200 (upstream : nat -> http_reply) (svc : NOAAWeatherService.t)
    (w : NOAAWeatherService.world) (data : pyval) (depth : nat) :
  upstream (NOAAWeatherService.sent w) = Status200 data ->
  exists svc1 w1,
    NOAAWeatherService.sent w1 = S (NOAAWeatherService.sent w) /\
    NOAAWeatherService._make_request (S depth) upstream svc w
    = Some (Some data, svc1, w1).
Proof.
  intros H. cbn [NOAAWeatherService._make_request]. unfold NOAAWeatherService.get.
  assert (forall b (x : NOAAWeatherService.world),
            NOAAWeatherService.sent x = NOAAWeatherService.sent w ->
            NOAAWeatherService.sent (if b : bool then x else w)
            = NOAAWeatherService.sent w) as Hif by (by intros []).
  rewrite Hif by reflexivity. rewrite H.
  eexists _, _. split; [|reflexivity]. reflexivity.
Qed.

(** An upstream that throttles the next [k] requests is asked [k + 1]
    times by one call. *)
Lemma make_request_throttled_from (k : nat) :
  forall (data : pyval) (svc : NOAAWeatherService.t) (w : NOAAWeatherService.world)
         (upstream : nat -> http_reply),
    (forall i, (NOAAWeatherService.sent w <= i < NOAAWeatherService.sent w + k)%nat ->
               upstream i = Status429) ->
    upstream (NOAAWeatherService.sent w + k)%nat = Status200 data ->
    exists svc' w',
      NOAAWeatherService._make_request (S k) upstream svc w = Some (Some data, svc', w') /\
      NOAAWeatherService.sent w' = (NOAAWeatherService.sent w + k + 1)%nat.
Proof.
  induction k as [|k IH]; intros data svc w upstream H429 H200.
  - rewrite Nat.add_0_r in H200.
    destruct (make_request_200 upstream svc w data 0 H200) as (svc1 & w1 & Hs & ->).
    exists svc1, w1. split; [done | lia].
  - destruct (make_request_429 upstream svc w) as (svc1 & w1 & Hs & ->).
    { apply H429. lia. }
    destruct (IH data svc1 w1 upstream) as (svc' & w' & -> & Hw').
    + intros i Hi. apply H429. lia.
    + rewrite <- H200. f_equal. lia.
    + exists svc', w'. split; [done | lia].
Qed.

(** C2, on the code.  The 429 branch of [_make_request] calls the
    method again without a counter: for every [k] there is an upstream
    (one that throttles [k] requests in a row) on which one call retries
    [k] times, and under sustained throttling no depth of nesting is
    enough for the call to return. *)
Theorem make_request_retries_unbounded :
  (forall (k : nat) (data : pyval) (svc : NOAAWeatherService.t) (t : Q),
     exists svc' w',
       NOAAWeatherService._make_request (S k) (throttled k data) svc
         (NOAAWeatherService.mkWorld t 0) = Some (Some data, svc', w') /\
       NOAAWeatherService.retries (NOAAWeatherService.mkWorld t 0) w' = k) /\
  (forall (depth : nat) (svc : NOAAWeatherService.t) (w : NOAAWeatherService.world),
     NOAAWeatherService._make_request depth always_throttled svc w = None).
Proof.
  split.
  - intros k data svc t.
    destruct (make_request_throttled_from k data svc (NOAAWeatherService.mkWorld t 0)
                (throttled k data)) as (svc' & w' & H & Hw').
    + intros i Hi. cbn in Hi. unfold throttled.
      destruct (Nat.ltb_spec i k); [done | lia].
    + cbn. unfold throttled. by rewrite Nat.ltb_irrefl.
    + exists svc', w'. split; [done|].
      unfold NOAAWeatherService.retries. rewrite Hw'. cbn. lia.
  - induction depth as [|depth IH]; intros svc w; [done|].
    destruct (make_request_429 always_throttled svc w eq_refl) as (svc1 & w1 & _ & ->).
    apply IH.
Qed.

(** Two 429 in a row: three requests, ten seconds of back-off. *)
Lemma make_request_retries_twice :
  exists svc' w',
    NOAAWeatherService._make_request 3 (throttled 2 (VDict ∅))
      (NOAAWeatherService.initialize (NOAAWeatherService.init "CommunityServices/1.0"))
      (NOAAWeatherService.mkWorld 100 0)
    = Some (Some (VDict ∅), svc', w') /\
    NOAAWeatherService.sent w' = 3%nat /\
    (NOAAWeatherService.clock w' == 110)%Q.
Proof. eexists _, _. split; [vm_compute; reflexivity|]. split; [reflexivity|]. reflexivity. Qed.

(** ** The advisory mirror (C1) *)

Lemma broadcast_noaa_alert_outbox (alert : NOAAAlert.t) (c : clock)
    (s : WeatherMonitoringAgent) :
  exists m,
    outbox (_broadcast_noaa_alert alert c s) = outbox s ++ [m] /\
    noaa_alert_id_of m = Some (NOAAAlert.alert_id alert).
Proof. eexists. split; reflexivity. Qed.

Lemma broadcast_noaa_alert_frame (alert : NOAAAlert.t) (c : clock)
    (s : WeatherMonitoringAgent) :
  noaa_alerts (_broadcast_noaa_alert alert c s) = noaa_alerts s /\
  noaa_enabled (_broadcast_noaa_alert alert c s) = noaa_enabled s /\
  alert_thresholds (_broadcast_noaa_alert alert c s) = alert_thresholds s.
Proof. done. Qed.

Lemma broadcast_noaa_alerts_fold (alerts : list NOAAAlert.t) (c : clock) :
  forall s : WeatherMonitoringAgent,
    let s' := foldl (fun s alert => _broadcast_noaa_alert alert c s) s alerts in
    broadcast_ids (outbox s')
    = broadcast_ids (outbox s) ++ (NOAAAlert.alert_id <$> alerts) /\
    noaa_alerts s' = noaa_alerts s /\
    noaa_enabled s' = noaa_enabled s /\
    alert_thresholds s' = alert_thresholds s.
Proof.
  induction alerts as [|alert alerts IH]; intros s; cbn zeta.
  - cbn. by rewrite app_nil_r.
  - cbn [foldl fmap list_fmap].
    destruct (IH (_broadcast_noaa_alert alert c s)) as (Hids & Hcache & Hen & Hth).
    cbn zeta in *. rewrite Hids, Hcache, Hen, Hth.
    destruct (broadcast_noaa_alert_outbox alert c s) as (m & -> & Hm).
    unfold broadcast_ids. rewrite omap_app. cbn. rewrite Hm.
    by rewrite <- app_assoc.
Qed.

Lemma elem_of_new_alerts (cached current : list NOAAAlert.t) (alert : NOAAAlert.t) :
  alert ∈ new_alerts cached current <->
  alert ∈ current /\ NOAAAlert.alert_id alert ∉ (NOAAAlert.alert_id <$> cached).
Proof.
  unfold new_alerts. rewrite list_elem_of_filter, elem_of_list_to_set. tauto.
Qed.

(** C1, amended.  A poll of [_check_noaa_alerts] that fetches the list
    [current] broadcasts, in order, the advisories of [current] whose
    identifier is not among those of the list cached by the preceding
    poll, and then caches [current]; nothing else is remembered.  So an
    identifier returned by two consecutive polls is not broadcast by the
    second. *)
Theorem check_noaa_alerts_broadcasts_new (s : WeatherMonitoringAgent)
    (current : list NOAAAlert.t) (c : clock) :
  noaa_enabled s = true ->
  let s' := _check_noaa_alerts (Some current) c s in
  noaa_alerts s' = current /\
  noaa_enabled s' = true /\
  broadcast_ids (outbox s')
  = broadcast_ids (outbox s)
    ++ (NOAAAlert.alert_id <$> new_alerts (noaa_alerts s) current) /\
  (forall alert,
     alert ∈ new_alerts (noaa_alerts s) current <->
     alert ∈ current /\
     NOAAAlert.alert_id alert ∉ (NOAAAlert.alert_id <$> noaa_alerts s)) /\
  (forall (next : list NOAAAlert.t) (c' : clock) (x : string),
     x ∈ (NOAAAlert.alert_id <$> current) ->
     exists sent,
       broadcast_ids (outbox (_check_noaa_alerts (Some next) c' s'))
       = broadcast_ids (outbox s') ++ sent /\ x ∉ sent).
Proof.
  intros Hen. cbn zeta.
  assert (forall (s0 : WeatherMonitoringAgent) cur c0,
            noaa_enabled s0 = true ->
            noaa_alerts (_check_noaa_alerts (Some cur) c0 s0) = cur /\
            noaa_enabled (_check_noaa_alerts (Some cur) c0 s0) = true /\
            broadcast_ids (outbox (_check_noaa_alerts (Some cur) c0 s0))
            = broadcast_ids (outbox s0)
              ++ (NOAAAlert.alert_id <$> new_alerts (noaa_alerts s0) cur)) as Hpoll.
  { intros s0 cur c0 H0. unfold _check_noaa_alerts. rewrite H0. cbn [negb].
    destruct (broadcast_noaa_alerts_fold (new_alerts (noaa_alerts s0) cur) c0
                (set_noaa_alerts cur s0)) as (Hids & Hcache & Hen' & _).
    cbn zeta in *. rewrite Hids, Hcache, Hen'. done. }
  destruct (Hpoll s current c Hen) as (Hcache & Hen' & Hids).
  split; [done|]. split; [done|]. split; [done|].
  split; [intros alert; apply elem_of_new_alerts|].
  intros next c' x Hx.
  destruct (Hpoll _ next c' Hen') as (_ & _ & Hids').
  eexists. split; [exact Hids'|].
  rewrite Hcache. intros Hin.
  apply list_elem_of_fmap in Hin as (alert & -> & Hin).
  apply elem_of_new_alerts in Hin as [_ Hnot]. by apply Hnot.
Qed.

Lemma check_noaa_alerts_broadcasts_new_witness :
  broadcast_ids (outbox (_check_noaa_alerts (Some [heat_advisory]) two_pm live_agent))
  = ["urn:oid:2.49.0.1.840.0.1"].
Proof.
  destruct (check_noaa_alerts_broadcasts_new live_agent [heat_advisory] two_pm eq_refl)
    as (_ & _ & -> & _).
  reflexivity.
Defined.

(** C1 as stated fails: an advisory that is returned, then absent, then
    returned again is broadcast twice. *)
Lemma advisory_broadcast_again_after_absence :
  broadcast_ids
    (outbox (poll_sequence
               [(Some [heat_advisory], later 0);
                (Some [], later 1);
                (Some [heat_advisory], later 2)]
               live_agent))
  = ["urn:oid:2.49.0.1.840.0.1"; "urn:oid:2.49.0.1.840.0.1"].
Proof. vm_compute. reflexivity. Qed.

(** Without an absence in between, once. *)
Lemma advisory_broadcast_once_in_consecutive_polls :
  broadcast_ids
    (outbox (poll_sequence
               [(Some [heat_advisory], later 0);
                (Some [heat_advisory], later 1)]
               live_agent))
  = ["urn:oid:2.49.0.1.840.0.1"].
Proof. vm_compute. reflexivity. Qed.

(** ** The alert engine (C8, C9) *)

Section AlertEngineFacts.

Variable float_str : Q -> string.

Lemma threshold_numeric (s : WeatherMonitoringAgent) (key : string) :
  thresholds_numeric s -> key ∈ threshold_keys -> exists q, threshold s key = Some q.
Proof. intros H Hk. destruct (H key Hk) as [q Hq]. by exists q. Qed.

(** With numeric thresholds the evaluation raises nothing, and the
    temperature alerts among the generated ones are those of the
    temperature comparison. *)
Lemma alerts_generated_temperature (reading : WeatherReading.t) (c : clock)
    (s : WeatherMonitoringAgent) (high low : Q) :
  thresholds_numeric s ->
  threshold s "temperature_high" = Some high ->
  threshold s "temperature_low" = Some low ->
  exists alerts,
    alerts_generated float_str reading c s = Some alerts /\
    temperature_alerts alerts =
      if Qgeb (WeatherReading.temperature_f reading) high
      then [_create_temperature_alert float_str reading "high" c]
      else if Qle_bool (WeatherReading.temperature_f reading) low
           then [_create_temperature_alert float_str reading "low" c]
           else [].
Proof.
  intros H Hhigh Hlow. unfold alerts_generated. rewrite Hhigh, Hlow.
  destruct (threshold_numeric s "precipitation_extreme" H) as [? ->]; [set_solver|].
  destruct (threshold_numeric s "precipitation_heavy" H) as [? ->]; [set_solver|].
  destruct (threshold_numeric s "wind_extreme" H) as [? ->]; [set_solver|].
  destruct (threshold_numeric s "wind_high" H) as [? ->]; [set_solver|].
  destruct (threshold_numeric s "visibility_low" H) as [? ->]; [set_solver|].
  destruct (threshold_numeric s "uv_extreme" H) as [? ->]; [set_solver|].
  cbn [mbind option_bind].
  destruct (Qgeb _ high); [|destruct (Qle_bool _ low)];
    cbn [mbind option_bind];
    repeat (match goal with
            | |- context [if ?b then Some _ else _] => destruct b
            end; cbn [mbind option_bind]);
    (eexists; split; [reflexivity|reflexivity]).
Qed.

Lemma alerts_generated_total (reading : WeatherReading.t) (c : clock)
    (s : WeatherMonitoringAgent) :
  thresholds_numeric s -> is_Some (alerts_generated float_str reading c s).
Proof.
  intros H.
  destruct (threshold_numeric s "temperature_high" H) as [high Hhigh]; [set_solver|].
  destruct (threshold_numeric s "temperature_low" H) as [low Hlow]; [set_solver|].
  destruct (alerts_generated_temperature reading c s high low H Hhigh Hlow)
    as (alerts & -> & _).
  by eexists.
Qed.

(** C8.  With the configured thresholds numbers: a reading whose
    temperature is at least the high threshold generates exactly one
    alert of category temperature, which has a recommendation and
    [shelter] among its affected services; a reading whose temperature
    is strictly between the low and the high threshold generates no
    alert of that category. *)
Theorem temperature_alert_generation (reading : WeatherReading.t) (c : clock)
    (s : WeatherMonitoringAgent) (high low : Q) :
  thresholds_numeric s ->
  threshold s "temperature_high" = Some high ->
  threshold s "temperature_low" = Some low ->
  exists alerts,
    alerts_generated float_str reading c s = Some alerts /\
    ((high <= WeatherReading.temperature_f reading)%Q ->
     exists alert,
       temperature_alerts alerts = [alert] /\
       alert = _create_temperature_alert float_str reading "high" c /\
       WeatherAlert.alert_type alert = "temperature" /\
       (1 <= length (WeatherAlert.recommendations alert))%nat /\
       "shelter" ∈ WeatherAlert.affected_services alert) /\
    ((low < WeatherReading.temperature_f reading)%Q ->
     (WeatherReading.temperature_f reading < high)%Q ->
     temperature_alerts alerts = []).
Proof.
  intros H Hhigh Hlow.
  destruct (alerts_generated_temperature reading c s high low H Hhigh Hlow)
    as (alerts & Hgen & Htemp).
  exists alerts. split; [done|]. split.
  - intros Hge. apply Qgeb_true in Hge. rewrite Hge in Htemp.
    eexists. split; [exact Htemp|]. split; [done|]. split; [done|].
    split; [vm_compute; lia|]. cbn. set_solver.
  - intros Hgt Hlt. rewrite Htemp.
    destruct (Qgeb _ high) eqn:E1; [apply Qgeb_true in E1; lra|].
    destruct (Qle_bool _ low) eqn:E2; [apply Qle_bool_iff in E2; lra|].
    done.
Qed.

Lemma broadcast_weather_alerts_fold (c : clock) (alerts : list WeatherAlert.t) :
  forall s : WeatherMonitoringAgent,
    let s' :=
      foldl (fun s alert =>
               _broadcast_weather_alert alert c
                 (set_active_alerts (active_alerts s ++ [alert]) s))
            s alerts in
    active_alerts s' = active_alerts s ++ alerts /\
    alert_thresholds s' = alert_thresholds s.
Proof.
  induction alerts as [|alert alerts IH]; intros s; cbn zeta.
  - cbn. by rewrite app_nil_r.
  - cbn [foldl]. destruct (IH (_broadcast_weather_alert alert c
                (set_active_alerts (active_alerts s ++ [alert]) s))) as [Ha Ht].
    cbn zeta in *. rewrite Ha, Ht. cbn. by rewrite <- app_assoc.
Qed.

(** What [_check_weather_alerts] leaves in the active list. *)
Lemma check_weather_alerts_active (reading : WeatherReading.t) (c : clock)
    (s : WeatherMonitoringAgent) (alerts : list WeatherAlert.t) :
  alerts_generated float_str reading c s = Some alerts ->
  exists s',
    _check_weather_alerts float_str reading c s = Some s' /\
    active_alerts s' = purge c (active_alerts s ++ alerts) /\
    alert_thresholds s' = alert_thresholds s.
Proof.
  intros Hgen. unfold _check_weather_alerts. rewrite Hgen. cbn [mbind option_bind].
  eexists. split; [reflexivity|].
  destruct (broadcast_weather_alerts_fold c alerts s) as [Ha Ht]. cbn zeta in *.
  cbn. by rewrite Ha, Ht.
Qed.


End AlertEngineFacts.

Lemma default_thresholds_numeric (s : WeatherMonitoringAgent) :
  alert_thresholds s = default_alert_thresholds -> thresholds_numeric s.
Proof.
  intros Hs key Hkey. unfold threshold. rewrite Hs.
  unfold threshold_keys in Hkey.
  repeat (apply elem_of_union in Hkey as [Hkey|Hkey]);
    apply elem_of_singleton in Hkey as ->; by eexists.
Qed.

Lemma temperature_alert_generation_witness :
  exists alerts,
    alerts_generated plain_float_str hot_reading two_pm simulated_agent = Some alerts /\
    exists alert, temperature_alerts alerts = [alert] /\
                  "shelter" ∈ WeatherAlert.affected_services alert.
Proof.
  destruct (temperature_alert_generation plain_float_str hot_reading two_pm
              simulated_agent 95 20 (default_thresholds_numeric simulated_agent eq_refl)
              eq_refl eq_refl) as (alerts & Hgen & Hhigh & _).
  exists alerts. split; [done|].
  destruct Hhigh as (alert & Ht & _ & _ & _ & Hshelter); [cbn; lra|].
  by exists alert.
Defined.


(** ** Provenance of a reading in what the agent sends (C4) *)

(** With the live provider configured and answering, the reading of the
    cycle is the converted live reading, and the simulator is not
    consulted. *)
Lemma acquire_reading_live (env : cycle_env) (c : clock) (s : WeatherMonitoringAgent)
    (noaa_reading : NOAAWeatherReading.t) :
  use_real_weather s = true ->
  is_Some (noaa_service s) -> is_Some (noaa_location s) ->
  fetch_weather env = Some (Some noaa_reading) ->
  acquire_reading env c s = (_convert_noaa_reading noaa_reading, s).
Proof.
  intros Hreal [svc Hsvc] [loc Hloc] Hfetch.
  unfold acquire_reading. by rewrite Hreal, Hsvc, Hloc, Hfetch.
Qed.

(** C4, on the code.  The [data_quality] entry of the weather-update
    broadcast is the constant [simulated], whatever reading it carries,
    and the response to [get_current_weather] has the three entries
    location, current_weather and monitoring_active, none of which tells
    where the reading comes from.  A cycle of the agent in live mode
    that gets its reading from the provider broadcasts it as simulated. *)
Theorem data_quality_ignores_provenance :
  (forall (reading : WeatherReading.t) (c : clock) (s : WeatherMonitoringAgent),
     exists m,
       outbox (_broadcast_weather_update reading c s) = outbox s ++ [m] /\
       CrossLanguageMessage.type m = "weather_update" /\
       weather_data_of m = Some (VDict (WeatherReading.to_dict reading)) /\
       data_quality_of m = Some (VStr "simulated")) /\
  (forall (message : CrossLanguageMessage.t) (c : clock) (s : WeatherMonitoringAgent),
     exists m,
       outbox (handle_get_current_weather message c s) = outbox s ++ [m] /\
       CrossLanguageMessage.type m = "weather_response" /\
       payload_keys m = {[ "location"; "current_weather"; "monitoring_active" ]}) /\
  (exists s' m,
     monitoring_cycle plain_float_str live_cycle two_pm live_agent = (s', true) /\
     acquire_reading live_cycle two_pm live_agent
     = (_convert_noaa_reading live_reading, live_agent) /\
     last (weather_data s') = Some (_convert_noaa_reading live_reading) /\
     last (outbox s') = Some m /\
     CrossLanguageMessage.type m = "weather_update" /\
     weather_data_of m
     = Some (VDict (WeatherReading.to_dict (_convert_noaa_reading live_reading))) /\
     data_quality_of m = Some (VStr "simulated")).
Proof.
  split; [|split].
  - intros reading c s. eexists. split; [reflexivity|]. by repeat split.
  - intros message c s. eexists. split; [reflexivity|]. split; [reflexivity|].
    unfold payload_keys. cbn. rewrite !dom_insert_L, dom_empty_L. set_solver.
  - eexists _, _. split; [vm_compute; reflexivity|]. by repeat split.
Qed.

(** ** The threshold map (C10) *)

(** The loop of the handler overwrites the keys that the map already
    has and drops the others. *)
Lemma update_thresholds_lookup (new thresholds : gmap string pyval) (key : string) :
  update_thresholds new thresholds !! key =
    match thresholds !! key with
    | Some old => Some (default old (new !! key))
    | None => None
    end.
Proof.
  unfold update_thresholds. revert key.
  apply (map_fold_weak_ind
           (fun (acc new : gmap string pyval) =>
              forall key, acc !! key =
                match thresholds !! key with
                | Some old => Some (default old (new !! key))
                | None => None
                end)).
  - intros key. rewrite lookup_empty. by destruct (thresholds !! key).
  - intros k v m acc Hfresh IH key.
    assert (k ∈ dom acc <-> is_Some (thresholds !! k)) as Hdom.
    { rewrite elem_of_dom, IH. destruct (thresholds !! k); split; intros [? ?]; by eauto. }
    destruct (decide (key = k)) as [->|Hne].
    + rewrite lookup_insert_eq. case_bool_decide as Hk.
      * rewrite lookup_insert_eq. apply Hdom in Hk as [old ->]. done.
      * rewrite IH, Hfresh.
        destruct (thresholds !! k) eqn:E; [|done].
        exfalso. apply Hk, Hdom. by eexists.
    + rewrite (lookup_insert_ne m) by done.
      case_bool_decide; [rewrite lookup_insert_ne by done|]; apply IH.
Qed.

Lemma update_thresholds_dom (new thresholds : gmap string pyval) :
  dom (update_thresholds new thresholds) = dom thresholds.
Proof.
  apply set_eq. intros key. rewrite !elem_of_dom, update_thresholds_lookup.
  destruct (thresholds !! key); split; intros [? ?]; by eauto.
Qed.

Lemma default_alert_thresholds_dom : dom default_alert_thresholds = threshold_keys.
Proof.
  unfold default_alert_thresholds, threshold_keys.
  rewrite !dom_insert_L, dom_empty_L. set_solver.
Qed.

Lemma handle_update_alert_thresholds_spec (message : CrossLanguageMessage.t) (c : clock)
    (s : WeatherMonitoringAgent) :
  threshold_update_payload (CrossLanguageMessage.payload message) ->
  exists new m s',
    handle_update_alert_thresholds message c s = Some s' /\
    payload_get (CrossLanguageMessage.payload message) "thresholds" (VDict ∅)
    = Some (VDict new) /\
    alert_thresholds s' = update_thresholds new (alert_thresholds s) /\
    outbox s' = outbox s ++ [m] /\
    CrossLanguageMessage.type m = "thresholds_update_response" /\
    success_of m = Some (VBool true).
Proof.
  intros (p & Hp & Hth). unfold handle_update_alert_thresholds, payload_get.
  rewrite Hp. destruct Hth as [Hnone|[new Hnew]].
  - rewrite Hnone. cbn. eexists _, _, _. split; [reflexivity|]. by repeat split.
  - rewrite Hnew. cbn. eexists _, _, _. split; [reflexivity|]. by repeat split.
Qed.

Lemma handle_update_alert_thresholds_dom (message : CrossLanguageMessage.t) (c : clock)
    (s s' : WeatherMonitoringAgent) :
  handle_update_alert_thresholds message c s = Some s' ->
  dom (alert_thresholds s') = dom (alert_thresholds s).
Proof.
  unfold handle_update_alert_thresholds.
  destruct (payload_get _ _ _) as [[| | | | | | |new]|]; cbn; try discriminate.
  intros [= <-]. cbn. apply update_thresholds_dom.
Qed.

Lemma stop_weather_monitoring_thresholds (s : WeatherMonitoringAgent)
    (r : bool * WeatherMonitoringAgent) :
  stop_weather_monitoring s = Some r ->
  alert_thresholds r.2 = alert_thresholds s.
Proof.
  unfold stop_weather_monitoring.
  destruct (monitoring_active s); cbn; [|by intros [= <-]].
  destruct (monitoring_task s) as [task|]; cbn; [|by intros [= <-]].
  unfold await_task. destruct (Task.state (Task.cancel task)) as [at_|] eqn:E;
    cbn; [|by intros [= <-]].
  destruct (Task.must_cancel (Task.cancel task)); cbn; [|done].
  unfold run_cancelled. rewrite E. destruct at_; by intros [= <-].
Qed.

Lemma check_noaa_alerts_thresholds (poll : option (list NOAAAlert.t)) (c : clock)
    (s : WeatherMonitoringAgent) :
  alert_thresholds (_check_noaa_alerts poll c s) = alert_thresholds s.
Proof.
  unfold _check_noaa_alerts. destruct (negb _); [done|].
  destruct poll as [current|]; [|done].
  destruct (broadcast_noaa_alerts_fold (new_alerts (noaa_alerts s) current) c
              (set_noaa_alerts current s)) as (_ & _ & _ & Hth).
  cbn zeta in Hth. by rewrite Hth.
Qed.

Lemma check_weather_alerts_thresholds (float_str : Q -> string)
    (reading : WeatherReading.t) (c : clock) (s s' : WeatherMonitoringAgent) :
  _check_weather_alerts float_str reading c s = Some s' ->
  alert_thresholds s' = alert_thresholds s.
Proof.
  intros Hcheck. pose proof Hcheck as Hcheck'. unfold _check_weather_alerts in Hcheck'.
  destruct (alerts_generated _ _ _ _) as [alerts|] eqn:Hgen; [|done].
  destruct (check_weather_alerts_active float_str reading c s alerts Hgen)
    as (s2 & Hs2 & _ & Ht).
  rewrite Hcheck in Hs2. by injection Hs2 as <-.
Qed.

(** No operation of the agent changes the set of threshold keys: only
    the update handler assigns the map at all. *)
Lemma step_threshold_keys (float_str : Q -> string) (s : WeatherMonitoringAgent)
    (op : operation) :
  dom (alert_thresholds (step float_str s op)) = dom (alert_thresholds s).
Proof.
  destruct op as [c|d| | |env c|reading c|poll c|reading c|message c|message c
                 |message c|fd message c|message c|message c|message c|env message c];
    cbn [step].
  - done.
  - unfold start_weather_monitoring. by destruct (monitoring_active s).
  - destruct (stop_weather_monitoring s) as [r|] eqn:E; cbn; [|done].
    by rewrite (stop_weather_monitoring_thresholds s r E).
  - unfold cleanup. destruct (monitoring_active s); cbn.
    + destruct (stop_weather_monitoring s) as [r|] eqn:E; cbn; [|done].
      apply stop_weather_monitoring_thresholds in E.
      destruct (is_some _); cbn; by rewrite E.
    + by destruct (is_some _).
  - unfold monitoring_cycle.
    destruct (acquire_reading env c s) as [reading s1] eqn:Hacq.
    assert (alert_thresholds s1 = alert_thresholds s) as Hs1.
    { unfold acquire_reading, simulate in Hacq.
      destruct (WeatherSimulator.generate_hourly_reading _ _ _ _) as [r sim].
      destruct (_ && _); [destruct (fetch_weather env) as [[?|]|]|];
        by injection Hacq as <- <-. }
    destruct (_check_weather_alerts _ _ _ _) as [s2|] eqn:Hcheck; cbn.
    + apply check_weather_alerts_thresholds in Hcheck.
      by rewrite check_noaa_alerts_thresholds, Hcheck, <- Hs1.
    + by rewrite <- Hs1.
  - destruct (_check_weather_alerts _ _ _ _) as [s2|] eqn:Hcheck; cbn; [|done].
    by rewrite (check_weather_alerts_thresholds _ _ _ _ _ Hcheck).
  - by rewrite check_noaa_alerts_thresholds.
  - done.
  - unfold handle_start_monitoring.
    destruct (payload_get _ _ _) as [duration|]; cbn; [|done].
    unfold start_weather_monitoring. by destruct (monitoring_active s).
  - unfold handle_stop_monitoring.
    destruct (stop_weather_monitoring s) as [[success s1]|] eqn:E; cbn; [|done].
    apply stop_weather_monitoring_thresholds in E. cbn in E. by rewrite E.
  - done.
  - unfold handle_get_weather_forecast.
    destruct (payload_get _ _ _) as [hours_ahead|]; cbn; [|done].
    destruct (as_index hours_ahead) as [n|]; cbn; [|done].
    by destruct (foldl _ _ _).
  - done.
  - destruct (handle_update_alert_thresholds message c s) as [s'|] eqn:E; cbn; [|done].
    by apply handle_update_alert_thresholds_dom in E.
  - done.
  - unfold handle_refresh_noaa_data.
    destruct (noaa_enabled s); [|done].
    destruct (refresh_weather env) as [[noaa_reading|]|]; cbn;
      by rewrite ?check_noaa_alerts_thresholds.
Qed.

(** C10.  [handle_update_alert_thresholds] overwrites the thresholds
    whose key the map already has, ignores every other key of the
    request, and answers a threshold-update payload with [success: True];
    the keys of [alert_thresholds] are the eight keys of [__init__] after
    every sequence of operations of the agent. *)
Theorem threshold_keys_invariant (float_str : Q -> string) :
  (forall (message : CrossLanguageMessage.t) (c : clock) (s : WeatherMonitoringAgent),
     threshold_update_payload (CrossLanguageMessage.payload message) ->
     exists new m s',
       handle_update_alert_thresholds message c s = Some s' /\
       payload_get (CrossLanguageMessage.payload message) "thresholds" (VDict ∅)
       = Some (VDict new) /\
       (forall key,
          alert_thresholds s' !! key =
            match alert_thresholds s !! key with
            | Some old => Some (default old (new !! key))
            | None => None
            end) /\
       dom (alert_thresholds s') = dom (alert_thresholds s) /\
       last (outbox s') = Some m /\
       success_of m = Some (VBool true)) /\
  (forall (c : clock) (available : bool) (agent_id loc : string) (real : bool)
          (ops : list operation),
     dom (alert_thresholds (run float_str (init c available agent_id loc real) ops))
     = threshold_keys).
Proof.
  split.
  - intros message c s Hp.
    destruct (handle_update_alert_thresholds_spec message c s Hp)
      as (new & m & s' & Hs' & Hget & Hth & Hout & _ & Hok).
    exists new, m, s'. split; [done|]. split; [done|].
    split; [intros key; rewrite Hth; apply update_thresholds_lookup|].
    split; [rewrite Hth; apply update_thresholds_dom|].
    by rewrite Hout, last_snoc.
  - intros c available agent_id loc real ops. unfold run.
    assert (forall s, dom (alert_thresholds (foldl (step float_str) s ops))
                      = dom (alert_thresholds s)) as Hrun.
    { induction ops as [|op ops IH]; intros s; [done|].
      cbn [foldl]. by rewrite IH, step_threshold_keys. }
    rewrite Hrun. apply default_alert_thresholds_dom.
Qed.

Lemma threshold_keys_invariant_witness :
  exists s',
    handle_update_alert_thresholds threshold_update two_pm simulated_agent = Some s' /\
    alert_thresholds s' !! "temperature_high" = Some (VFloat 100) /\
    alert_thresholds s' !! "humidity_high" = None /\
    dom (alert_thresholds s') = threshold_keys.
Proof.
  destruct (threshold_keys_invariant plain_float_str) as [Hupdate _].
  destruct (Hupdate threshold_update two_pm simulated_agent)
    as (new & m & s' & Hs' & Hget & Hlookup & Hdom & _).
  { eexists. split; [reflexivity|]. right. eexists. reflexivity. }
  exists s'. injection Hget as <-.
  split; [done|]. split; [by rewrite Hlookup|]. split; [by rewrite Hlookup|].
  rewrite Hdom. apply default_alert_thresholds_dom.
Defined.

(** * Further properties of the code *)


(** ** Rounding, once more *)

(** The bounds of [round_ge] and [round_le] for a rational that is
    equal to a number of [n] decimals. *)
Lemma round_ge_decimal (a : Z) (n : nat) (lo x : Q) :
  (lo == inject_Z a / inject_Z (pow10 n))%Q -> (lo <= x)%Q -> (lo <= round x n)%Q.
Proof. intros E H. rewrite E in *. by apply round_ge. Qed.

Lemma round_le_decimal (b : Z) (n : nat) (hi x : Q) :
  (hi == inject_Z b / inject_Z (pow10 n))%Q -> (x <= hi)%Q -> (round x n <= hi)%Q.
Proof. intros E H. rewrite E in *. by apply round_le. Qed.

(** ** The simulator *)

Lemma update_trends_in_range (sim : WeatherSimulator.t) (d : draws) :
  draws_ok d -> trends_in_range sim ->
  trends_in_range (WeatherSimulator._update_trends sim d).
Proof.
  intros (_ & _ & _ & _ & _ & _ & _ & _ & [Ht0 Ht1] & _ & [Hp0 Hp1] & _ & _)
         (Ht & Hp & Hs).
  unfold trends_in_range, WeatherSimulator._update_trends, uniform. cbn.
  split; [|split].
  - destruct (Qltb _ _); lra.
  - destruct (Qltb _ _); lra.
  - destruct (Qltb _ _); [|lra]. apply clamp_bounds. lra.
Qed.

(** X1.  The trends of the simulator walk inside fixed ranges: starting
    from a new simulator, after any series of readings whose draws are
    ones the random library can return, the temperature trend lies in
    [-5, 5], the pressure trend in [-10, 10] and the storm probability
    in [0.05, 0.8]; the base temperature is never changed. *)
Theorem simulator_trends_stay_in_range (base_temp : Q) (loc : string)
    (calls : list (clock * Z * draws)) :
  Forall (fun call => draws_ok call.2) calls ->
  trends_in_range (after_readings (WeatherSimulator.init base_temp loc) calls) /\
  WeatherSimulator.base_temp (after_readings (WeatherSimulator.init base_temp loc) calls)
  = base_temp.
Proof.
  intros Hcalls. unfold after_readings.
  assert (trends_in_range (WeatherSimulator.init base_temp loc)) as Hinit.
  { unfold trends_in_range. cbn. lra. }
  assert (WeatherSimulator.base_temp (WeatherSimulator.init base_temp loc) = base_temp)
    as Hbase by done.
  revert Hinit Hbase. generalize (WeatherSimulator.init base_temp loc).
  induction Hcalls as [|call calls Hd _ IH]; intros sim Hin Hbase; [done|].
  cbn [foldl]. apply IH.
  - cbn. by apply update_trends_in_range.
  - done.
Qed.

Lemma simulator_trends_stay_in_range_witness :
  trends_in_range
    (after_readings (WeatherSimulator.init 70 "Boise, ID")
       [(two_pm, 0%Z, calm_draws); (later 1, 1%Z, calm_draws)]).
Proof.
  apply (simulator_trends_stay_in_range 70 "Boise, ID"
           [(two_pm, 0%Z, calm_draws); (later 1, 1%Z, calm_draws)]).
  repeat constructor; apply calm_draws_ok.
Defined.

Section SimulatorLabels.

Variables (sim : WeatherSimulator.t) (c : clock) (hour_offset : Z) (d : draws).

Lemma conditions_cases :
  let cond := WeatherSimulator.conditions sim c hour_offset d in
  let p := WeatherSimulator.precipitation sim d in
  (cond ∈ ["Heavy Rain"; "Heavy Snow"] /\ ((5 # 10) < p)%Q) \/
  (cond ∈ ["Rain"; "Snow"] /\ ((1 # 10) < p)%Q /\ (p <= (5 # 10))%Q) \/
  (cond ∈ ["Fog"; "Windy"; "Hot"; "Cold"; "Clear"] /\ (p <= (1 # 10))%Q).
Proof.
  cbn zeta. unfold WeatherSimulator.conditions.
  destruct (Qgtb (WeatherSimulator.precipitation sim d) (5 # 10)) eqn:E1.
  { left. apply Qgtb_true in E1. split; [|done]. destruct (Qgtb _ 32); set_solver. }
  apply Qgtb_false in E1.
  destruct (Qgtb (WeatherSimulator.precipitation sim d) (1 # 10)) eqn:E2.
  { right; left. apply Qgtb_true in E2. split; [|done]. destruct (Qgtb _ 32); set_solver. }
  apply Qgtb_false in E2. right; right. split; [|done].
  repeat (match goal with |- context [if ?b then _ else _] => destruct b end);
    set_solver.
Qed.

End SimulatorLabels.

(** X2.  The labels of a simulated reading agree with its numbers: the
    wind direction is one of the sixteen compass points and the
    conditions one of nine labels; a reading labelled Heavy Rain or
    Heavy Snow has at least 0.5 inches of precipitation, one labelled
    Rain or Snow between 0.1 and 0.5, and every other label at most
    0.1. *)
Theorem simulated_labels_consistent (sim : WeatherSimulator.t) (c : clock)
    (hour_offset : Z) (d : draws) :
  draws_ok d ->
  let r := (WeatherSimulator.generate_hourly_reading sim c hour_offset d).1 in
  WeatherReading.wind_direction r ∈ WeatherSimulator.directions /\
  WeatherReading.conditions r ∈ condition_labels /\
  (WeatherReading.conditions r ∈ ["Heavy Rain"; "Heavy Snow"] ->
   ((5 # 10) <= WeatherReading.precipitation_inches r)%Q) /\
  (WeatherReading.conditions r ∈ ["Rain"; "Snow"] ->
   ((1 # 10) <= WeatherReading.precipitation_inches r <= (5 # 10))%Q) /\
  (WeatherReading.conditions r ∈ ["Fog"; "Windy"; "Hot"; "Cold"; "Clear"] ->
   (WeatherReading.precipitation_inches r <= (1 # 10))%Q).
Proof.
  intros Hd. cbn zeta. cbn [fst WeatherSimulator.generate_hourly_reading
    WeatherReading.wind_direction WeatherReading.conditions
    WeatherReading.precipitation_inches].
  pose proof (precipitation_nonneg sim d Hd) as Hp0.
  destruct (conditions_cases sim c hour_offset d) as [[Hc Hp]|[[Hc [Hp Hp']]|[Hc Hp]]];
    cbn zeta in *.
  all: split; [destruct Hd as (_ & _ & _ & _ & _ & Hdir & _);
               apply list_elem_of_In, nth_In; cbn; lia|].
  all: split; [unfold condition_labels; set_solver|].
  - split; [intros _|split; intros Hc'; exfalso; clear -Hc Hc'; set_unfold; destruct_or!; congruence].
    apply (round_ge_decimal 50 2); [reflexivity | lra].
  - split; [intros Hc'; exfalso; clear -Hc Hc'; set_unfold; destruct_or!; congruence|].
    split; [intros _|intros Hc'; exfalso; clear -Hc Hc'; set_unfold; destruct_or!; congruence].
    split.
    + apply (round_ge_decimal 10 2); [reflexivity | lra].
    + apply (round_le_decimal 50 2); [reflexivity | lra].
  - split; [intros Hc'; exfalso; clear -Hc Hc'; set_unfold; destruct_or!; congruence|].
    split; [intros Hc'; exfalso; clear -Hc Hc'; set_unfold; destruct_or!; congruence|]. intros _.
    apply (round_le_decimal 10 2); [reflexivity | lra].
Qed.

Lemma simulated_labels_consistent_witness :
  WeatherReading.conditions
    (WeatherSimulator.generate_hourly_reading
       (WeatherSimulator.init 70 "Boise, ID") two_pm 0 calm_draws).1
  ∈ condition_labels.
Proof.
  apply (simulated_labels_consistent (WeatherSimulator.init 70 "Boise, ID")
           two_pm 0 calm_draws calm_draws_ok).
Defined.

(** X3.  The simulator reports an ultraviolet index other than zero only
    for an hour of the day from 6 to 18 with conditions Clear or Hot, and
    then the index is at least 1; at night, and under rain, snow, fog,
    wind or cold, it is 0. *)
Theorem simulated_uv_needs_daylight (sim : WeatherSimulator.t) (c : clock)
    (hour_offset : Z) (d : draws) :
  let r := (WeatherSimulator.generate_hourly_reading sim c hour_offset d).1 in
  let h := ((local_hour c + hour_offset) mod 24)%Z in
  ((6 <= h <= 18)%Z /\ WeatherReading.conditions r ∈ ["Clear"; "Hot"] /\
   (1 <= WeatherReading.uv_index r <= 11)%Z) \/
  (((h < 6)%Z \/ (18 < h)%Z \/ WeatherReading.conditions r ∉ ["Clear"; "Hot"]) /\
   WeatherReading.uv_index r = 0%Z).
Proof.
  cbn zeta. cbn [fst WeatherSimulator.generate_hourly_reading
    WeatherReading.conditions WeatherReading.uv_index].
  unfold WeatherSimulator.uv_index, WeatherSimulator.hour_of_day.
  destruct (Z.leb_spec 6 ((local_hour c + hour_offset) mod 24)) as [H6|H6]; cbn.
  2: { right. split; [lia|done]. }
  destruct (Z.leb_spec ((local_hour c + hour_offset) mod 24) 18) as [H18|H18]; cbn.
  2: { right. split; [lia|done]. }
  case_bool_decide as Hc.
  - left. split; [lia|]. split; [done|]. lia.
  - right. split; [by right; right | done].
Qed.

(** ** The alert engine *)

Section AlertEngineMore.

Variable float_str : Q -> string.

(** What the constructors of alerts put in the fields that do not depend
    on the reading. *)
Lemma create_temperature_alert_fields (reading : WeatherReading.t) (temp_type : string)
    (c : clock) :
  let alert := _create_temperature_alert float_str reading temp_type c in
  WeatherAlert.alert_type alert = "temperature" /\
  WeatherAlert.timestamp alert = WeatherReading.timestamp reading /\
  WeatherAlert.severity alert ∈ ["high"; "extreme"].
Proof.
  cbn zeta. unfold _create_temperature_alert.
  destruct (bool_decide (temp_type = "high")); cbn;
    (split; [done|]); (split; [done|]);
    match goal with |- context [if ?b then _ else _] => destruct b end; set_solver.
Qed.

Lemma create_precipitation_alert_fields (reading : WeatherReading.t) (precip_type : string)
    (c : clock) :
  let alert := _create_precipitation_alert float_str reading precip_type c in
  WeatherAlert.alert_type alert = "precipitation" /\
  WeatherAlert.timestamp alert = WeatherReading.timestamp reading /\
  WeatherAlert.severity alert ∈ ["high"; "extreme"].
Proof.
  cbn. split; [done|]. split; [done|].
  destruct (bool_decide (precip_type = "extreme")); set_solver.
Qed.

Lemma create_wind_alert_fields (reading : WeatherReading.t) (wind_type : string)
    (c : clock) :
  let alert := _create_wind_alert float_str reading wind_type c in
  WeatherAlert.alert_type alert = "wind" /\
  WeatherAlert.timestamp alert = WeatherReading.timestamp reading /\
  WeatherAlert.severity alert ∈ ["high"; "extreme"].
Proof.
  cbn. split; [done|]. split; [done|].
  destruct (bool_decide (wind_type = "extreme")); set_solver.
Qed.

(** The list of generated alerts has one slot per category, in the order
    of the source, each empty or holding one alert of the category. *)
Lemma alerts_generated_slots (reading : WeatherReading.t) (c : clock)
    (s : WeatherMonitoringAgent) (alerts : list WeatherAlert.t) :
  alerts_generated float_str reading c s = Some alerts ->
  exists t p w v u,
    alerts = t ++ p ++ w ++ v ++ u /\
    (t = [] \/ exists ty, t = [_create_temperature_alert float_str reading ty c]) /\
    (p = [] \/ exists ty, p = [_create_precipitation_alert float_str reading ty c]) /\
    (w = [] \/ exists ty, w = [_create_wind_alert float_str reading ty c]) /\
    (v = [] \/ v = [_create_visibility_alert float_str reading c]) /\
    (u = [] \/ u = [_create_uv_alert reading c]).
Proof.
  unfold alerts_generated. intros Hgen.
  apply bind_Some in Hgen as (t & Ht & Hgen).
  apply bind_Some in Hgen as (p & Hp & Hgen).
  apply bind_Some in Hgen as (w & Hw & Hgen).
  apply bind_Some in Hgen as (v & Hv & Hgen).
  apply bind_Some in Hgen as (u & Hu & Hgen).
  injection Hgen as <-. exists t, p, w, v, u. split; [done|].
  repeat apply conj.
  - apply bind_Some in Ht as (high & _ & Ht).
    destruct (Qgeb _ high); [injection Ht as <-; right; by eexists|].
    apply bind_Some in Ht as (low & _ & Ht).
    destruct (Qle_bool _ low); injection Ht as <-; [right; by eexists | by left].
  - apply bind_Some in Hp as (extreme & _ & Hp).
    destruct (Qgeb _ extreme); [injection Hp as <-; right; by eexists|].
    apply bind_Some in Hp as (heavy & _ & Hp).
    destruct (Qgeb _ heavy); injection Hp as <-; [right; by eexists | by left].
  - apply bind_Some in Hw as (extreme & _ & Hw).
    destruct (Qgeb _ extreme); [injection Hw as <-; right; by eexists|].
    apply bind_Some in Hw as (high & _ & Hw).
    destruct (Qgeb _ high); injection Hw as <-; [right; by eexists | by left].
  - apply bind_Some in Hv as (low & _ & Hv).
    destruct (Qle_bool _ low); injection Hv as <-; [by right | by left].
  - apply bind_Some in Hu as (extreme & _ & Hu).
    destruct (Qgeb _ extreme); injection Hu as <-; [by right | by left].
Qed.

Lemma alerts_generated_fields (reading : WeatherReading.t) (c : clock)
    (s : WeatherMonitoringAgent) (alerts : list WeatherAlert.t) :
  alerts_generated float_str reading c s = Some alerts ->
  NoDup (WeatherAlert.alert_type <$> alerts) /\
  (length alerts <= 5)%nat /\
  Forall (fun alert =>
            WeatherAlert.alert_type alert ∈ alert_categories /\
            WeatherAlert.timestamp alert = WeatherReading.timestamp reading /\
            WeatherAlert.severity alert ∈ ["medium"; "high"; "extreme"])
         alerts.
Proof.
  intros Hgen.
  destruct (alerts_generated_slots reading c s alerts Hgen)
    as (t & p & w & v & u & -> & Ht & Hp & Hw & Hv & Hu).
  assert (Forall (fun alert =>
            WeatherAlert.alert_type alert = "temperature" /\
            WeatherAlert.timestamp alert = WeatherReading.timestamp reading /\
            WeatherAlert.severity alert ∈ ["high"; "extreme"]) t) as Ft.
  { destruct Ht as [->|[ty ->]]; [constructor|].
    constructor; [apply create_temperature_alert_fields | constructor]. }
  assert (Forall (fun alert =>
            WeatherAlert.alert_type alert = "precipitation" /\
            WeatherAlert.timestamp alert = WeatherReading.timestamp reading /\
            WeatherAlert.severity alert ∈ ["high"; "extreme"]) p) as Fp.
  { destruct Hp as [->|[ty ->]]; [constructor|].
    constructor; [apply create_precipitation_alert_fields | constructor]. }
  assert (Forall (fun alert =>
            WeatherAlert.alert_type alert = "wind" /\
            WeatherAlert.timestamp alert = WeatherReading.timestamp reading /\
            WeatherAlert.severity alert ∈ ["high"; "extreme"]) w) as Fw.
  { destruct Hw as [->|[ty ->]]; [constructor|].
    constructor; [apply create_wind_alert_fields | constructor]. }
  assert (Forall (fun alert =>
            WeatherAlert.alert_type alert = "visibility" /\
            WeatherAlert.timestamp alert = WeatherReading.timestamp reading /\
            WeatherAlert.severity alert = "medium") v) as Fv.
  { destruct Hv as [->| ->]; by repeat constructor. }
  assert (Forall (fun alert =>
            WeatherAlert.alert_type alert = "uv" /\
            WeatherAlert.timestamp alert = WeatherReading.timestamp reading /\
            WeatherAlert.severity alert = "medium") u) as Fu.
  { destruct Hu as [->| ->]; by repeat constructor. }
  assert (length t <= 1 /\ length p <= 1 /\ length w <= 1 /\ length v <= 1
          /\ length u <= 1)%nat as (Lt & Lp & Lw & Lv & Lu).
  { destruct Ht as [->|[? ->]], Hp as [->|[? ->]], Hw as [->|[? ->]],
      Hv as [->| ->], Hu as [->| ->]; cbn; lia. }
  split; [|split].
  - rewrite !fmap_app.
    assert (forall (l : list WeatherAlert.t) (ty : string) (P : WeatherAlert.t -> Prop),
              (length l <= 1)%nat ->
              Forall (fun alert => WeatherAlert.alert_type alert = ty /\ P alert) l ->
              WeatherAlert.alert_type <$> l = [] \/ WeatherAlert.alert_type <$> l = [ty])
      as Hslot.
    { intros [|a [|b l]] ty P Hlen Hall; cbn in *; [by left| |lia].
      right. apply Forall_cons in Hall as [[-> _] _]. done. }
    destruct (Hslot t _ _ Lt Ft) as [-> | ->], (Hslot p _ _ Lp Fp) as [-> | ->],
      (Hslot w _ _ Lw Fw) as [-> | ->], (Hslot v _ _ Lv Fv) as [-> | ->],
      (Hslot u _ _ Lu Fu) as [-> | ->];
      apply (bool_decide_unpack _); vm_compute; reflexivity.
  - rewrite !length_app. lia.
  - rewrite !Forall_app. unfold alert_categories. repeat split.
    + eapply Forall_impl; [exact Ft|]. intros a (-> & ? & ?). set_solver.
    + eapply Forall_impl; [exact Fp|]. intros a (-> & ? & ?). set_solver.
    + eapply Forall_impl; [exact Fw|]. intros a (-> & ? & ?). set_solver.
    + eapply Forall_impl; [exact Fv|]. intros a (-> & ? & ->). set_solver.
    + eapply Forall_impl; [exact Fu|]. intros a (-> & ? & ->). set_solver.
Qed.

(** X4.  One evaluation of a reading generates at most one alert per
    category (the extreme and the high or heavy alert of a category
    never fire together), so at most five alerts; every alert carries
    the timestamp of the reading, and its severity is medium, high or
    extreme. *)
Theorem one_alert_per_category (reading : WeatherReading.t) (c : clock)
    (s : WeatherMonitoringAgent) :
  thresholds_numeric s ->
  exists alerts,
    alerts_generated float_str reading c s = Some alerts /\
    NoDup (WeatherAlert.alert_type <$> alerts) /\
    (length alerts <= 5)%nat /\
    Forall (fun alert =>
              WeatherAlert.alert_type alert ∈ alert_categories /\
              WeatherAlert.timestamp alert = WeatherReading.timestamp reading /\
              WeatherAlert.severity alert ∈ ["medium"; "high"; "extreme"])
           alerts.
Proof.
  intros H. destruct (alerts_generated_total float_str reading c s H) as [alerts Hgen].
  exists alerts. split; [done|]. exact (alerts_generated_fields reading c s alerts Hgen).
Qed.

Lemma broadcast_weather_alerts_outbox (c : clock) (alerts : list WeatherAlert.t) :
  forall s : WeatherMonitoringAgent,
    exists msgs,
      outbox (foldl (fun s alert =>
                       _broadcast_weather_alert alert c
                         (set_active_alerts (active_alerts s ++ [alert]) s))
                    s alerts)
      = outbox s ++ msgs /\
      Forall2 (fun m alert =>
                 CrossLanguageMessage.type m = "weather_alert" /\
                 CrossLanguageMessage.destination m = BaseAgent.broadcast /\
                 alert_of m = Some (VDict (WeatherAlert.to_dict alert)) /\
                 priority_of m = Some (VStr "high"))
              msgs alerts.
Proof.
  induction alerts as [|alert alerts IH]; intros s.
  - exists []. split; [by rewrite app_nil_r | constructor].
  - cbn [foldl].
    destruct (IH (_broadcast_weather_alert alert c
                    (set_active_alerts (active_alerts s ++ [alert]) s)))
      as (msgs & -> & Hall).
    eexists (_ :: msgs). split.
    + cbn. rewrite <- app_assoc. reflexivity.
    + constructor; [|done]. by repeat split.
Qed.

(** X5.  Every alert that an evaluation generates is broadcast once, in
    the order of the categories, as a [weather_alert] message of high
    priority that carries the alert, and nothing else is sent; the
    generated alerts join the active list before it is purged, so an
    alert for a reading that is six hours old or older is broadcast and
    dropped at once. *)
Theorem generated_alerts_are_broadcast (reading : WeatherReading.t) (c : clock)
    (s : WeatherMonitoringAgent) (alerts : list WeatherAlert.t) :
  alerts_generated float_str reading c s = Some alerts ->
  exists s' msgs,
    _check_weather_alerts float_str reading c s = Some s' /\
    outbox s' = outbox s ++ msgs /\
    Forall2 (fun m alert =>
               CrossLanguageMessage.type m = "weather_alert" /\
               CrossLanguageMessage.destination m = BaseAgent.broadcast /\
               alert_of m = Some (VDict (WeatherAlert.to_dict alert)) /\
               priority_of m = Some (VStr "high"))
            msgs alerts /\
    active_alerts s' = purge c (active_alerts s ++ alerts) /\
    ((WeatherReading.timestamp reading <= now c - hours 6)%Z ->
     forall alert, alert ∈ alerts -> alert ∉ active_alerts s').
Proof.
  intros Hgen.
  destruct (broadcast_weather_alerts_outbox c alerts s) as (msgs & Hout & Hall).
  destruct (broadcast_weather_alerts_fold c alerts s) as [Hactive _]. cbn zeta in Hactive.
  unfold _check_weather_alerts. rewrite Hgen. cbn [mbind option_bind].
  eexists _, msgs. split; [reflexivity|]. split; [exact Hout|].
  split; [done|]. cbn [active_alerts set_active_alerts]. rewrite Hactive.
  split; [done|].
  intros Hold alert Hin. unfold purge, cutoff_time.
  intros Hin'. apply list_elem_of_filter in Hin' as [Hnew _].
  assert (WeatherAlert.timestamp alert = WeatherReading.timestamp reading) as Hts.
  { destruct (alerts_generated_fields reading c s alerts Hgen) as (_ & _ & Hall').
    rewrite Forall_forall in Hall'. by destruct (Hall' alert Hin) as (_ & ? & _). }
  lia.
Qed.

End AlertEngineMore.

Lemma generated_alerts_are_broadcast_witness :
  exists s' msgs,
    _check_weather_alerts plain_float_str hot_reading two_pm simulated_agent = Some s' /\
    outbox s' = outbox simulated_agent ++ msgs /\ length msgs = 2%nat.
Proof.
  destruct (generated_alerts_are_broadcast plain_float_str hot_reading two_pm
              simulated_agent _ eq_refl) as (s' & msgs & Hs' & Hout & Hall & _).
  exists s', msgs. split; [done|]. split; [done|].
  by apply Forall2_length in Hall.
Defined.

Lemma one_alert_per_category_witness :
  exists alerts,
    alerts_generated plain_float_str hot_reading two_pm simulated_agent = Some alerts /\
    NoDup (WeatherAlert.alert_type <$> alerts).
Proof.
  destruct (one_alert_per_category plain_float_str hot_reading two_pm simulated_agent
              (default_thresholds_numeric simulated_agent eq_refl))
    as (alerts & Hgen & Hnodup & _).
  by exists alerts.
Defined.

(** ** The history and the monitoring cycle *)

Lemma same_but_alerts_refl (s : WeatherMonitoringAgent) : same_but_alerts s s.
Proof. by repeat split. Qed.

Lemma same_but_alerts_trans (s1 s2 s3 : WeatherMonitoringAgent) :
  same_but_alerts s1 s2 -> same_but_alerts s2 s3 -> same_but_alerts s1 s3.
Proof.
  unfold same_but_alerts. intros H1 H2. destruct_and!. repeat split; congruence.
Qed.

Lemma broadcast_noaa_alerts_same (alerts : list NOAAAlert.t) (c : clock) :
  forall s : WeatherMonitoringAgent,
    same_but_alerts s (foldl (fun s alert => _broadcast_noaa_alert alert c s) s alerts) /\
    active_alerts (foldl (fun s alert => _broadcast_noaa_alert alert c s) s alerts)
    = active_alerts s.
Proof.
  induction alerts as [|alert alerts IH]; intros s; [by repeat split|].
  cbn [foldl]. destruct (IH (_broadcast_noaa_alert alert c s)) as [Hsame Hactive].
  split; [|by rewrite Hactive].
  eapply same_but_alerts_trans; [|exact Hsame]. by repeat split.
Qed.

Lemma check_noaa_alerts_same (poll : option (list NOAAAlert.t)) (c : clock)
    (s : WeatherMonitoringAgent) :
  same_but_alerts s (_check_noaa_alerts poll c s) /\
  active_alerts (_check_noaa_alerts poll c s) = active_alerts s.
Proof.
  unfold _check_noaa_alerts. destruct (negb _); [by repeat split|].
  destruct poll as [current|]; [|by repeat split].
  destruct (broadcast_noaa_alerts_same (new_alerts (noaa_alerts s) current) c
              (set_noaa_alerts current s)) as [Hsame Hactive].
  split; [|by rewrite Hactive].
  eapply same_but_alerts_trans; [|exact Hsame]. by repeat split.
Qed.

Lemma broadcast_weather_alerts_same (c : clock) (alerts : list WeatherAlert.t) :
  forall s : WeatherMonitoringAgent,
    let s' :=
      foldl (fun s alert =>
               _broadcast_weather_alert alert c
                 (set_active_alerts (active_alerts s ++ [alert]) s))
            s alerts in
    same_but_alerts s s' /\ noaa_alerts s' = noaa_alerts s.
Proof.
  induction alerts as [|alert alerts IH]; intros s; [by repeat split|].
  cbn [foldl]. cbn zeta in *.
  destruct (IH (_broadcast_weather_alert alert c
                  (set_active_alerts (active_alerts s ++ [alert]) s))) as [Hsame Hnoaa].
  split; [|by rewrite Hnoaa].
  eapply same_but_alerts_trans; [|exact Hsame]. by repeat split.
Qed.

Lemma check_weather_alerts_same (float_str : Q -> string) (reading : WeatherReading.t)
    (c : clock) (s s' : WeatherMonitoringAgent) :
  _check_weather_alerts float_str reading c s = Some s' ->
  same_but_alerts s s' /\ noaa_alerts s' = noaa_alerts s.
Proof.
  unfold _check_weather_alerts.
  destruct (alerts_generated _ _ _ _) as [alerts|]; [|done].
  cbn [mbind option_bind]. intros [= <-].
  destruct (broadcast_weather_alerts_same c alerts s) as [Hsame Hnoaa]. cbn zeta in *.
  split; [|by rewrite <- Hnoaa].
  eapply same_but_alerts_trans; [exact Hsame|]. by repeat split.
Qed.

Lemma append_reading_data (reading : WeatherReading.t) (s : WeatherMonitoringAgent) :
  weather_data (append_reading reading s)
  = drop (length (weather_data s) + 1 - 168) (weather_data s ++ [reading]).
Proof.
  unfold append_reading. cbn [weather_data set_weather_data].
  rewrite length_app. cbn [length].
  destruct (Nat.ltb_spec 168 (length (weather_data s) + 1)) as [H|H]; [reflexivity|].
  replace (length (weather_data s) + 1 - 168)%nat with 0%nat by lia. reflexivity.
Qed.

Lemma append_reading_last (reading : WeatherReading.t) (s : WeatherMonitoringAgent) :
  last (weather_data (append_reading reading s)) = Some reading.
Proof.
  rewrite append_reading_data. rewrite drop_app_le by lia. by rewrite last_snoc.
Qed.

(** X9.  The history is a window of 168 readings: appending a reading
    puts it last and, once the window is full, drops the oldest one, so
    the history after the append is the end of the old history followed
    by the new reading, of length min (n + 1, 168). *)
Theorem append_reading_window (reading : WeatherReading.t) (s : WeatherMonitoringAgent) :
  let s' := append_reading reading s in
  last (weather_data s') = Some reading /\
  length (weather_data s') = Nat.min (length (weather_data s) + 1) 168 /\
  weather_data s' `suffix_of` weather_data s ++ [reading] /\
  ((length (weather_data s) < 168)%nat ->
   weather_data s' = weather_data s ++ [reading]) /\
  ((168 <= length (weather_data s))%nat ->
   weather_data s'
   = drop (length (weather_data s) - 167) (weather_data s) ++ [reading]).
Proof.
  cbn zeta. rewrite append_reading_data.
  set (l := weather_data s). set (n := (length l + 1 - 168)%nat).
  assert (n <= length l)%nat as Hn by (subst n; lia).
  rewrite drop_app_le by done.
  split; [by rewrite last_snoc|]. split.
  { rewrite length_app, length_drop. cbn. subst n. lia. }
  split.
  { exists (take n l). by rewrite app_assoc, take_drop. }
  split.
  - intros Hlt. replace n with 0%nat by (subst n; lia). done.
  - intros Hge. replace n with (length l - 167)%nat by (subst n; lia). done.
Qed.

Lemma append_reading_same (reading : WeatherReading.t) (s : WeatherMonitoringAgent) :
  alert_thresholds (append_reading reading s) = alert_thresholds s /\
  mode (append_reading reading s) = mode s /\
  outbox (append_reading reading s) = outbox s /\
  noaa_service (append_reading reading s) = noaa_service s /\
  simulator (append_reading reading s) = simulator s /\
  monitoring_active (append_reading reading s) = monitoring_active s.
Proof. by repeat split. Qed.

Lemma acquire_reading_cases (env : cycle_env) (c : clock) (s : WeatherMonitoringAgent) :
  let r := acquire_reading env c s in
  weather_data r.2 = weather_data s /\
  alert_thresholds r.2 = alert_thresholds s /\
  mode r.2 = mode s /\ outbox r.2 = outbox s /\
  noaa_service r.2 = noaa_service s /\
  monitoring_active r.2 = monitoring_active s /\
  ((r.1 = simulated_reading env c s /\
    simulator r.2 = WeatherSimulator._update_trends (simulator s) (sim_draws env)) \/
   (exists noaa_reading,
      fetch_weather env = Some (Some noaa_reading) /\
      use_real_weather s = true /\ is_Some (noaa_service s) /\
      is_Some (noaa_location s) /\
      r.1 = _convert_noaa_reading noaa_reading /\ simulator r.2 = simulator s)).
Proof.
  cbn zeta.
  assert (forall r,
            r = simulate env c s ->
            weather_data r.2 = weather_data s /\
            alert_thresholds r.2 = alert_thresholds s /\
            mode r.2 = mode s /\ outbox r.2 = outbox s /\
            noaa_service r.2 = noaa_service s /\
            monitoring_active r.2 = monitoring_active s /\
            r.1 = simulated_reading env c s /\
            simulator r.2 = WeatherSimulator._update_trends (simulator s) (sim_draws env))
    as Hsim.
  { intros r ->. unfold simulate, simulated_reading.
    destruct (WeatherSimulator.generate_hourly_reading _ _ _ _) as [r sim] eqn:Hgen.
    injection Hgen as _ <-. by repeat split. }
  assert (forall r,
            r = simulate env c s ->
            weather_data r.2 = weather_data s /\
            alert_thresholds r.2 = alert_thresholds s /\
            mode r.2 = mode s /\ outbox r.2 = outbox s /\
            noaa_service r.2 = noaa_service s /\
            monitoring_active r.2 = monitoring_active s /\
            ((r.1 = simulated_reading env c s /\
              simulator r.2
              = WeatherSimulator._update_trends (simulator s) (sim_draws env)) \/
             (exists noaa_reading,
                fetch_weather env = Some (Some noaa_reading) /\
                use_real_weather s = true /\ is_Some (noaa_service s) /\
                is_Some (noaa_location s) /\
                r.1 = _convert_noaa_reading noaa_reading /\
                simulator r.2 = simulator s))) as Hsim'.
  { intros r Hr. destruct (Hsim r Hr) as (? & ? & ? & ? & ? & ? & ? & ?).
    repeat (split; [done|]). by left. }
  unfold acquire_reading.
  destruct (use_real_weather s) eqn:Hreal; cbn [andb]; [|by apply Hsim'].
  destruct (noaa_service s) as [svc|] eqn:Hsvc; cbn [is_some andb]; [|by apply Hsim'].
  destruct (noaa_location s) as [loc|] eqn:Hloc; cbn [is_some andb]; [|by apply Hsim'].
  destruct (fetch_weather env) as [[noaa_reading|]|] eqn:Hfetch;
    [|by apply Hsim'..].
  cbn [fst snd]. repeat (split; [done|]). right. exists noaa_reading.
  by repeat split.
Qed.

(** X10.  One cycle of the monitoring loop, when the alert evaluation
    does not raise: the loop goes on; exactly one reading joins the
    history, and the last message sent is the weather update that
    carries it; the reading is the converted live reading when the agent
    is in live mode and the provider returned one, and otherwise the
    reading of the simulator, for this cycle alone: the mode of the
    agent and its service handle are as before. *)
Theorem monitoring_cycle_appends_one_reading (float_str : Q -> string)
    (env : cycle_env) (c : clock) (s : WeatherMonitoringAgent) :
  thresholds_numeric s ->
  exists s' m,
    monitoring_cycle float_str env c s = (s', true) /\
    weather_data s' = weather_data (append_reading (acquire_reading env c s).1 s) /\
    last (outbox s') = Some m /\
    CrossLanguageMessage.type m = "weather_update" /\
    weather_data_of m
    = Some (VDict (WeatherReading.to_dict (acquire_reading env c s).1)) /\
    mode s' = mode s /\ noaa_service s' = noaa_service s /\
    (fetch_weather env = None \/ fetch_weather env = Some None
     \/ use_real_weather s = false ->
     (acquire_reading env c s).1 = simulated_reading env c s).
Proof.
  intros Hnum. unfold monitoring_cycle.
  pose proof (acquire_reading_cases env c s) as Hacq. cbn zeta in Hacq.
  destruct (acquire_reading env c s) as [reading s1]. cbn [fst snd] in *.
  destruct Hacq as (Hdata & Hth & Hmode & Hout & Hsvc & Hact & Hcases).
  assert (thresholds_numeric (append_reading reading s1)) as Hnum1.
  { intros key Hkey. unfold threshold. cbn. rewrite Hth. by apply Hnum. }
  destruct (alerts_generated_total float_str reading c _ Hnum1) as [alerts Hgen].
  destruct (check_weather_alerts_active float_str reading c _ alerts Hgen)
    as (s2 & Hs2 & _ & _).
  rewrite Hs2. destruct (check_weather_alerts_same _ _ _ _ _ Hs2) as [Hsame2 _].
  destruct (check_noaa_alerts_same (fetch_alerts env) c s2) as [Hsame3 _].
  pose proof (same_but_alerts_trans _ _ _ Hsame2 Hsame3) as Hsame.
  destruct Hsame as (Ha & _ & Hreal & _ & Hwd & _ & _ & Hsvc' & Hloc & _).
  eexists _, _. split; [reflexivity|].
  split; [cbn; rewrite Hwd; unfold append_reading; cbn; by rewrite Hdata|].
  split; [unfold _broadcast_weather_update, outbox, send_message; cbn;
          apply last_snoc|].
  split; [done|]. split; [done|].
  split; [unfold mode in *; cbn; rewrite Ha, Hreal, Hloc; exact Hmode|].
  split; [cbn; rewrite Hsvc'; exact Hsvc|].
  intros Hfail. destruct Hcases as [[Hr _]|(nr & Hfetch & Hreal' & _ & _ & _)]; [done|].
  destruct Hfail as [Hf|[Hf|Hf]]; congruence.
Qed.

Lemma monitoring_cycle_appends_one_reading_witness :
  exists s',
    monitoring_cycle plain_float_str live_cycle two_pm simulated_agent = (s', true) /\
    length (weather_data s') = 1%nat.
Proof.
  destruct (monitoring_cycle_appends_one_reading plain_float_str live_cycle two_pm
              simulated_agent (default_thresholds_numeric simulated_agent eq_refl))
    as (s' & m & Hs' & Hdata & _).
  exists s'. split; [done|]. by rewrite Hdata.
Defined.

(** ** What no operation does *)

Lemma noaa_enabled_mode (s s' : WeatherMonitoringAgent) :
  mode s' = mode s ->
  noaa_service s' = noaa_service s \/ noaa_service s' = None ->
  noaa_enabled s = false -> noaa_enabled s' = false.
Proof.
  unfold mode, noaa_enabled. intros [= Ha Hr Hl] Hsvc. rewrite Ha, Hr, Hl.
  destruct Hsvc as [->| ->]; [done|].
  intros _. destruct (use_real_weather s); cbn; [|done].
  by destruct (noaa_location s).
Qed.

Lemma quiet_refl (s : WeatherMonitoringAgent) : quiet s s.
Proof.
  repeat (split; [done|]). exists []. split; [by rewrite app_nil_r|].
  intros _. split; [apply not_elem_of_nil|done].
Qed.

Lemma quiet_trans (s1 s2 s3 : WeatherMonitoringAgent) :
  quiet s1 s2 -> quiet s2 s3 -> quiet s1 s3.
Proof.
  intros (Hm1 & Hl1 & Hs1 & Hd1 & t1 & Ht1 & Hq1) (Hm2 & Hl2 & Hs2 & Hd2 & t2 & Ht2 & Hq2).
  split; [congruence|]. split; [congruence|]. split; [congruence|].
  split; [congruence|]. exists (t1 ++ t2).
  split; [by rewrite Ht2, Ht1, app_assoc|].
  intros Hoff. destruct (Hq1 Hoff) as [Hn1 Hc1].
  destruct Hq2 as [Hn2 Hc2]; [by apply (noaa_enabled_mode s1); [|left|]|].
  split; [|congruence]. rewrite elem_of_app. tauto.
Qed.

Lemma quiet_send (message : CrossLanguageMessage.t) (s : WeatherMonitoringAgent) :
  CrossLanguageMessage.type message <> "noaa_weather_alert" ->
  quiet s (send_message message s).
Proof.
  intros Htype. repeat (split; [done|]).
  exists [CrossLanguageMessage.type message].
  split; [unfold sent_types, outbox; cbn; by rewrite fmap_app|].
  intros _. split; [|done]. by apply not_elem_of_cons; split; [|apply not_elem_of_nil].
Qed.

Lemma quiet_same_but_alerts (s s' : WeatherMonitoringAgent) (types : list string) :
  same_but_alerts s s' ->
  sent_types s' = sent_types s ++ types ->
  "noaa_weather_alert" ∉ types ->
  noaa_alerts s' = noaa_alerts s ->
  quiet s s'.
Proof.
  intros (Ha & Hl & Hr & _ & Hd & _ & _ & Hsvc & Hloc & _) Ht Hn Hc.
  split; [unfold mode; congruence|]. repeat (split; [done|]).
  exists types. by split.
Qed.

Lemma broadcast_weather_alerts_types (c : clock) (alerts : list WeatherAlert.t) :
  forall s : WeatherMonitoringAgent,
    sent_types (foldl (fun s alert =>
                         _broadcast_weather_alert alert c
                           (set_active_alerts (active_alerts s ++ [alert]) s))
                      s alerts)
    = sent_types s ++ replicate (length alerts) "weather_alert".
Proof.
  induction alerts as [|alert alerts IH]; intros s; [by rewrite app_nil_r|].
  cbn [foldl length replicate]. rewrite IH.
  unfold sent_types, outbox. cbn. by rewrite fmap_app, <- app_assoc.
Qed.

Lemma broadcast_noaa_alerts_types (c : clock) (alerts : list NOAAAlert.t) :
  forall s : WeatherMonitoringAgent,
    sent_types (foldl (fun s alert => _broadcast_noaa_alert alert c s) s alerts)
    = sent_types s ++ replicate (length alerts) "noaa_weather_alert".
Proof.
  induction alerts as [|alert alerts IH]; intros s; [by rewrite app_nil_r|].
  cbn [foldl length replicate]. rewrite IH.
  unfold sent_types, outbox. cbn. by rewrite fmap_app, <- app_assoc.
Qed.

Lemma check_weather_alerts_quiet (float_str : Q -> string) (reading : WeatherReading.t)
    (c : clock) (s s' : WeatherMonitoringAgent) :
  _check_weather_alerts float_str reading c s = Some s' -> quiet s s'.
Proof.
  intros Hcheck. destruct (check_weather_alerts_same _ _ _ _ _ Hcheck) as [Hsame Hnoaa].
  unfold _check_weather_alerts in Hcheck.
  destruct (alerts_generated _ _ _ _) as [alerts|]; [|done].
  cbn [mbind option_bind] in Hcheck. injection Hcheck as <-.
  apply (quiet_same_but_alerts _ _ (replicate (length alerts) "weather_alert"));
    [done| |by intros [? _]%elem_of_replicate|done].
  cbn [outbox set_active_alerts]. apply (broadcast_weather_alerts_types c alerts s).
Qed.

Lemma check_noaa_alerts_quiet (poll : option (list NOAAAlert.t)) (c : clock)
    (s : WeatherMonitoringAgent) :
  quiet s (_check_noaa_alerts poll c s).
Proof.
  destruct (check_noaa_alerts_same poll c s)
    as [(Ha & Hl & Hr & _ & Hd & _ & _ & Hsvc & Hloc & _) _].
  split; [unfold mode; congruence|]. repeat (split; [done|]).
  unfold _check_noaa_alerts.
  destruct (noaa_enabled s) eqn:Hen; cbn [negb].
  - destruct poll as [current|].
    + eexists. split; [|done].
      rewrite broadcast_noaa_alerts_types. done.
    + exists []. by rewrite app_nil_r.
  - exists []. split; [by rewrite app_nil_r|].
    intros _. split; [apply not_elem_of_nil|done].
Qed.

Lemma stop_weather_monitoring_frame (s : WeatherMonitoringAgent)
    (r : bool * WeatherMonitoringAgent) :
  stop_weather_monitoring s = Some r ->
  base r.2 = base s /\ mode r.2 = mode s /\ location r.2 = location s /\
  simulator r.2 = simulator s /\ weather_data r.2 = weather_data s /\
  active_alerts r.2 = active_alerts s /\ noaa_alerts r.2 = noaa_alerts s /\
  noaa_service r.2 = noaa_service s /\ alert_thresholds r.2 = alert_thresholds s /\
  monitoring_active r.2 = false.
Proof.
  unfold stop_weather_monitoring.
  destruct (monitoring_active s) eqn:Hact; cbn [negb];
    [|intros [= <-]; by repeat split].
  cbn [monitoring_task set_monitoring_active].
  destruct (monitoring_task s) as [task|]; [|intros [= <-]; by repeat split].
  unfold await_task. destruct (Task.state (Task.cancel task)) as [at_|] eqn:E;
    cbn; [|intros [= <-]; by repeat split].
  destruct (Task.must_cancel (Task.cancel task)); cbn; [|done].
  unfold run_cancelled. rewrite E. destruct at_; intros [= <-]; by repeat split.
Qed.

Lemma stop_weather_monitoring_quiet (s : WeatherMonitoringAgent)
    (r : bool * WeatherMonitoringAgent) :
  stop_weather_monitoring s = Some r -> quiet s r.2.
Proof.
  intros Hstop. destruct (stop_weather_monitoring_frame s r Hstop)
    as (Hbase & Hm & Hl & _ & Hd & _ & Hn & Hsvc & _).
  repeat (split; [done|]).
  exists []. split; [unfold sent_types, outbox; by rewrite Hbase, app_nil_r|].
  intros _. split; [apply not_elem_of_nil|done].
Qed.

Lemma acquire_reading_quiet (env : cycle_env) (c : clock) (s : WeatherMonitoringAgent) :
  quiet s (acquire_reading env c s).2.
Proof.
  destruct (acquire_reading_cases env c s) as (Hd & _ & Hm & Ho & Hsvc & _ & Hcases).
  assert (base (acquire_reading env c s).2 = base s) as Hbase.
  { unfold acquire_reading, simulate.
    destruct (WeatherSimulator.generate_hourly_reading _ _ _ _) as [r sim].
    destruct (_ && _); [destruct (fetch_weather env) as [[?|]|]|]; done. }
  assert (location (acquire_reading env c s).2 = location s
          /\ noaa_alerts (acquire_reading env c s).2 = noaa_alerts s) as [Hl Hn].
  { unfold acquire_reading, simulate.
    destruct (WeatherSimulator.generate_hourly_reading _ _ _ _) as [r sim].
    destruct (_ && _); [destruct (fetch_weather env) as [[?|]|]|]; done. }
  repeat (split; [done|]).
  exists []. split; [unfold sent_types, outbox; by rewrite Hbase, app_nil_r|].
  intros _. split; [apply not_elem_of_nil|done].
Qed.

Lemma step_effect (float_str : Q -> string) (s : WeatherMonitoringAgent)
    (op : operation) :
  exists s1 s2, quiet s s1 /\ loud s1 s2 /\ quiet s2 (step float_str s op).
Proof.
  assert (forall s', quiet s s' -> exists s1 s2, quiet s s1 /\ loud s1 s2 /\ quiet s2 s')
    as Hquiet.
  { intros s' Hq. exists s, s. split; [apply quiet_refl|]. split; [by left|done]. }
  destruct op as [c|d| | |env c|reading c|poll c|reading c|message c|message c
                 |message c|fd message c|message c|message c|message c|env message c];
    cbn [step].
  - apply Hquiet. unfold send_ready_message, BaseAgent.send_ready_message.
    by apply (quiet_send _ s).
  - apply Hquiet. unfold start_weather_monitoring.
    destruct (monitoring_active s); cbn; [apply quiet_refl|].
    repeat (split; [done|]). exists []. split; [by rewrite app_nil_r|].
    intros _. split; [apply not_elem_of_nil|done].
  - apply Hquiet. destruct (stop_weather_monitoring s) as [r|] eqn:E; cbn;
      [by apply stop_weather_monitoring_quiet|apply quiet_refl].
  - unfold cleanup.
    assert (forall s1, quiet s s1 ->
              exists s1' s2,
                quiet s s1' /\ loud s1' s2 /\
                quiet s2 (if is_some (noaa_service s1)
                          then set_noaa_service None s1 else s1)) as Hclose.
    { intros s1 Hq. destruct (is_some (noaa_service s1)).
      - exists s1, (set_noaa_service None s1). split; [done|].
        split; [by right; right|apply quiet_refl].
      - exists s1, s1. split; [done|]. split; [by left|apply quiet_refl]. }
    destruct (monitoring_active s); cbn.
    + destruct (stop_weather_monitoring s) as [r|] eqn:E; cbn;
        [|apply Hquiet, quiet_refl].
      by apply Hclose, stop_weather_monitoring_quiet.
    + apply Hclose, quiet_refl.
  - unfold monitoring_cycle.
    pose proof (acquire_reading_quiet env c s) as Hacq.
    destruct (acquire_reading env c s) as [reading s1]. cbn [snd] in Hacq.
    exists s1, (append_reading reading s1). split; [done|].
    split; [right; left; by eexists|].
    destruct (_check_weather_alerts _ _ _ _) as [s2|] eqn:Hcheck; cbn [fst].
    + eapply quiet_trans; [by eapply check_weather_alerts_quiet|].
      eapply quiet_trans; [apply check_noaa_alerts_quiet|].
      by apply quiet_send.
    + repeat (split; [done|]). exists []. split; [by rewrite app_nil_r|].
      intros _. split; [apply not_elem_of_nil|done].
  - apply Hquiet. destruct (_check_weather_alerts _ _ _ _) as [s2|] eqn:Hcheck; cbn;
      [by eapply check_weather_alerts_quiet|apply quiet_refl].
  - apply Hquiet, check_noaa_alerts_quiet.
  - apply Hquiet. by apply quiet_send.
  - apply Hquiet. unfold handle_start_monitoring.
    destruct (payload_get _ _ _) as [duration|]; cbn; [|apply quiet_refl].
    unfold start_weather_monitoring.
    destruct (monitoring_active s); cbn [fst snd]; [by apply quiet_send|].
    eapply quiet_trans; [|by apply quiet_send].
    repeat (split; [done|]). exists []. split; [by rewrite app_nil_r|].
    intros _. split; [apply not_elem_of_nil|done].
  - apply Hquiet. unfold handle_stop_monitoring.
    destruct (stop_weather_monitoring s) as [[success s1]|] eqn:E; cbn;
      [|apply quiet_refl].
    eapply quiet_trans; [by apply (stop_weather_monitoring_quiet s (success, s1))|].
    by apply quiet_send.
  - apply Hquiet. by apply quiet_send.
  - apply Hquiet. unfold handle_get_weather_forecast.
    destruct (payload_get _ _ _) as [hours_ahead|]; cbn; [|apply quiet_refl].
    destruct (as_index hours_ahead) as [n|]; cbn; [|apply quiet_refl].
    destruct (foldl _ _ _) as [forecast_data sim].
    eapply quiet_trans; [|by apply quiet_send].
    repeat (split; [done|]). exists []. split; [by rewrite app_nil_r|].
    intros _. split; [apply not_elem_of_nil|done].
  - apply Hquiet. by apply quiet_send.
  - apply Hquiet. unfold handle_update_alert_thresholds.
    destruct (payload_get _ _ _) as [[| | | | | | |new]|]; cbn; try apply quiet_refl.
    eapply quiet_trans; [|by apply quiet_send].
    repeat (split; [done|]). exists []. split; [by rewrite app_nil_r|].
    intros _. split; [apply not_elem_of_nil|done].
  - apply Hquiet. by apply quiet_send.
  - unfold handle_refresh_noaa_data.
    destruct (noaa_enabled s) eqn:Hen; [|apply Hquiet; by apply quiet_send].
    destruct (refresh_weather env) as [[noaa_reading|]|];
      [| |apply Hquiet; by apply quiet_send].
    + exists s, (append_reading (_convert_noaa_reading noaa_reading) s).
      split; [apply quiet_refl|]. split; [right; left; by eexists|].
      eapply quiet_trans; [apply check_noaa_alerts_quiet|]. by apply quiet_send.
    + apply Hquiet.
      eapply quiet_trans; [apply check_noaa_alerts_quiet|]. by apply quiet_send.
Qed.

Lemma loud_frame (s s' : WeatherMonitoringAgent) :
  loud s s' ->
  mode s' = mode s /\ location s' = location s /\
  (noaa_service s' = noaa_service s \/ noaa_service s' = None) /\
  (weather_data s' = weather_data s \/
   exists reading, weather_data s' = weather_data (append_reading reading s)) /\
  sent_types s' = sent_types s /\ noaa_alerts s' = noaa_alerts s.
Proof.
  intros [->|[[reading ->]| ->]].
  - repeat (split; [done|]). split; [by left|]. split; [by left|done].
  - repeat (split; [done|]). split; [by left|]. split; [right; by eexists|done].
  - repeat (split; [done|]). split; [by right|]. split; [by left|done].
Qed.

Lemma step_frame (float_str : Q -> string) (s : WeatherMonitoringAgent)
    (op : operation) :
  let s' := step float_str s op in
  mode s' = mode s /\ location s' = location s /\
  (noaa_service s' = noaa_service s \/ noaa_service s' = None) /\
  (weather_data s' = weather_data s \/
   exists reading, weather_data s' = weather_data (append_reading reading s)).
Proof.
  cbn zeta. destruct (step_effect float_str s op)
    as (s1 & s2 & (Hm1 & Hl1 & Hs1 & Hd1 & _) & Hloud & (Hm2 & Hl2 & Hs2 & Hd2 & _)).
  destruct (loud_frame s1 s2 Hloud) as (Hm & Hl & Hs & Hd & _).
  split; [congruence|]. split; [congruence|].
  split; [destruct Hs; [left|right]; congruence|].
  destruct Hd as [Hd|[reading Hd]]; [left; congruence|].
  right. exists reading. rewrite Hd2, Hd, !append_reading_data. by rewrite Hd1.
Qed.

Lemma step_disabled (float_str : Q -> string) (s : WeatherMonitoringAgent)
    (op : operation) :
  noaa_enabled s = false ->
  let s' := step float_str s op in
  noaa_enabled s' = false /\ noaa_alerts s' = noaa_alerts s /\
  exists types,
    sent_types s' = sent_types s ++ types /\ "noaa_weather_alert" ∉ types.
Proof.
  intros Hoff. cbn zeta.
  destruct (step_frame float_str s op) as (Hm & _ & Hsvc & _). cbn zeta in *.
  split; [by apply (noaa_enabled_mode s)|].
  destruct (step_effect float_str s op)
    as (s1 & s2 & (Hm1 & _ & Hs1 & _ & t1 & Ht1 & Hq1) & Hloud
        & (_ & _ & _ & _ & t2 & Ht2 & Hq2)).
  destruct (loud_frame s1 s2 Hloud) as (Hm2 & _ & Hs2 & _ & Ht & Hc).
  destruct (Hq1 Hoff) as [Hn1 Hc1].
  assert (noaa_enabled s1 = false) as Hoff1 by (by apply (noaa_enabled_mode s); [|left|]).
  assert (noaa_enabled s2 = false) as Hoff2 by (by apply (noaa_enabled_mode s1)).
  destruct (Hq2 Hoff2) as [Hn2 Hc2].
  split; [congruence|]. exists (t1 ++ t2).
  split; [by rewrite Ht2, Ht, Ht1, app_assoc|].
  rewrite elem_of_app. tauto.
Qed.

(** X11.  The history never outgrows its window: if it holds at most
    168 readings, then after any sequence of operations of the agent it
    still holds at most 168, and at most one more per operation. *)
Theorem history_stays_in_window (float_str : Q -> string) (s : WeatherMonitoringAgent)
    (ops : list operation) :
  (length (weather_data s) <= 168)%nat ->
  (length (weather_data (run float_str s ops)) <= 168)%nat /\
  (length (weather_data (run float_str s ops))
   <= length (weather_data s) + length ops)%nat.
Proof.
  unfold run. revert s. induction ops as [|op ops IH]; intros s Hs; cbn [foldl length].
  { split; [done|lia]. }
  assert (length (weather_data (step float_str s op)) <= 168
          /\ length (weather_data (step float_str s op)) <= length (weather_data s) + 1)%nat
    as [Hwin Hone].
  { destruct (step_frame float_str s op) as (_ & _ & _ & [Hd|[reading Hd]]);
      cbn zeta in Hd; rewrite Hd; [lia|].
    rewrite append_reading_data, length_drop, length_app. cbn [length]. lia. }
  destruct (IH _ Hwin) as [IH1 IH2]. split; [done|lia].
Qed.

Lemma history_stays_in_window_witness :
  (length (weather_data
             (run plain_float_str simulated_agent
                [OpMonitoringCycle live_cycle two_pm;
                 OpMonitoringCycle live_cycle (later 1)])) <= 2)%nat.
Proof.
  apply (history_stays_in_window plain_float_str simulated_agent
           [OpMonitoringCycle live_cycle two_pm; OpMonitoringCycle live_cycle (later 1)]).
  cbn. lia.
Defined.

(** X12.  No operation of the agent changes its mode: the availability
    of the NOAA module, the live-weather flag, the resolved NOAA
    location and the location name are after any sequence of operations
    what they were; the service handle is what it was or has been
    dropped. *)
Theorem operations_keep_mode (float_str : Q -> string) (s : WeatherMonitoringAgent)
    (ops : list operation) :
  NOAA_AVAILABLE (run float_str s ops) = NOAA_AVAILABLE s /\
  use_real_weather (run float_str s ops) = use_real_weather s /\
  noaa_location (run float_str s ops) = noaa_location s /\
  location (run float_str s ops) = location s /\
  (noaa_service (run float_str s ops) = noaa_service s \/
   noaa_service (run float_str s ops) = None).
Proof.
  assert (mode (run float_str s ops) = mode s /\
          location (run float_str s ops) = location s /\
          (noaa_service (run float_str s ops) = noaa_service s \/
           noaa_service (run float_str s ops) = None)) as (Hm & Hl & Hs).
  { unfold run. revert s. induction ops as [|op ops IH]; intros s; cbn [foldl].
    { split; [done|]. split; [done|by left]. }
    destruct (IH (step float_str s op)) as (Hm & Hl & Hs).
    destruct (step_frame float_str s op) as (Hm' & Hl' & Hs' & _). cbn zeta in *.
    split; [congruence|]. split; [congruence|].
    destruct Hs as [Hs|Hs]; [|by right].
    destruct Hs' as [Hs'|Hs']; [left|right]; congruence. }
  unfold mode in Hm. injection Hm as Ha Hr Hloc. by repeat split.
Qed.

(** X13.  An agent for which advisories are not enabled (no live mode,
    no service, no resolved location or no NOAA module) stays so under
    every sequence of operations, broadcasts no advisory and keeps its
    advisory cache as it is. *)
Theorem no_advisory_unless_enabled (float_str : Q -> string)
    (s : WeatherMonitoringAgent) (ops : list operation) :
  noaa_enabled s = false ->
  noaa_enabled (run float_str s ops) = false /\
  noaa_alerts (run float_str s ops) = noaa_alerts s /\
  exists types,
    sent_types (run float_str s ops) = sent_types s ++ types /\
    "noaa_weather_alert" ∉ types.
Proof.
  unfold run. revert s. induction ops as [|op ops IH]; intros s Hoff; cbn [foldl].
  { split; [done|]. split; [done|]. exists []. split; [by rewrite app_nil_r|].
    apply not_elem_of_nil. }
  destruct (step_disabled float_str s op Hoff) as (Hoff' & Hc & t1 & Ht1 & Hn1).
  cbn zeta in *. destruct (IH _ Hoff') as (Hoff'' & Hc' & t2 & Ht2 & Hn2).
  split; [done|]. split; [congruence|]. exists (t1 ++ t2).
  split; [by rewrite Ht2, Ht1, app_assoc|]. rewrite elem_of_app. tauto.
Qed.

Lemma no_advisory_unless_enabled_witness :
  noaa_alerts
    (run plain_float_str simulated_agent
       [OpCheckNoaaAlerts (Some [heat_advisory]) two_pm;
        OpMonitoringCycle live_cycle two_pm])
  = noaa_alerts simulated_agent.
Proof.
  by destruct (no_advisory_unless_enabled plain_float_str simulated_agent
                 [OpCheckNoaaAlerts (Some [heat_advisory]) two_pm;
                  OpMonitoringCycle live_cycle two_pm] eq_refl) as (_ & ? & _).
Defined.

(** ** Updating thresholds *)

Lemma handle_update_request (new : gmap string pyval) (c : clock)
    (s : WeatherMonitoringAgent) :
  exists s' m,
    handle_update_alert_thresholds (update_request new) c s = Some s' /\
    alert_thresholds s' = update_thresholds new (alert_thresholds s) /\
    outbox s' = outbox s ++ [m] /\
    payload_entry "success" m = Some (VBool true) /\
    payload_entry "updated_thresholds" m = Some (VDict (alert_thresholds s')) /\
    monitoring_active s' = monitoring_active s /\
    use_real_weather s' = use_real_weather s /\
    noaa_service s' = noaa_service s /\
    noaa_location s' = noaa_location s /\
    weather_data s' = weather_data s.
Proof. eexists _, _. split; [reflexivity|]. by repeat split. Qed.

Lemma threshold_after_update (new thresholds : gmap string pyval) (key : string) :
  update_thresholds new thresholds !! key ≫= as_number =
    match thresholds !! key with
    | Some old => as_number (default old (new !! key))
    | None => None
    end.
Proof. rewrite update_thresholds_lookup. by destruct (thresholds !! key). Qed.

(** X6.  A threshold update takes effect at the next evaluation: when
    the thresholds are numbers and the request gives numbers, the
    handler leaves the thresholds numbers, every configured key named in
    the request has the requested value and every other key its old
    one; a reading at or above a newly set high temperature threshold
    then generates the heat alert. *)
Theorem threshold_update_takes_effect (float_str : Q -> string)
    (new : gmap string pyval) (c : clock) (s : WeatherMonitoringAgent) :
  thresholds_numeric s ->
  (forall key v, new !! key = Some v -> is_Some (as_number v)) ->
  exists s',
    handle_update_alert_thresholds (update_request new) c s = Some s' /\
    thresholds_numeric s' /\
    (forall key,
       key ∈ threshold_keys ->
       threshold s' key =
         match new !! key with
         | Some v => as_number v
         | None => threshold s key
         end) /\
    (forall (v : pyval) (high : Q) (reading : WeatherReading.t) (c' : clock),
       new !! "temperature_high" = Some v -> as_number v = Some high ->
       (high <= WeatherReading.temperature_f reading)%Q ->
       exists alerts,
         alerts_generated float_str reading c' s' = Some alerts /\
         temperature_alerts alerts
         = [_create_temperature_alert float_str reading "high" c']).
Proof.
  intros Hnum Hnew.
  destruct (handle_update_request new c s) as (s' & m & Hs' & Hth & _).
  assert (forall key, key ∈ threshold_keys ->
            threshold s' key =
              match new !! key with
              | Some v => as_number v
              | None => threshold s key
              end) as Hkeys.
  { intros key Hkey. unfold threshold. rewrite Hth, threshold_after_update.
    destruct (Hnum key Hkey) as [q Hq]. unfold threshold in Hq.
    destruct (alert_thresholds s !! key) as [old|]; [|done].
    by destruct (new !! key). }
  assert (thresholds_numeric s') as Hnum'.
  { intros key Hkey. rewrite (Hkeys key Hkey).
    destruct (new !! key) as [v|] eqn:E; [by eapply Hnew | by apply Hnum]. }
  exists s'. split; [done|]. split; [done|]. split; [done|].
  intros v high reading c' Hv Hhigh Hge.
  assert (threshold s' "temperature_high" = Some high) as Hhigh'.
  { rewrite Hkeys by (unfold threshold_keys; set_solver). by rewrite Hv. }
  destruct (Hnum' "temperature_low") as [low Hlow];
    [unfold threshold_keys; set_solver|].
  destruct (alerts_generated_temperature float_str reading c' s' high low
              Hnum' Hhigh' Hlow) as (alerts & Hgen & Htemp).
  exists alerts. split; [done|].
  apply Qgeb_true in Hge. by rewrite Hge in Htemp.
Qed.

Lemma threshold_update_takes_effect_witness :
  exists s',
    handle_update_alert_thresholds
      (update_request (<["temperature_high" := VFloat 100]> ∅)) two_pm simulated_agent
    = Some s' /\
    threshold s' "temperature_high" = Some 100%Q /\
    threshold s' "wind_high" = Some 30%Q.
Proof.
  destruct (threshold_update_takes_effect plain_float_str
              (<["temperature_high" := VFloat 100]> ∅) two_pm simulated_agent
              (default_thresholds_numeric simulated_agent eq_refl))
    as (s' & Hs' & _ & Hkeys & _).
  { intros key v Hv. apply lookup_insert_Some in Hv as [[_ <-]|[_ Hv]]; [by eexists|].
    by rewrite lookup_empty in Hv. }
  exists s'. split; [done|].
  split; rewrite Hkeys by (unfold threshold_keys; set_solver); reflexivity.
Defined.

(** X7.  A threshold update is not checked: a request that sets the high
    temperature threshold to a value that is no number (a string, null,
    a list) is answered with success, and from then on every alert
    evaluation raises; the next monitoring cycle appends its reading,
    sends no weather update, and ends the loop with the monitoring flag
    cleared. *)
Theorem non_numeric_threshold_stops_monitoring (float_str : Q -> string)
    (new : gmap string pyval) (v : pyval) (c : clock) (s : WeatherMonitoringAgent) :
  is_Some (alert_thresholds s !! "temperature_high") ->
  new !! "temperature_high" = Some v ->
  as_number v = None ->
  exists s' m,
    handle_update_alert_thresholds (update_request new) c s = Some s' /\
    last (outbox s') = Some m /\
    payload_entry "success" m = Some (VBool true) /\
    (forall reading c', _check_weather_alerts float_str reading c' s' = None) /\
    (forall env c',
       let r := monitoring_cycle float_str env c' s' in
       r.2 = false /\
       monitoring_active r.1 = false /\
       outbox r.1 = outbox s' /\
       last (weather_data r.1) = Some (acquire_reading env c' s').1).
Proof.
  intros [old Hold] Hv Hnan.
  destruct (handle_update_request new c s) as (s' & m & Hs' & Hth & Hout & Hok & _).
  exists s', m. split; [done|]. split; [by rewrite Hout, last_snoc|]. split; [done|].
  assert (forall s2 : WeatherMonitoringAgent,
            alert_thresholds s2 = alert_thresholds s' ->
            forall reading c', _check_weather_alerts float_str reading c' s2 = None)
    as Hraise.
  { intros s2 Hs2 reading c'. unfold _check_weather_alerts, alerts_generated, threshold.
    rewrite Hs2, Hth.
    rewrite (update_thresholds_lookup new (alert_thresholds s) "temperature_high").
    rewrite Hold, Hv. cbn. by rewrite Hnan. }
  split; [by apply Hraise|].
  intros env c'. cbn zeta. unfold monitoring_cycle.
  pose proof (acquire_reading_cases env c' s') as Hacq. cbn zeta in Hacq.
  destruct (acquire_reading env c' s') as [reading s1]. cbn [fst snd] in *.
  destruct Hacq as (_ & Hs1 & _ & Ho1 & _).
  rewrite (Hraise (append_reading reading s1)) by done. cbn [fst snd].
  split; [done|]. split; [done|]. split; [done|].
  apply append_reading_last.
Qed.

Lemma non_numeric_threshold_stops_monitoring_witness :
  exists s',
    handle_update_alert_thresholds
      (update_request (<["temperature_high" := VStr "hot"]> ∅)) two_pm simulated_agent
    = Some s' /\
    _check_weather_alerts plain_float_str hot_reading two_pm s' = None.
Proof.
  destruct (non_numeric_threshold_stops_monitoring plain_float_str
              (<["temperature_high" := VStr "hot"]> ∅) (VStr "hot") two_pm
              simulated_agent) as (s' & m & Hs' & _ & _ & Hraise & _).
  - by eexists.
  - reflexivity.
  - reflexivity.
  - exists s'. split; [done|]. apply Hraise.
Defined.

(** X8.  A threshold request that names no configured key (an empty
    map, or unknown keys only) changes no threshold and is still
    answered with success; and applying a request a second time changes
    nothing more. *)
Theorem threshold_update_noop_and_idempotent (new : gmap string pyval) (c c' : clock)
    (s : WeatherMonitoringAgent) :
  exists s1 s2 m,
    handle_update_alert_thresholds (update_request new) c s = Some s1 /\
    handle_update_alert_thresholds (update_request new) c' s1 = Some s2 /\
    alert_thresholds s2 = alert_thresholds s1 /\
    last (outbox s1) = Some m /\
    payload_entry "success" m = Some (VBool true) /\
    ((forall key, is_Some (new !! key) -> alert_thresholds s !! key = None) ->
     alert_thresholds s1 = alert_thresholds s).
Proof.
  destruct (handle_update_request new c s) as (s1 & m & Hs1 & Hth1 & Hout & Hok & _).
  destruct (handle_update_request new c' s1) as (s2 & m2 & Hs2 & Hth2 & _).
  exists s1, s2, m. split; [done|]. split; [done|].
  split; [|split; [by rewrite Hout, last_snoc|split; [done|]]].
  - rewrite Hth2, Hth1. apply map_eq. intros key.
    rewrite !update_thresholds_lookup.
    destruct (alert_thresholds s !! key) as [old|]; [|done].
    by destruct (new !! key).
  - intros Hunknown. rewrite Hth1. apply map_eq. intros key.
    rewrite update_thresholds_lookup.
    destruct (alert_thresholds s !! key) as [old|] eqn:E; [|done].
    destruct (new !! key) as [v|] eqn:E'; [|done].
    rewrite Hunknown in E by (by eexists). done.
Qed.

(** ** Live readings, forecasts and refreshes *)

Lemma Qle_bool_lt (a b : Q) : (b < a)%Q -> Qle_bool a b = false.
Proof.
  intros Hlt. destruct (Qle_bool a b) eqn:E; [|done].
  apply Qle_bool_iff in E. by apply Qlt_not_le in Hlt.
Qed.

Lemma or_float_nonzero (x : option Q) (default : Q) :
  ~ (default == 0)%Q -> ~ (or_float x default == 0)%Q.
Proof.
  intros Hd. unfold or_float. destruct x as [q|]; [|done].
  destruct (Qeq_bool q 0) eqn:E; [done|]. by apply Qeq_bool_neq.
Qed.

Lemma or_float_default (x : option Q) (default : Q) :
  x = None \/ (exists q, x = Some q /\ (q == 0)%Q) -> or_float x default = default.
Proof.
  intros [->|(q & -> & Hq)]; [done|]. unfold or_float.
  by rewrite (proj2 (Qeq_bool_iff q 0) Hq).
Qed.

(** X14.  What the conversion of a live reading loses: precipitation
    and UV index are always 0, and a field that is missing or exactly 0
    is replaced by its default (70 degrees, 50 percent, 1013 mb, 10
    miles), so that the converted temperature, humidity, pressure and
    visibility are never 0.  With positive precipitation and UV
    thresholds, a live reading therefore never gives a precipitation or
    UV alert. *)
Theorem live_reading_conversion (float_str : Q -> string)
    (noaa_reading : NOAAWeatherReading.t) :
  let reading := _convert_noaa_reading noaa_reading in
  WeatherReading.precipitation_inches reading = 0%Q /\
  WeatherReading.uv_index reading = 0%Z /\
  WeatherReading.timestamp reading = NOAAWeatherReading.timestamp noaa_reading /\
  ((NOAAWeatherReading.temperature_f noaa_reading = None \/
    exists q, NOAAWeatherReading.temperature_f noaa_reading = Some q /\ (q == 0)%Q) ->
   WeatherReading.temperature_f reading = 70%Q) /\
  ~ (WeatherReading.temperature_f reading == 0)%Q /\
  ~ (WeatherReading.humidity_percent reading == 0)%Q /\
  ~ (WeatherReading.pressure_mb reading == 0)%Q /\
  ~ (WeatherReading.visibility_miles reading == 0)%Q /\
  (forall (c : clock) (s : WeatherMonitoringAgent) (heavy extreme uv : Q)
          (alerts : list WeatherAlert.t),
     threshold s "precipitation_heavy" = Some heavy -> (0 < heavy)%Q ->
     threshold s "precipitation_extreme" = Some extreme -> (0 < extreme)%Q ->
     threshold s "uv_extreme" = Some uv -> (0 < uv)%Q ->
     alerts_generated float_str reading c s = Some alerts ->
     Forall (fun alert =>
               WeatherAlert.alert_type alert <> "precipitation" /\
               WeatherAlert.alert_type alert <> "uv") alerts).
Proof.
  cbn zeta. split; [done|]. split; [done|]. split; [done|].
  split; [apply or_float_default|].
  split; [by apply or_float_nonzero|]. split; [by apply or_float_nonzero|].
  split; [by apply or_float_nonzero|]. split; [by apply or_float_nonzero|].
  intros c s heavy extreme uv alerts Hheavy Hh Hextreme He Huv Hu Hgen.
  unfold alerts_generated in Hgen.
  apply bind_Some in Hgen as (t & Ht & Hgen).
  apply bind_Some in Hgen as (p & Hp & Hgen).
  apply bind_Some in Hgen as (w & Hw & Hgen).
  apply bind_Some in Hgen as (v & Hv & Hgen).
  apply bind_Some in Hgen as (u & Hu' & Hgen).
  injection Hgen as <-.
  rewrite Hextreme, Hheavy in Hp. cbn [mbind option_bind] in Hp.
  change (WeatherReading.precipitation_inches (_convert_noaa_reading noaa_reading))
    with 0%Q in Hp.
  unfold Qgeb in Hp.
  rewrite (Qle_bool_lt extreme 0), (Qle_bool_lt heavy 0) in Hp by done.
  injection Hp as <-.
  rewrite Huv in Hu'. cbn [mbind option_bind] in Hu'.
  change (inject_Z (WeatherReading.uv_index (_convert_noaa_reading noaa_reading)))
    with 0%Q in Hu'.
  unfold Qgeb in Hu'.
  rewrite (Qle_bool_lt uv 0) in Hu' by done. injection Hu' as <-.
  rewrite app_nil_r. cbn [app]. rewrite !Forall_app. repeat apply conj.
  - apply bind_Some in Ht as (high & _ & Ht).
    destruct (Qgeb _ high); [injection Ht as <-; by repeat constructor|].
    apply bind_Some in Ht as (low & _ & Ht).
    destruct (Qle_bool _ low); injection Ht as <-; by repeat constructor.
  - apply bind_Some in Hw as (extreme' & _ & Hw).
    destruct (Qgeb _ extreme'); [injection Hw as <-; by repeat constructor|].
    apply bind_Some in Hw as (high & _ & Hw).
    destruct (Qgeb _ high); injection Hw as <-; by repeat constructor.
  - apply bind_Some in Hv as (low & _ & Hv).
    destruct (Qle_bool _ low); injection Hv as <-; by repeat constructor.
Qed.

Lemma live_reading_conversion_witness :
  exists alerts,
    alerts_generated plain_float_str (_convert_noaa_reading live_reading) two_pm
      simulated_agent = Some alerts /\
    Forall (fun alert =>
              WeatherAlert.alert_type alert <> "precipitation" /\
              WeatherAlert.alert_type alert <> "uv") alerts.
Proof.
  destruct (live_reading_conversion plain_float_str live_reading)
    as (_ & _ & _ & _ & _ & _ & _ & _ & Hquiet).
  eexists. split; [reflexivity|].
  apply (Hquiet two_pm simulated_agent (5 # 10)%Q 1%Q 8%Q); reflexivity.
Defined.




(** X16.  A refresh reports success exactly when advisories are enabled
    and the fetch of the current weather did not raise: also when the
    fetch returned no reading, and whatever the advisory poll did.  A
    reading joins the history only on success, and only if one was
    returned; the answer is the last message sent and is correlated to
    the request. *)
Theorem refresh_success (env : refresh_env) (message : CrossLanguageMessage.t)
    (c : clock) (s : WeatherMonitoringAgent) :
  let s' := handle_refresh_noaa_data env message c s in
  exists m,
    last (outbox s') = Some m /\
    CrossLanguageMessage.type m = "noaa_data_refreshed" /\
    CrossLanguageMessage.destination m = CrossLanguageMessage.source message /\
    correlation_id_of m = Some (VStr (CrossLanguageMessage.id message)) /\
    success_of m = Some (VBool (noaa_enabled s && is_some (refresh_weather env))) /\
    (payload_entry "error" m = Some VNone <->
     noaa_enabled s = true /\ is_Some (refresh_weather env)) /\
    weather_data s'
    = (if noaa_enabled s
       then match refresh_weather env with
            | Some (Some noaa_reading) =>
              weather_data (append_reading (_convert_noaa_reading noaa_reading) s)
            | _ => weather_data s
            end
       else weather_data s).
Proof.
  cbn zeta. unfold handle_refresh_noaa_data.
  destruct (noaa_enabled s) eqn:Hen.
  - destruct (refresh_weather env) as [[noaa_reading|]|] eqn:Hfetch.
    + eexists. split; [apply last_snoc|]. do 4 (split; [done|]).
      split; [split; [by eauto|done]|].
      cbn [weather_data send_message set_base].
      by destruct (check_noaa_alerts_same (refresh_alerts env) c
                     (append_reading (_convert_noaa_reading noaa_reading) s))
        as [(_ & _ & _ & _ & -> & _) _].
    + eexists. split; [apply last_snoc|]. do 4 (split; [done|]).
      split; [split; [by eauto|done]|].
      cbn [weather_data send_message set_base].
      by destruct (check_noaa_alerts_same (refresh_alerts env) c s)
        as [(_ & _ & _ & _ & -> & _) _].
    + eexists. split; [apply last_snoc|]. do 4 (split; [done|]).
      split; [|done]. split; [done|]. by intros [_ [? ?]].
  - eexists. split; [apply last_snoc|]. do 4 (split; [done|]).
    split; [|done]. split; [done|]. by intros [? _].
Qed.

(** ** Requests to the weather service *)

(** X17.  A request that is not answered with status 429 is sent once.
    It is sent no earlier than [rate_limit_delay] seconds after the
    previous request: at the time of the call if that is late enough,
    and otherwise exactly [rate_limit_delay] after the previous one.  The
    time of sending is recorded, the session is open afterwards, and the
    result is the body of a 200 answer and [None] for every other
    answer or exception. *)
Theorem make_request_single_shot (depth : nat) (upstream : nat -> http_reply)
    (svc : NOAAWeatherService.t) (w : NOAAWeatherService.world) :
  upstream (NOAAWeatherService.sent w) <> Status429 ->
  exists svc' w',
    NOAAWeatherService._make_request (S depth) upstream svc w
    = Some (match upstream (NOAAWeatherService.sent w) with
            | Status200 data => Some data
            | _ => None
            end, svc', w') /\
    NOAAWeatherService.sent w' = S (NOAAWeatherService.sent w) /\
    NOAAWeatherService.last_request_time svc' = NOAAWeatherService.clock w' /\
    NOAAWeatherService.session svc' = true /\
    NOAAWeatherService.rate_limit_delay svc' = NOAAWeatherService.rate_limit_delay svc /\
    (NOAAWeatherService.last_request_time svc + NOAAWeatherService.rate_limit_delay svc
     <= NOAAWeatherService.clock w')%Q /\
    (NOAAWeatherService.clock w' = NOAAWeatherService.clock w \/
     NOAAWeatherService.clock w'
     == NOAAWeatherService.last_request_time svc
        + NOAAWeatherService.rate_limit_delay svc)%Q.
Proof.
  intros Hreply.
  assert (forall t,
            let svc0 := NOAAWeatherService.set_last_request_time svc t in
            let svc1 := if NOAAWeatherService.session svc0 then svc0
                        else NOAAWeatherService.initialize svc0 in
            NOAAWeatherService.last_request_time svc1 = t /\
            NOAAWeatherService.session svc1 = true /\
            NOAAWeatherService.rate_limit_delay svc1
            = NOAAWeatherService.rate_limit_delay svc) as Hsvc.
  { intros t. cbn zeta. unfold NOAAWeatherService.initialize.
    cbn [NOAAWeatherService.session NOAAWeatherService.set_last_request_time].
    by destruct (NOAAWeatherService.session svc) eqn:E; cbn; rewrite ?E. }
  cbn [NOAAWeatherService._make_request]. unfold NOAAWeatherService.get.
  destruct (Qltb _ _) eqn:Hwait.
  - assert (NOAAWeatherService.clock w
            + (NOAAWeatherService.rate_limit_delay svc
               - (NOAAWeatherService.clock w - NOAAWeatherService.last_request_time svc))
            == NOAAWeatherService.last_request_time svc
               + NOAAWeatherService.rate_limit_delay svc)%Q as Hclock by ring.
    unfold NOAAWeatherService.sleep.
    cbn [NOAAWeatherService.sent NOAAWeatherService.clock].
    destruct (Hsvc (NOAAWeatherService.clock w
                    + (NOAAWeatherService.rate_limit_delay svc
                       - (NOAAWeatherService.clock w
                          - NOAAWeatherService.last_request_time svc)))%Q)
      as (Hlast & Hsession & Hdelay).
    cbn zeta in Hlast, Hsession, Hdelay.
    destruct (upstream (NOAAWeatherService.sent w)) eqn:E; [| |done| | | |];
      (eexists _, _; split; [reflexivity|]; split; [reflexivity|];
       split; [exact Hlast|]; split; [exact Hsession|]; split; [exact Hdelay|];
       cbn [NOAAWeatherService.clock]; split; [by rewrite Hclock; apply Qle_refl|];
       by right).
  - apply Qltb_false in Hwait.
    destruct (Hsvc (NOAAWeatherService.clock w)) as (Hlast & Hsession & Hdelay).
    cbn zeta in Hlast, Hsession, Hdelay.
    destruct (upstream (NOAAWeatherService.sent w)) eqn:E; [| |done| | | |];
      (eexists _, _; split; [reflexivity|]; split; [reflexivity|];
       split; [exact Hlast|]; split; [exact Hsession|]; split; [exact Hdelay|];
       cbn [NOAAWeatherService.clock]; split; [lra|]; by left).
Qed.

Lemma make_request_single_shot_witness :
  exists svc' w',
    NOAAWeatherService._make_request 1 (fun _ => Status404)
      (NOAAWeatherService.init "CommunityServices/1.0") (NOAAWeatherService.mkWorld 100 0)
    = Some (None, svc', w') /\
    NOAAWeatherService.sent w' = 1%nat.
Proof.
  destruct (make_request_single_shot 0 (fun _ => Status404)
              (NOAAWeatherService.init "CommunityServices/1.0")
              (NOAAWeatherService.mkWorld 100 0))
    as (svc' & w' & Hreq & Hsent & _); [done|].
  by exists svc', w'.
Defined.

(** ** Answers to requests *)




(** ** History and analysis *)

Lemma round_half_even_Z (n : Z) (x : Q) : (x == inject_Z n)%Q -> round_half_even x = n.
Proof.
  intros Hx. apply Z.le_antisymm.
  - apply round_half_even_le. rewrite Hx. apply Qle_refl.
  - apply round_half_even_ge. rewrite Hx. apply Qle_refl.
Qed.

Lemma cutoff_hours (n : Z) (c : clock) :
  (timedelta_min <= hours n <= timedelta_max)%Z ->
  (datetime_min <= now c - hours n <= datetime_max)%Z ->
  cutoff (VInt n) c = Some (now c - hours n)%Z.
Proof.
  intros Hdelta Hdate. unfold cutoff. cbn [as_number mbind option_bind].
  rewrite (round_half_even_Z (hours n)).
  - by rewrite !bool_decide_eq_true_2.
  - unfold hours. rewrite <- inject_Z_mult. apply inject_Z_injective. lia.
Qed.

Lemma cutoff_not_a_number (hours_back : pyval) (c : clock) :
  as_number hours_back = None -> cutoff hours_back c = None.
Proof. unfold cutoff. by intros ->. Qed.

Lemma elem_of_recent (cutoff_time : Z) (data : list WeatherReading.t)
    (reading : WeatherReading.t) :
  reading ∈ recent cutoff_time data <->
  reading ∈ data /\ (cutoff_time < WeatherReading.timestamp reading)%Z.
Proof. unfold recent. rewrite list_elem_of_filter. tauto. Qed.

(** X19.  A history request for a whole number [n] of hours (24 when
    the request names none) is answered with the readings of the
    history that are newer than [n] hours, in the order of the history,
    and with their count; the history itself is not changed. *)
Theorem weather_history_window (message : CrossLanguageMessage.t) (c : clock)
    (s : WeatherMonitoringAgent) (p : gmap string pyval) (n : Z) :
  CrossLanguageMessage.payload message = VDict p ->
  default (VInt 24) (p !! "hours_back") = VInt n ->
  (timedelta_min <= hours n <= timedelta_max)%Z ->
  (datetime_min <= now c - hours n <= datetime_max)%Z ->
  exists s' m history,
    handle_get_weather_history message c s = Some s' /\
    outbox s' = outbox s ++ [m] /\
    weather_data s' = weather_data s /\
    CrossLanguageMessage.type m = "weather_history_response" /\
    payload_entry "hours_requested" m = Some (VInt n) /\
    payload_entry "weather_history" m
    = Some (VList ((fun reading => VDict (WeatherReading.to_dict reading)) <$> history)) /\
    payload_entry "data_points" m = Some (VInt (Z.of_nat (length history))) /\
    history `sublist_of` weather_data s /\
    (forall reading,
       reading ∈ history <->
       reading ∈ weather_data s /\
       (now c - hours n < WeatherReading.timestamp reading)%Z).
Proof.
  intros Hp Hn Hdelta Hdate.
  unfold handle_get_weather_history, payload_get. rewrite Hp.
  cbn [mbind option_bind].
  replace (from_option id (VInt 24) (p !! "hours_back")) with (VInt n)
    by (rewrite <- Hn; by destruct (p !! "hours_back")).
  rewrite (cutoff_hours n c Hdelta Hdate). cbn [mbind option_bind].
  eexists _, _, (recent (now c - hours n) (weather_data s)).
  split; [reflexivity|]. split; [done|]. split; [done|]. split; [done|].
  split; [done|]. split; [done|].
  split; [cbn; by rewrite length_fmap|].
  split; [apply sublist_filter|]. intros reading. apply elem_of_recent.
Qed.

Lemma weather_history_window_witness :
  exists s' m,
    handle_get_weather_history (request "get_weather_history" (VDict ∅)) two_pm
      simulated_agent = Some s' /\
    last (outbox s') = Some m /\
    payload_entry "data_points" m = Some (VInt 0).
Proof.
  destruct (weather_history_window (request "get_weather_history" (VDict ∅)) two_pm
              simulated_agent ∅ 24 eq_refl)
    as (s' & m & history & Hs' & Hout & _ & _ & _ & _ & Hpoints & Hsub & _).
  - by rewrite lookup_empty.
  - vm_compute. split; discriminate.
  - vm_compute. split; discriminate.
  - exists s', m. split; [done|]. split; [by rewrite Hout, last_snoc|].
    apply sublist_nil_r in Hsub. by rewrite Hsub in Hpoints.
Defined.

Lemma min_of_spec (l : list Q) :
  forall x : Q,
    Forall (fun y => (min_of x l <= y)%Q) (x :: l) /\ min_of x l ∈ x :: l.
Proof.
  unfold min_of. induction l as [|y l IH]; intros x; cbn [foldl].
  { split; [constructor; [apply Qle_refl|constructor]|by left]. }
  destruct (IH (Qmin x y)) as [Hall Hin].
  apply Forall_cons in Hall as [Hhd Hall]. split.
  - assert (Qmin x y <= x /\ Qmin x y <= y)%Q as [Hx Hy]
      by (destruct (Qmin_cases x y) as [[-> ?]|[-> ?]]; lra).
    constructor; [lra|]. constructor; [lra|done].
  - apply elem_of_cons in Hin as [Hin|Hin]; [|by do 2 right].
    rewrite Hin. destruct (Qmin_cases x y) as [[-> _]|[-> _]]; [by left|by right; left].
Qed.

Lemma max_of_spec (l : list Q) :
  forall x : Q,
    Forall (fun y => (y <= max_of x l)%Q) (x :: l) /\ max_of x l ∈ x :: l.
Proof.
  unfold max_of. induction l as [|y l IH]; intros x; cbn [foldl].
  { split; [constructor; [apply Qle_refl|constructor]|by left]. }
  destruct (IH (Qmax x y)) as [Hall Hin].
  apply Forall_cons in Hall as [Hhd Hall]. split.
  - assert (x <= Qmax x y /\ y <= Qmax x y)%Q as [Hx Hy]
      by (destruct (Qmax_cases x y) as [[-> ?]|[-> ?]]; lra).
    constructor; [lra|]. constructor; [lra|done].
  - apply elem_of_cons in Hin as [Hin|Hin]; [|by do 2 right].
    rewrite Hin. destruct (Qmax_cases x y) as [[-> _]|[-> _]]; [by left|by right; left].
Qed.

Lemma sum_of_bounds (lo hi : Q) (l : list Q) :
  Forall (fun y => (lo <= y <= hi)%Q) l ->
  (lo * inject_Z (Z.of_nat (length l)) <= sum_of l
   <= hi * inject_Z (Z.of_nat (length l)))%Q.
Proof.
  intros Hall. unfold sum_of.
  assert (forall acc,
            (acc + lo * inject_Z (Z.of_nat (length l)) <= foldl Qplus acc l
             <= acc + hi * inject_Z (Z.of_nat (length l)))%Q) as H.
  { induction Hall as [|y l [Hlo Hhi] Hall IH]; intros acc; cbn [foldl length].
    - change (inject_Z (Z.of_nat 0)) with 0%Q. lra.
    - specialize (IH (acc + y)%Q).
      rewrite Nat2Z.inj_succ, <- Z.add_1_r, inject_Z_plus.
      change (inject_Z 1) with 1%Q. lra. }
  specialize (H 0%Q). lra.
Qed.

Lemma average_bounds (lo hi : Q) (x : Q) (l : list Q) :
  Forall (fun y => (lo <= y <= hi)%Q) (x :: l) ->
  (lo <= sum_of (x :: l) / inject_Z (Z.of_nat (length (x :: l))) <= hi)%Q.
Proof.
  intros Hall. pose proof (sum_of_bounds lo hi (x :: l) Hall) as [Hlo Hhi].
  set (n := inject_Z (Z.of_nat (length (x :: l)))) in *.
  assert (0 < n)%Q as Hn.
  { subst n. change 0%Q with (inject_Z 0). rewrite <- Zlt_Qlt. cbn [length]. lia. }
  split.
  - apply Qle_shift_div_l; [done|lra].
  - apply Qle_shift_div_r; [done|lra].
Qed.

Lemma last_elem_of {A} (l : list A) (x : A) : List.last l x ∈ x :: l.
Proof.
  destruct l as [|y l]; [by left|]. right. revert y.
  induction l as [|z l IH]; intros y; [by left|].
  right. apply (IH z).
Qed.

Lemma recent_nonempty (cutoff_time : Z) (data : list WeatherReading.t)
    (first : WeatherReading.t) (rest : list WeatherReading.t) :
  recent cutoff_time data = first :: rest -> data <> [].
Proof. by intros H ->. Qed.

Section AnalysisProperties.

Variable float_str : Q -> string.

Lemma get_weather_analysis_statistics (hours_back : pyval) (c : clock)
    (s : WeatherMonitoringAgent) (cutoff_time : Z) (first : WeatherReading.t)
    (rest : list WeatherReading.t) :
  cutoff hours_back c = Some cutoff_time ->
  recent cutoff_time (weather_data s) = first :: rest ->
  get_weather_analysis float_str hours_back c s
  = Some (statistics float_str hours_back first rest (length (active_alerts s))).
Proof.
  intros Hcut Hrecent. unfold get_weather_analysis.
  destruct (weather_data s) as [|r data] eqn:Hdata; [done|].
  rewrite Hcut. cbn [mbind option_bind]. by rewrite Hrecent.
Qed.

(** X20.  The statistics of an analysis over a period with readings:
    the number of data points is the number of readings of the period;
    minimum and maximum temperature are temperatures of readings of the
    period and bound every temperature of the period, the current one
    included, which is that of the last reading; the average, rounded to
    one decimal, lies between any bounds with one decimal that hold for
    all readings; the hours with precipitation are at most the data
    points; and the number of active alerts is that of the agent,
    whatever the period. *)
Theorem analysis_statistics (hours_back : pyval) (c : clock)
    (s : WeatherMonitoringAgent) (cutoff_time : Z) (first : WeatherReading.t)
    (rest : list WeatherReading.t) :
  cutoff hours_back c = Some cutoff_time ->
  recent cutoff_time (weather_data s) = first :: rest ->
  exists a tmin tmax avg wet,
    get_weather_analysis float_str hours_back c s = Some a /\
    a !! "error" = None /\
    a !! "data_points" = Some (VInt (Z.of_nat (length (first :: rest)))) /\
    a !! "alerts_active" = Some (VInt (Z.of_nat (length (active_alerts s)))) /\
    analysis_entry "temperature" "min" a = Some (VFloat tmin) /\
    analysis_entry "temperature" "max" a = Some (VFloat tmax) /\
    analysis_entry "temperature" "avg" a = Some (VFloat avg) /\
    analysis_entry "temperature" "current" a
    = Some (VFloat (WeatherReading.temperature_f (List.last rest first))) /\
    analysis_entry "precipitation" "hours_with_precip" a = Some (VInt wet) /\
    (exists reading,
       reading ∈ first :: rest /\ WeatherReading.temperature_f reading = tmin) /\
    (exists reading,
       reading ∈ first :: rest /\ WeatherReading.temperature_f reading = tmax) /\
    Forall (fun reading =>
              (tmin <= WeatherReading.temperature_f reading <= tmax)%Q)
           (first :: rest) /\
    (tmin <= WeatherReading.temperature_f (List.last rest first) <= tmax)%Q /\
    (forall lo hi : Z,
       Forall (fun reading =>
                 (inject_Z lo / 10 <= WeatherReading.temperature_f reading
                  <= inject_Z hi / 10)%Q) (first :: rest) ->
       (inject_Z lo / 10 <= avg <= inject_Z hi / 10)%Q) /\
    (0 <= wet <= Z.of_nat (length (first :: rest)))%Z.
Proof.
  intros Hcut Hrecent.
  rewrite (get_weather_analysis_statistics _ _ _ _ _ _ Hcut Hrecent).
  eexists _, _, _, _, _. split; [reflexivity|].
  split; [done|]. split; [done|]. split; [done|].
  split; [reflexivity|]. split; [reflexivity|]. split; [reflexivity|].
  split; [reflexivity|]. split; [reflexivity|].
  destruct (min_of_spec (WeatherReading.temperature_f <$> rest)
              (WeatherReading.temperature_f first)) as [Hmin Hmin_in].
  destruct (max_of_spec (WeatherReading.temperature_f <$> rest)
              (WeatherReading.temperature_f first)) as [Hmax Hmax_in].
  change (WeatherReading.temperature_f first :: (WeatherReading.temperature_f <$> rest))
    with (WeatherReading.temperature_f <$> first :: rest) in *.
  assert (Forall (fun reading =>
                    (min_of (WeatherReading.temperature_f first)
                       (WeatherReading.temperature_f <$> rest)
                     <= WeatherReading.temperature_f reading
                     <= max_of (WeatherReading.temperature_f first)
                          (WeatherReading.temperature_f <$> rest))%Q)
                 (first :: rest)) as Hall.
  { rewrite Forall_fmap in Hmin, Hmax. rewrite Forall_forall in *.
    intros reading Hin. split; [by apply Hmin|by apply Hmax]. }
  split; [apply list_elem_of_fmap in Hmin_in as (r & -> & Hr); by exists r|].
  split; [apply list_elem_of_fmap in Hmax_in as (r & -> & Hr); by exists r|].
  split; [done|].
  split; [rewrite Forall_forall in Hall; apply Hall, last_elem_of|].
  split.
  - intros lo hi Hbounds.
    assert (inject_Z lo / 10 <= sum_of (WeatherReading.temperature_f <$> first :: rest)
                                / inject_Z (Z.of_nat (length (first :: rest)))
            <= inject_Z hi / 10)%Q as [Hlo Hhi].
    { rewrite <- (length_fmap WeatherReading.temperature_f (first :: rest)).
      rewrite fmap_cons.
      apply (average_bounds _ _ (WeatherReading.temperature_f first)
               (WeatherReading.temperature_f <$> rest)).
      apply Forall_cons in Hbounds as [Hfirst Hrest].
      constructor; [exact Hfirst|by apply Forall_fmap]. }
    split; [by apply (round_ge lo 1)|by apply (round_le hi 1)].
  - split; [lia|]. apply inj_le.
    rewrite <- (length_fmap WeatherReading.precipitation_inches (first :: rest)).
    apply length_filter.
Qed.

End AnalysisProperties.

Lemma analysis_statistics_witness :
  exists a,
    get_weather_analysis plain_float_str (VInt 24) two_pm
      (set_weather_data [hot_reading] simulated_agent) = Some a /\
    a !! "data_points" = Some (VInt 1).
Proof.
  destruct (analysis_statistics plain_float_str (VInt 24) two_pm
              (set_weather_data [hot_reading] simulated_agent)
              (now two_pm - hours 24)%Z hot_reading [])
    as (a & tmin & tmax & avg & wet & Ha & _ & Hpoints & _).
  - apply cutoff_hours; vm_compute; split; discriminate.
  - reflexivity.
  - by exists a.
Defined.

Lemma conditions_summary_fold (data : list WeatherReading.t) (label : string) :
  forall acc : gmap string Z,
    foldl (fun conditions_count reading =>
             let condition := WeatherReading.conditions reading in
             <[condition := (default 0 (conditions_count !! condition) + 1)%Z]>
               conditions_count)
          acc data !! label
    = match acc !! label, occurrences label data with
      | None, O => None
      | count, k => Some (default 0 count + Z.of_nat k)%Z
      end.
Proof.
  unfold occurrences.
  induction data as [|reading data IH]; intros acc; cbn [foldl].
  { cbn. destruct (acc !! label) as [count|]; [f_equal; unfold id; lia|done]. }
  rewrite IH. cbn zeta. rewrite filter_cons.
  destruct (decide (WeatherReading.conditions reading = label)) as [->|Hne].
  - rewrite lookup_insert_eq. cbn [length default].
    destruct (acc !! label) as [count|]; cbn [default]; f_equal; unfold id; lia.
  - rewrite lookup_insert_ne by done. done.
Qed.

Lemma total_insert (m : gmap string Z) (key : string) (count : Z) :
  map_fold (fun _ => Z.add) 0%Z (<[key := count]> m)
  = (map_fold (fun _ => Z.add) 0%Z m - default 0 (m !! key) + count)%Z.
Proof.
  assert (forall (m' : gmap string Z) (v : Z), m' !! key = None ->
            map_fold (fun _ => Z.add) 0%Z (<[key := v]> m')
            = (v + map_fold (fun _ => Z.add) 0%Z m')%Z) as Hfresh.
  { intros m' v Hm'. apply (map_fold_insert_L (fun _ => Z.add)); [|done].
    intros. lia. }
  destruct (m !! key) as [old|] eqn:E; cbn [default]; unfold id.
  - pose proof (Hfresh (delete key m) count (lookup_delete_eq m key)) as H1.
    pose proof (Hfresh (delete key m) old (lookup_delete_eq m key)) as H2.
    rewrite insert_delete_eq in H1. rewrite (insert_delete_id m key old E) in H2. lia.
  - rewrite Hfresh by done. lia.
Qed.

(** X21.  The summary of conditions counts every reading once: a label
    is a key of the summary exactly when a reading has it, its value is
    the number of the readings that have it, and the values add up to
    the number of readings. *)
Theorem conditions_summary_counts (data : list WeatherReading.t) :
  (forall label,
     _get_conditions_summary data !! label
     = if decide (occurrences label data = 0%nat) then None
       else Some (Z.of_nat (occurrences label data))) /\
  map_fold (fun _ => Z.add) 0%Z (_get_conditions_summary data)
  = Z.of_nat (length data).
Proof.
  split.
  - intros label. unfold _get_conditions_summary.
    rewrite conditions_summary_fold, lookup_empty.
    destruct (occurrences label data); [done|].
    rewrite decide_False by done. done.
  - unfold _get_conditions_summary.
    assert (forall acc : gmap string Z,
              map_fold (fun _ => Z.add) 0%Z
                (foldl (fun conditions_count reading =>
                          let condition := WeatherReading.conditions reading in
                          <[condition :=
                              (default 0 (conditions_count !! condition) + 1)%Z]>
                            conditions_count) acc data)
              = (map_fold (fun _ => Z.add) 0%Z acc + Z.of_nat (length data))%Z) as H.
    { induction data as [|reading data IH]; intros acc; cbn [foldl length]; [lia|].
      rewrite IH. cbn zeta. rewrite total_insert. lia. }
    rewrite H, map_fold_empty. lia.
Qed.

(** X22.  When an analysis fails.  With an empty history the analysis
    is the error [No weather data available] whatever the period asked
    for, even one that is no number; with readings in the history, a
    period that is no number raises; and a period without readings
    gives an error that names the period.  The request handler answers
    an error like an analysis, in the [analysis] entry of its
    response. *)
Theorem analysis_errors (float_str : Q -> string) (hours_back : pyval) (c : clock)
    (s : WeatherMonitoringAgent) :
  (weather_data s = [] ->
   get_weather_analysis float_str hours_back c s
   = Some (<["error" := VStr "No weather data available"]> ∅)) /\
  (weather_data s <> [] -> as_number hours_back = None ->
   get_weather_analysis float_str hours_back c s = None) /\
  (forall cutoff_time,
     weather_data s <> [] -> cutoff hours_back c = Some cutoff_time ->
     Forall (fun reading => (WeatherReading.timestamp reading <= cutoff_time)%Z)
            (weather_data s) ->
     get_weather_analysis float_str hours_back c s
     = Some (<["error" :=
                 VStr ("No data available for last "
                       +:+ str_of_number float_str hours_back +:+ " hours")]> ∅)) /\
  (forall (message : CrossLanguageMessage.t) (p : gmap string pyval)
          (a : gmap string pyval),
     CrossLanguageMessage.payload message = VDict p ->
     p !! "hours_back" = Some hours_back ->
     get_weather_analysis float_str hours_back c s = Some a ->
     exists s' m,
       handle_weather_analysis_request float_str message c s = Some s' /\
       outbox s' = outbox s ++ [m] /\
       CrossLanguageMessage.type m = "weather_analysis_response" /\
       payload_entry "analysis" m = Some (VDict a) /\
       payload_keys m = {[ "location"; "analysis" ]} /\
       weather_data s' = weather_data s).
Proof.
  unfold get_weather_analysis. split; [by intros ->|]. split; [|split].
  - intros Hdata Hnan. destruct (weather_data s); [done|].
    by rewrite (cutoff_not_a_number _ _ Hnan).
  - intros cutoff_time Hdata Hcut Hold. destruct (weather_data s) as [|r data]; [done|].
    rewrite Hcut. cbn [mbind option_bind].
    destruct (recent cutoff_time (r :: data)) as [|first rest] eqn:Hrecent; [done|].
    assert (first ∈ recent cutoff_time (r :: data)) as Hin by (rewrite Hrecent; by left).
    apply elem_of_recent in Hin as [Hin Hnew].
    rewrite Forall_forall in Hold. specialize (Hold first Hin). lia.
  - intros message p a Hp Hhours Ha.
    unfold handle_weather_analysis_request, payload_get. rewrite Hp, Hhours.
    cbn [mbind option_bind from_option id].
    unfold get_weather_analysis. rewrite Ha. cbn [mbind option_bind].
    eexists _, _. split; [reflexivity|]. split; [done|]. split; [done|].
    split; [done|]. split; [|done].
    unfold payload_keys, response. cbn.
    rewrite !dom_insert_L, dom_empty_L. set_solver.
Qed.

Lemma analysis_errors_witness :
  get_weather_analysis plain_float_str (VStr "a day") two_pm simulated_agent
  = Some (<["error" := VStr "No weather data available"]> ∅).
Proof.
  by destruct (analysis_errors plain_float_str (VStr "a day") two_pm simulated_agent)
    as [Hempty _]; apply Hempty.
Defined.

(** ** Processing messages *)

Lemma send_message_bookkeeping (message : CrossLanguageMessage.t)
    (s : WeatherMonitoringAgent) :
  bookkeeping (send_message message s) = bookkeeping s.
Proof. done. Qed.

Lemma check_weather_alerts_bookkeeping (float_str : Q -> string)
    (reading : WeatherReading.t) (c : clock) (s s' : WeatherMonitoringAgent) :
  _check_weather_alerts float_str reading c s = Some s' ->
  bookkeeping s' = bookkeeping s.
Proof.
  unfold _check_weather_alerts.
  destruct (alerts_generated _ _ _ _) as [alerts|]; [|done].
  cbn [mbind option_bind]. intros [= <-].
  change (bookkeeping (set_active_alerts ?l ?s0)) with (bookkeeping s0).
  revert s. induction alerts as [|alert alerts IH]; intros s; [done|].
  cbn [foldl]. by rewrite IH.
Qed.

Lemma check_noaa_alerts_bookkeeping (poll : option (list NOAAAlert.t)) (c : clock)
    (s : WeatherMonitoringAgent) :
  bookkeeping (_check_noaa_alerts poll c s) = bookkeeping s.
Proof.
  unfold _check_noaa_alerts. destruct (negb _); [done|].
  destruct poll as [current|]; [|done].
  change (bookkeeping s) with (bookkeeping (set_noaa_alerts current s)).
  generalize (set_noaa_alerts current s).
  induction (new_alerts (noaa_alerts s) current) as [|alert alerts IH]; intros s0;
    [done|].
  cbn [foldl]. by rewrite IH.
Qed.

Lemma stop_weather_monitoring_bookkeeping (s : WeatherMonitoringAgent)
    (r : bool * WeatherMonitoringAgent) :
  stop_weather_monitoring s = Some r -> bookkeeping r.2 = bookkeeping s.
Proof.
  intros Hstop. destruct (stop_weather_monitoring_frame s r Hstop) as [Hbase _].
  unfold bookkeeping. by rewrite Hbase.
Qed.

Lemma acquire_reading_bookkeeping (env : cycle_env) (c : clock)
    (s : WeatherMonitoringAgent) :
  bookkeeping (acquire_reading env c s).2 = bookkeeping s.
Proof.
  unfold acquire_reading, simulate.
  destruct (WeatherSimulator.generate_hourly_reading _ _ _ _) as [r sim].
  destruct (_ && _); [destruct (fetch_weather env) as [[?|]|]|]; done.
Qed.

(** No operation of the weather agent touches the bookkeeping of the
    base class: identity, counters, running flag and handler table. *)
Lemma step_bookkeeping (float_str : Q -> string) (s : WeatherMonitoringAgent)
    (op : operation) :
  bookkeeping (step float_str s op) = bookkeeping s.
Proof.
  destruct op as [c|d| | |env c|reading c|poll c|reading c|message c|message c
                 |message c|fd message c|message c|message c|message c|env message c];
    cbn [step].
  - done.
  - unfold start_weather_monitoring. by destruct (monitoring_active s).
  - destruct (stop_weather_monitoring s) as [r|] eqn:E; cbn; [|done].
    by apply stop_weather_monitoring_bookkeeping.
  - unfold cleanup. destruct (monitoring_active s); cbn.
    + destruct (stop_weather_monitoring s) as [r|] eqn:E; cbn; [|done].
      apply stop_weather_monitoring_bookkeeping in E.
      by destruct (is_some _).
    + by destruct (is_some _).
  - unfold monitoring_cycle.
    pose proof (acquire_reading_bookkeeping env c s) as Hacq.
    destruct (acquire_reading env c s) as [reading s1]. cbn [snd] in Hacq.
    destruct (_check_weather_alerts _ _ _ _) as [s2|] eqn:Hcheck; cbn [fst].
    + apply check_weather_alerts_bookkeeping in Hcheck.
      unfold _broadcast_weather_update.
      by rewrite send_message_bookkeeping, check_noaa_alerts_bookkeeping, Hcheck.
    + done.
  - destruct (_check_weather_alerts _ _ _ _) as [s2|] eqn:Hcheck; cbn; [|done].
    by apply check_weather_alerts_bookkeeping in Hcheck.
  - apply check_noaa_alerts_bookkeeping.
  - done.
  - unfold handle_start_monitoring.
    destruct (payload_get _ _ _) as [duration|]; cbn; [|done].
    unfold start_weather_monitoring. by destruct (monitoring_active s).
  - unfold handle_stop_monitoring.
    destruct (stop_weather_monitoring s) as [[success s1]|] eqn:E; cbn; [|done].
    by apply stop_weather_monitoring_bookkeeping in E.
  - done.
  - unfold handle_get_weather_forecast.
    destruct (payload_get _ _ _) as [hours_ahead|]; cbn; [|done].
    destruct (as_index hours_ahead) as [n|]; cbn; [|done].
    by destruct (foldl _ _ _).
  - done.
  - unfold handle_update_alert_thresholds.
    by destruct (payload_get _ _ _) as [[| | | | | | |new]|].
  - done.
  - unfold handle_refresh_noaa_data.
    destruct (noaa_enabled s); [|done].
    destruct (refresh_weather env) as [[noaa_reading|]|]; [| |done].
    + by rewrite send_message_bookkeeping, check_noaa_alerts_bookkeeping.
    + by rewrite send_message_bookkeeping, check_noaa_alerts_bookkeeping.
Qed.

Lemma run_bookkeeping (float_str : Q -> string) (ops : list operation) :
  forall s : WeatherMonitoringAgent, bookkeeping (run float_str s ops) = bookkeeping s.
Proof.
  unfold run. induction ops as [|op ops IH]; intros s; [done|].
  cbn [foldl]. by rewrite IH, step_bookkeeping.
Qed.

Lemma run_handlers (float_str : Q -> string) (c : clock) (available : bool)
    (agent_id loc : string) (real : bool) (ops : list operation) :
  BaseAgent.message_handlers (base (run float_str (init c available agent_id loc real) ops))
  = register_weather_handlers (BaseAgent.register_default_handlers ∅).
Proof.
  pose proof (run_bookkeeping float_str ops (init c available agent_id loc real)) as H.
  unfold bookkeeping in H. cbn zeta in H. by injection H as _ _ _ _ _ _ _ _ -> _.
Qed.

Section Processing.

Variable float_str : Q -> string.

(** X23.  A message of a type without handler is answered with one
    error, broadcast at high priority, that names the type but not the
    message: its [correlationId] is null.  The error is not counted, and
    nothing but the time of the last activity changes.  The agent has
    no handler for any of the types it broadcasts itself, the error
    included: a broadcast of one weather agent that reaches another is
    answered with an error broadcast. *)
Theorem unknown_message_type (env : message_env) (message : CrossLanguageMessage.t)
    (c : clock) (s : WeatherMonitoringAgent) :
  (BaseAgent.message_handlers (base s) !! CrossLanguageMessage.type message = None ->
   exists m,
     outbox (process_message float_str env message c s) = outbox s ++ [m] /\
     CrossLanguageMessage.type m = "error" /\
     CrossLanguageMessage.destination m = BaseAgent.broadcast /\
     payload_entry "error" m
     = Some (VStr ("Unknown message type: " +:+ CrossLanguageMessage.type message)) /\
     correlation_id_of m = Some VNone /\
     priority_of m = Some (VStr "high") /\
     BaseAgent.error_count (base (process_message float_str env message c s))
     = BaseAgent.error_count (base s) /\
     BaseAgent.last_heartbeat (base (process_message float_str env message c s))
     = now c /\
     weather_state (process_message float_str env message c s) = weather_state s) /\
  (forall (c0 : clock) (available : bool) (agent_id loc : string) (real : bool)
          (ops : list operation),
     s = run float_str (init c0 available agent_id loc real) ops ->
     CrossLanguageMessage.type message ∈ broadcast_types ->
     BaseAgent.message_handlers (base s) !! CrossLanguageMessage.type message = None).
Proof.
  split.
  - intros Hnone. unfold process_message.
    cbn [base set_base BaseAgent.message_handlers set_last_heartbeat].
    rewrite Hnone. eexists. split; [reflexivity|]. by repeat split.
  - intros c0 available agent_id loc real ops -> Hin. rewrite run_handlers.
    apply not_elem_of_dom. rewrite register_weather_handlers_dom.
    unfold BaseAgent.register_default_handlers. rewrite !dom_insert_L, dom_empty_L.
    unfold broadcast_types in Hin. set_unfold. destruct_or!; subst; try done;
      rewrite Hin; intros H; destruct_or!; discriminate.
Qed.




(** X25.  The handlers of the base class, on an agent as [__init__]
    made it and after any operations: a ping is answered to its sender
    by a pong that names the message; a heartbeat request is answered by
    a heartbeat that is broadcast at low priority and names no message; a
    shutdown clears the running flag and sends nothing; a status request
    is answered to its sender with the identity of the agent and the
    time of this request as the last activity. *)
Theorem default_handlers (env : message_env) (message : CrossLanguageMessage.t)
    (c c0 : clock) (available : bool) (agent_id loc : string) (real : bool)
    (ops : list operation) :
  let s := run float_str (init c0 available agent_id loc real) ops in
  let s' := process_message float_str env message c s in
  (CrossLanguageMessage.type message = "ping" ->
   exists m,
     outbox s' = outbox s ++ [m] /\
     CrossLanguageMessage.type m = "pong" /\
     CrossLanguageMessage.destination m = CrossLanguageMessage.source message /\
     correlation_id_of m = Some (VStr (CrossLanguageMessage.id message)) /\
     payload_entry "original_message_id" m
     = Some (VStr (CrossLanguageMessage.id message))) /\
  (CrossLanguageMessage.type message = "heartbeat_request" ->
   exists m,
     outbox s' = outbox s ++ [m] /\
     CrossLanguageMessage.type m = "heartbeat" /\
     CrossLanguageMessage.destination m = BaseAgent.broadcast /\
     correlation_id_of m = None /\
     priority_of m = Some (VStr "low") /\
     payload_entry "uptime" m = Some (VFloat (inject_Z (now c - now c0) / 1000000))) /\
  (CrossLanguageMessage.type message = "shutdown" ->
   outbox s' = outbox s /\ BaseAgent.is_running (base s') = false /\
   weather_state s' = weather_state s) /\
  (CrossLanguageMessage.type message = "get_status" ->
   exists m,
     outbox s' = outbox s ++ [m] /\
     CrossLanguageMessage.type m = "status_response" /\
     CrossLanguageMessage.destination m = CrossLanguageMessage.source message /\
     payload_entry "agent_id" m = Some (VStr agent_id) /\
     payload_entry "last_heartbeat" m = Some (VTime (now c)) /\
     payload_entry "started_at" m = Some (VTime (now c0))).
Proof.
  cbn zeta.
  pose proof (run_handlers float_str c0 available agent_id loc real ops) as Hh.
  pose proof (run_bookkeeping float_str ops (init c0 available agent_id loc real)) as Hb.
  set (s := run float_str (init c0 available agent_id loc real) ops) in *.
  clearbody s. unfold bookkeeping in Hb. cbn zeta in Hb.
  injection Hb as Hid Hname Hversion Hstarted Hlast Hcount Herr Hrun _ Hstate.
  cbn in Hid, Hname, Hversion, Hstarted, Hlast, Hcount, Herr, Hrun.
  unfold process_message.
  cbn [base set_base BaseAgent.message_handlers set_last_heartbeat]. rewrite Hh.
  repeat apply conj.
  - intros ->. eexists. split; [reflexivity|]. by repeat split.
  - intros ->. eexists. split; [reflexivity|]. repeat (split; [done|]).
    rewrite <- Hstarted. done.
  - intros ->. by repeat split.
  - intros ->. eexists. split; [reflexivity|]. repeat (split; [done|]).
    rewrite <- Hid, <- Hstarted. by repeat split.
Qed.

End Processing.

Lemma unknown_message_type_witness :
  exists m,
    outbox (process_message plain_float_str offline
              (request "weather_update" (VDict ∅)) two_pm simulated_agent)
    = outbox simulated_agent ++ [m] /\
    CrossLanguageMessage.type m = "error".
Proof.
  destruct (unknown_message_type plain_float_str offline
              (request "weather_update" (VDict ∅)) two_pm simulated_agent)
    as [Hunknown Hown].
  destruct Hunknown as (m & Hout & Htype & _).
  - apply (Hown two_pm true "weather-1" "Boise, ID" false []); [reflexivity|].
    by apply list_elem_of_lookup_2 with 1%nat.
  - by exists m.
Defined.


Lemma default_handlers_witness :
  exists m,
    outbox (process_message plain_float_str offline (request "ping" VNone) two_pm
              simulated_agent)
    = outbox simulated_agent ++ [m] /\
    CrossLanguageMessage.type m = "pong".
Proof.
  destruct (default_handlers plain_float_str offline (request "ping" VNone) two_pm
              two_pm true "weather-1" "Boise, ID" false []) as [Hping _].
  destruct (Hping eq_refl) as (m & Hout & Htype & _). by exists m.
Defined.

(** ** Initialisation *)

Lemma configure_frame (env : init_env) (s : WeatherMonitoringAgent) :
  let s' := configure env s in
  base s' = base s /\ NOAA_AVAILABLE s' = NOAA_AVAILABLE s /\
  location s' = location s /\ simulator s' = simulator s /\
  weather_data s' = weather_data s /\ active_alerts s' = active_alerts s /\
  noaa_alerts s' = noaa_alerts s /\ monitoring_active s' = monitoring_active s /\
  alert_thresholds s' = alert_thresholds s.
Proof.
  cbn zeta. unfold configure.
  destruct (use_real_weather s && NOAA_AVAILABLE s);
    [|by destruct (use_real_weather s && negb (NOAA_AVAILABLE s))].
  destruct (session_opens env); [|done].
  cbn [location set_noaa_service].
  destruct (split (location s)) as [|city [|state [|? ?]]]; try done.
  destruct (geocode_city_state city state); [|done].
  destruct (location_info env) as [[loc|]|]; done.
Qed.

Lemma configure_mode (env : init_env) (s : WeatherMonitoringAgent) :
  let s' := configure env s in
  (use_real_weather s' = true <->
   use_real_weather s = true /\ NOAA_AVAILABLE s = true /\ session_opens env = true /\
   (exists city state,
      split (location s) = [city; state] /\ is_Some (geocode_city_state city state)) /\
   exists loc, location_info env = Some (Some loc)) /\
  (use_real_weather s' = true ->
   is_Some (noaa_service s') /\ location_info env = Some (noaa_location s') /\
   is_Some (noaa_location s')).
Proof.
  cbn zeta. unfold configure.
  assert (forall s0 : WeatherMonitoringAgent,
            use_real_weather s0 = false ->
            ~ (use_real_weather s = true /\ NOAA_AVAILABLE s = true /\
               session_opens env = true /\
               (exists city state,
                  split (location s) = [city; state] /\
                  is_Some (geocode_city_state city state)) /\
               exists loc, location_info env = Some (Some loc)) ->
            (use_real_weather s0 = true <->
             use_real_weather s = true /\ NOAA_AVAILABLE s = true /\
             session_opens env = true /\
             (exists city state,
                split (location s) = [city; state] /\
                is_Some (geocode_city_state city state)) /\
             exists loc, location_info env = Some (Some loc)) /\
            (use_real_weather s0 = true ->
             is_Some (noaa_service s0) /\ location_info env = Some (noaa_location s0) /\
             is_Some (noaa_location s0))) as Hoff.
  { intros s0 Hs0 Hnot. rewrite Hs0. split; [split; [done|by intros ?]|done]. }
  destruct (use_real_weather s) eqn:Hreal; cbn [andb];
    [|apply Hoff; [done|by intros [? _]]].
  destruct (NOAA_AVAILABLE s) eqn:Ha; cbn [negb];
    [|apply Hoff; [done|by intros (_ & ? & _)]].
  destruct (session_opens env) eqn:Hopen;
    [|apply Hoff; [done|by intros (_ & _ & ? & _)]].
  cbn [location set_noaa_service].
  destruct (split (location s)) as [|city [|state [|? ?]]] eqn:Hsplit;
    try (apply Hoff; [done|by intros (_ & _ & _ & (? & ? & ? & _) & _)]).
  destruct (geocode_city_state city state) as [coords|] eqn:Hgeo.
  2: { apply Hoff; [done|].
       intros (_ & _ & _ & (city' & state' & [= <- <-] & [? Hgeo']) & _). congruence. }
  destruct (location_info env) as [[loc|]|] eqn:Hinfo.
  - cbn [is_some]. split; [|by intros _; repeat split; eauto]. split; [|done]. intros _.
    repeat (split; [done|]). split; [by exists city, state; eauto|by eexists].
  - apply Hoff; [done|by intros (_ & _ & _ & _ & ? & ?)].
  - apply Hoff; [done|by intros (_ & _ & _ & _ & ? & ?)].
Qed.

Lemma new_alerts_cached (alerts : list NOAAAlert.t) : new_alerts alerts alerts = [].
Proof.
  destruct (new_alerts alerts alerts) as [|alert rest] eqn:E; [done|].
  assert (alert ∈ new_alerts alerts alerts) as Hin by (rewrite E; by left).
  apply elem_of_new_alerts in Hin as [Hin Hnew].
  destruct Hnew. apply list_elem_of_fmap. by exists alert.
Qed.

(** X26.  [initialize] never raises and sends nothing.  It puts exactly
    one reading into the history.  The agent is in live mode afterwards
    exactly when it was asked to be, the NOAA module is available, the
    session of the service opened, the location name has the form
    [city, state] with an entry in the table of [geocode_city_state],
    and the provider returned the location; in live mode, service and
    location are set, so that advisories are enabled exactly in live
    mode.  The advisories active at the start are cached without being
    broadcast, and a first poll that returns the same advisories
    broadcasts none of them. *)
Theorem initialize_selects_mode (env : init_env) (c : clock)
    (s : WeatherMonitoringAgent) :
  let s' := initialize env c s in
  (exists reading, weather_data s' = weather_data s ++ [reading]) /\
  outbox s' = outbox s /\
  (use_real_weather s' = true <->
   use_real_weather s = true /\ NOAA_AVAILABLE s = true /\ session_opens env = true /\
   (exists city state,
      split (location s) = [city; state] /\ is_Some (geocode_city_state city state)) /\
   exists loc, location_info env = Some (Some loc)) /\
  noaa_enabled s' = use_real_weather s' /\
  (use_real_weather s' = false ->
   noaa_alerts s' = noaa_alerts s /\
   weather_data s'
   = weather_data s
     ++ [(WeatherSimulator.generate_hourly_reading (simulator s) c 0
            (initial_draws env)).1]) /\
  (forall alerts (c' : clock),
     use_real_weather s' = true -> initial_alerts env = Some alerts ->
     noaa_alerts s' = alerts /\
     outbox (_check_noaa_alerts (Some alerts) c' s') = outbox s').
Proof.
  cbn zeta. unfold initialize.
  destruct (configure_frame env s)
    as (Hbase & Ha & Hl & Hsim & Hd & _ & Hn & _). cbn zeta in *.
  destruct (configure_mode env s) as [Hmode Hlive]. cbn zeta in *.
  set (s0 := configure env s) in *. clearbody s0.
  destruct (use_real_weather s0) eqn:Hreal.
  - destruct (Hlive eq_refl) as ([svc Hsvc] & Hinfo & [loc Hloc]).
    rewrite Hsvc, Hloc. cbn [andb is_some].
    assert (forall s1 : WeatherMonitoringAgent,
              use_real_weather s1 = true -> noaa_service s1 = Some svc ->
              noaa_location s1 = Some loc -> NOAA_AVAILABLE s1 = NOAA_AVAILABLE s ->
              base s1 = base s ->
              (exists reading, weather_data s1 = weather_data s ++ [reading]) ->
              let s' :=
                if use_real_weather s1 && is_some (noaa_service s1)
                   && is_some (noaa_location s1)
                then match initial_alerts env with
                     | Some noaa_alerts => set_noaa_alerts noaa_alerts s1
                     | None => s1
                     end
                else s1 in
              (exists reading, weather_data s' = weather_data s ++ [reading]) /\
              outbox s' = outbox s /\
              (use_real_weather s' = true <->
               use_real_weather s = true /\ NOAA_AVAILABLE s = true /\
               session_opens env = true /\
               (exists city state,
                  split (location s) = [city; state] /\
                  is_Some (geocode_city_state city state)) /\
               exists loc, location_info env = Some (Some loc)) /\
              noaa_enabled s' = use_real_weather s' /\
              (use_real_weather s' = false ->
               noaa_alerts s' = noaa_alerts s /\
               weather_data s'
               = weather_data s
                 ++ [(WeatherSimulator.generate_hourly_reading (simulator s) c 0
                        (initial_draws env)).1]) /\
              (forall alerts (c' : clock),
                 use_real_weather s' = true -> initial_alerts env = Some alerts ->
                 noaa_alerts s' = alerts /\
                 outbox (_check_noaa_alerts (Some alerts) c' s') = outbox s')) as Hrest.
    { intros s1 Hr1 Hs1 Hl1 Ha1 Hb1 Hd1. cbn zeta.
      rewrite Hr1, Hs1, Hl1. cbn [andb is_some].
      assert (NOAA_AVAILABLE s = true) as Hav by (by apply Hmode).
      destruct (initial_alerts env) as [alerts|] eqn:Halerts.
      - split; [done|]. split; [unfold outbox; cbn; by rewrite Hb1|].
        split; [by cbn; rewrite Hr1|].
        split; [unfold noaa_enabled; cbn; by rewrite Hr1, Hs1, Hl1, Ha1, Hav|].
        split; [cbn; by rewrite Hr1|].
        intros alerts' c' _ [= <-]. split; [done|].
        unfold _check_noaa_alerts, noaa_enabled. cbn.
        rewrite Hr1, Hs1, Hl1, Ha1, Hav. cbn. by rewrite new_alerts_cached.
      - split; [done|]. split; [unfold outbox; by rewrite Hb1|].
        split; [by rewrite Hr1|].
        split; [unfold noaa_enabled; by rewrite Hr1, Hs1, Hl1, Ha1, Hav|].
        split; [by rewrite Hr1|]. by intros alerts' c' _ [=]. }
    assert (forall s1 : WeatherMonitoringAgent,
              s1 = (let '(initial_reading, sim) :=
                      WeatherSimulator.generate_hourly_reading (simulator s0) c 0
                        (initial_draws env) in
                    set_weather_data (weather_data s0 ++ [initial_reading])
                      (set_simulator sim s0)) ->
              use_real_weather s1 = true /\ noaa_service s1 = Some svc /\
              noaa_location s1 = Some loc /\ NOAA_AVAILABLE s1 = NOAA_AVAILABLE s /\
              base s1 = base s /\
              exists reading, weather_data s1 = weather_data s ++ [reading]) as Hsimulated.
    { intros s1 ->.
      destruct (WeatherSimulator.generate_hourly_reading _ _ _ _) as [r sim].
      cbn. rewrite Hd. by eauto 10. }
    destruct (initial_weather env) as [[noaa_reading|]|].
    + apply Hrest; cbn; try done. rewrite Hd. by eexists.
    + destruct (Hsimulated _ eq_refl) as (? & ? & ? & ? & ? & ?). by apply Hrest.
    + destruct (Hsimulated _ eq_refl) as (? & ? & ? & ? & ? & ?). by apply Hrest.
  - cbn [andb].
    destruct (WeatherSimulator.generate_hourly_reading (simulator s0) c 0
                (initial_draws env)) as [r sim] eqn:Hgen.
    cbn [use_real_weather set_weather_data set_simulator]. rewrite Hreal. cbn [andb].
    rewrite Hsim in Hgen. rewrite Hgen.
    split; [cbn; rewrite Hd; by eexists|].
    split; [unfold outbox; cbn; by rewrite Hbase|].
    split; [cbn; by rewrite Hreal|].
    split; [unfold noaa_enabled; cbn; by rewrite Hreal|].
    split; [intros _; cbn; by rewrite Hn, Hd|].
    intros alerts c'. cbn. by rewrite Hreal.
Qed.

Lemma initialize_selects_mode_witness :
  use_real_weather
    (initialize online two_pm (init two_pm true "weather-1" "Boise, ID" true)) = true /\
  outbox (_check_noaa_alerts (Some [heat_advisory]) (later 1)
            (initialize online two_pm (init two_pm true "weather-1" "Boise, ID" true)))
  = [].
Proof.
  destruct (initialize_selects_mode online two_pm
              (init two_pm true "weather-1" "Boise, ID" true))
    as (_ & Hout & Hmode & _ & _ & Hcache).
  assert (use_real_weather
            (initialize online two_pm (init two_pm true "weather-1" "Boise, ID" true))
          = true) as Hlive.
  { apply Hmode. repeat (split; [reflexivity|]).
    split; [exists "Boise", "ID"; split; [reflexivity|by eexists]|by eexists]. }
  split; [done|].
  destruct (Hcache [heat_advisory] (later 1) Hlive eq_refl) as [_ ->]. exact Hout.
Defined.

(** ** Compass directions *)













(** ** Cleaning up and stopping *)





(** ** The current weather *)

Lemma monitoring_cycle_latest (float_str : Q -> string) (env : cycle_env) (c : clock)
    (s : WeatherMonitoringAgent) :
  thresholds_numeric s ->
  exists s' update,
    monitoring_cycle float_str env c s = (s', true) /\
    last (weather_data s') = Some (acquire_reading env c s).1 /\
    last (outbox s') = Some update /\
    weather_data_of update
    = Some (VDict (WeatherReading.to_dict (acquire_reading env c s).1)).
Proof.
  intros Hnum. unfold monitoring_cycle.
  pose proof (acquire_reading_cases env c s) as Hacq. cbn zeta in Hacq.
  destruct (acquire_reading env c s) as [reading s1]. cbn [fst snd] in *.
  destruct Hacq as (_ & Hth & _).
  assert (thresholds_numeric (append_reading reading s1)) as Hnum1.
  { intros key Hkey. unfold threshold. cbn. rewrite Hth. by apply Hnum. }
  destruct (alerts_generated_total float_str reading c _ Hnum1) as [alerts Hgen].
  destruct (check_weather_alerts_active float_str reading c _ alerts Hgen)
    as (s2 & Hs2 & _ & _).
  rewrite Hs2. destruct (check_weather_alerts_same _ _ _ _ _ Hs2) as [Hsame2 _].
  destruct (check_noaa_alerts_same (fetch_alerts env) c s2) as [Hsame3 _].
  destruct (same_but_alerts_trans _ _ _ Hsame2 Hsame3)
    as (_ & _ & _ & _ & Hwd & _).
  eexists _, _. split; [reflexivity|].
  split; [cbn [weather_data _broadcast_weather_update send_message set_base];
          rewrite Hwd; apply append_reading_last|].
  split; [unfold _broadcast_weather_update, outbox, send_message; cbn; apply last_snoc|].
  done.
Qed.

(** X30.  The current weather is the latest reading: after a cycle of
    the monitoring loop, a request for the current weather is answered
    with the reading that the cycle acquired, the same that its weather
    update carried, together with the monitoring flag; before any
    reading the answer carries null. *)
Theorem current_weather_is_latest_reading (float_str : Q -> string) (env : cycle_env)
    (c c' : clock) (message : CrossLanguageMessage.t) (s : WeatherMonitoringAgent) :
  thresholds_numeric s ->
  (exists s' update answer,
     monitoring_cycle float_str env c s = (s', true) /\
     last (outbox s') = Some update /\
     outbox (handle_get_current_weather message c' s') = outbox s' ++ [answer] /\
     CrossLanguageMessage.type answer = "weather_response" /\
     payload_entry "current_weather" answer = weather_data_of update /\
     payload_entry "current_weather" answer
     = Some (VDict (WeatherReading.to_dict (acquire_reading env c s).1)) /\
     payload_entry "monitoring_active" answer = Some (VBool (monitoring_active s'))) /\
  (weather_data s = [] ->
   exists answer,
     outbox (handle_get_current_weather message c' s) = outbox s ++ [answer] /\
     payload_entry "current_weather" answer = Some VNone).
Proof.
  intros Hnum. split.
  - destruct (monitoring_cycle_latest float_str env c s Hnum)
      as (s' & update & Hs' & Hlast & Hout & Hupdate).
    exists s', update. eexists. split; [done|]. split; [done|].
    split; [reflexivity|]. split; [done|].
    unfold handle_get_current_weather, payload_entry, response.
    cbn [CrossLanguageMessage.payload CrossLanguageMessage.init]. rewrite Hlast, Hupdate.
    by repeat split.
  - intros Hempty. eexists. split; [reflexivity|].
    unfold handle_get_current_weather, payload_entry, response.
    cbn [CrossLanguageMessage.payload CrossLanguageMessage.init]. by rewrite Hempty.
Qed.

Lemma current_weather_is_latest_reading_witness :
  exists s' answer,
    monitoring_cycle plain_float_str live_cycle two_pm simulated_agent = (s', true) /\
    last (outbox (handle_get_current_weather (request "get_current_weather" (VDict ∅))
                    (later 1) s')) = Some answer /\
    payload_entry "current_weather" answer
    = Some (VDict (WeatherReading.to_dict
                     (acquire_reading live_cycle two_pm simulated_agent).1)).
Proof.
  destruct (current_weather_is_latest_reading plain_float_str live_cycle two_pm (later 1)
              (request "get_current_weather" (VDict ∅)) simulated_agent
              (default_thresholds_numeric simulated_agent eq_refl))
    as [(s' & update & answer & Hs' & _ & Hout & _ & _ & Hcurrent & _) _].
  exists s', answer. split; [done|]. split; [by rewrite Hout, last_snoc|done].
Defined.
